(** * clap-web: the embedding pipeline of [src/main.ts]

    A shallow embedding of the controller in [src/main.ts]: the module-level
    handles ([tokenizer], [textModel], [audioProcessor], [audioModel], [db]),
    the DOM elements the code writes to, and the functions that embed text
    and audio, insert into and query the vector store, clear it, and handle
    the four buttons.

    [main.ts] imports the encoders from [@huggingface/transformers] and the
    store from [idb-vector]; neither package is part of the repository.
    Their behaviour is therefore a parameter of the development (class
    [Platform]): what is proved of the controller alone holds for every
    behaviour of the encoders and of the store.  What the specification
    promises of the store itself (the similarity metric, the ranking, the
    dimension checks) is proved of the store of module [Reference], which is
    modelled from the specification, and of the controller running over it.

    JavaScript numbers are IEEE-754 binary64 values: they are modelled by
    Rocq's primitive floats.  An asynchronous function is modelled by the
    state transformer it computes when it runs to completion without another
    handler interleaving; the interleaving of user clicks with pending
    operations is modelled separately by the transition system [step]. *)

From Stdlib Require Import List String Ascii Bool Arith NArith ZArith Lia.
From Stdlib Require Import Floats Sorted Permutation DecimalString.
Import ListNotations.
Open Scope string_scope.
Open Scope list_scope.

(** ** Values *)

(** [Float32Array]: the elements, each a JavaScript number. *)
Definition Float32Array := list float.

(** What [`${error}`] prints for a thrown value. *)
Definition JsError := string.

(** A DOM [File]: [name], [type] (the media type), and an identifier of the
    bytes it holds. *)
Record File : Type := mkFile {
  file_name : string;
  file_type : string;
  file_blob : nat
}.

(** The document handed to [db.insert]. *)
Record Doc : Type := mkDoc {
  content : string;
  embedding : list float;
  tags : list string
}.

(** An element of the array [db.query] resolves to. *)
Record QueryResult : Type := mkQueryResult {
  object : Doc;
  similarity : float;
  key : nat
}.

(** The options [initVectorDB] passes to [new VectorDB]. *)
Record VectorDBOptions : Type := mkOptions {
  vectorPath : string;
  dbName : string
}.

(** How a JavaScript computation ends: normally with a value, or by
    throwing (for a promise: resolved or rejected). *)
Inductive completion (A : Type) : Type :=
| Normal (a : A)
| Throw (e : JsError).
Arguments Normal {A} a.
Arguments Throw {A} e.

(** ** Constants *)

Definition TEXT_MODEL_NAME : string := "Xenova/clap-htsat-unfused".
Definition AUDIO_MODEL_NAME : string := "Xenova/clap-htsat-unfused".
Definition DB_NAME : string := "clap-embeddings-db".
Definition TAG_AUDIO : string := "audio".

(** ** The platform: what [main.ts] imports

    The encoders and the store are opaque objects; calling them either
    yields a value or throws.  The store lives in a [World] (the IndexedDB
    database behind the handle together with whatever the handle keeps);
    [scan] lists the records a full scan of the store would show.
    [deleteDatabase_done] is the world once an [indexedDB.deleteDatabase]
    request has succeeded.  [new_object_url] is the URL
    [URL.createObjectURL] mints, given the blob URL store. *)
Class Platform : Type := {
  Tokenizer : Type;
  TextModel : Type;
  Processor : Type;
  AudioModel : Type;
  TextInputs : Type;
  AudioData : Type;
  AudioInputs : Type;
  call_tokenizer : Tokenizer -> string -> completion TextInputs;
  call_textModel : TextModel -> TextInputs -> completion Float32Array;
  decode_audio : File -> N -> completion AudioData;
  call_audioProcessor : Processor -> AudioData -> completion AudioInputs;
  call_audioModel : AudioModel -> AudioInputs -> completion Float32Array;
  VectorDB : Type;
  World : Type;
  VectorDB_new : VectorDBOptions -> World -> World * completion VectorDB;
  VectorDB_insert : VectorDB -> Doc -> World -> World * completion nat;
  VectorDB_query :
    VectorDB -> list float -> nat -> World -> completion (list QueryResult);
  deleteDatabase_done : string -> World -> World;
  scan : World -> list (nat * Doc);
  new_object_url : File -> list (string * File) -> string
}.

(** ** The page *)

(** The seven controls [disableControls] sets. *)
Inductive Control : Type :=
| embedAudioButton
| searchButton
| searchAudioButton
| clearDbButton
| textSearchInput
| audioFolderInput
| audioSearchInput.

(** A child of [searchResultsList], as [displayResults] builds them: the
    "No results found." item, the header line, or the item of a result (its
    label and the similarity that is printed with four decimals). *)
Inductive ResultNode : Type :=
| NoResults
| Header (n : nat) (type : string) (query : string)
| Item (content_ : string) (similarity_ : float).


Inductive ConsoleEntry : Type :=
| console_log (msg : string)
| console_warn (msg : string) (arg : JsError)
| console_error (msg : string) (arg : option JsError).

(** Calls that leave [main.ts], in the order they are made. *)
Inductive ExtCall `{Platform} : Type :=
| CallTokenizer (text : string)
| CallTextModel
| CallCreateObjectURL (f : File)
| CallReadAudio (url : string) (rate : N)
| CallAudioProcessor
| CallAudioModel
| CallRevokeObjectURL (url : string)
| CallNewVectorDB (o : VectorDBOptions)
| CallInsert (h : VectorDB) (d : Doc)
| CallQuery (h : VectorDB) (q : list float) (limit : nat)
| CallDeleteDatabase (name : string).

Record State `{Platform} : Type := mkState {
  tokenizer : option Tokenizer;
  textModel : option TextModel;
  audioProcessor : option Processor;
  audioModel : option AudioModel;
  db : option VectorDB;
  world : World;
  disabled : Control -> bool;
  audioEmbedStatus : string;
  dbStatus : string;
  modelStatus : string;
  modelStatusColor : string;
  searchResultsList : list ResultNode;
  audioFolderInput_files : list File;
  textSearchInput_value : string;
  audioSearchInput_files : list File;
  console : list ConsoleEntry;
  alerts : list string;
  objectUrls : list (string * File);
  calls : list ExtCall
}.

Definition set_db `{Platform} (v : option VectorDB) (st : State) : State :=
  {| tokenizer := tokenizer st; textModel := textModel st;
     audioProcessor := audioProcessor st; audioModel := audioModel st;
     db := v; world := world st; disabled := disabled st;
     audioEmbedStatus := audioEmbedStatus st; dbStatus := dbStatus st;
     modelStatus := modelStatus st; modelStatusColor := modelStatusColor st;
     searchResultsList := searchResultsList st;
     audioFolderInput_files := audioFolderInput_files st;
     textSearchInput_value := textSearchInput_value st;
     audioSearchInput_files := audioSearchInput_files st;
     console := console st; alerts := alerts st; objectUrls := objectUrls st;
     calls := calls st |}.

Definition set_world `{Platform} (v : World) (st : State) : State :=
  {| tokenizer := tokenizer st; textModel := textModel st;
     audioProcessor := audioProcessor st; audioModel := audioModel st;
     db := db st; world := v; disabled := disabled st;
     audioEmbedStatus := audioEmbedStatus st; dbStatus := dbStatus st;
     modelStatus := modelStatus st; modelStatusColor := modelStatusColor st;
     searchResultsList := searchResultsList st;
     audioFolderInput_files := audioFolderInput_files st;
     textSearchInput_value := textSearchInput_value st;
     audioSearchInput_files := audioSearchInput_files st;
     console := console st; alerts := alerts st; objectUrls := objectUrls st;
     calls := calls st |}.

Definition set_disabled `{Platform} (v : Control -> bool) (st : State) : State :=
  {| tokenizer := tokenizer st; textModel := textModel st;
     audioProcessor := audioProcessor st; audioModel := audioModel st;
     db := db st; world := world st; disabled := v;
     audioEmbedStatus := audioEmbedStatus st; dbStatus := dbStatus st;
     modelStatus := modelStatus st; modelStatusColor := modelStatusColor st;
     searchResultsList := searchResultsList st;
     audioFolderInput_files := audioFolderInput_files st;
     textSearchInput_value := textSearchInput_value st;
     audioSearchInput_files := audioSearchInput_files st;
     console := console st; alerts := alerts st; objectUrls := objectUrls st;
     calls := calls st |}.

Definition set_audioEmbedStatus `{Platform} (v : string) (st : State) : State :=
  {| tokenizer := tokenizer st; textModel := textModel st;
     audioProcessor := audioProcessor st; audioModel := audioModel st;
     db := db st; world := world st; disabled := disabled st;
     audioEmbedStatus := v; dbStatus := dbStatus st;
     modelStatus := modelStatus st; modelStatusColor := modelStatusColor st;
     searchResultsList := searchResultsList st;
     audioFolderInput_files := audioFolderInput_files st;
     textSearchInput_value := textSearchInput_value st;
     audioSearchInput_files := audioSearchInput_files st;
     console := console st; alerts := alerts st; objectUrls := objectUrls st;
     calls := calls st |}.

Definition set_dbStatus `{Platform} (v : string) (st : State) : State :=
  {| tokenizer := tokenizer st; textModel := textModel st;
     audioProcessor := audioProcessor st; audioModel := audioModel st;
     db := db st; world := world st; disabled := disabled st;
     audioEmbedStatus := audioEmbedStatus st; dbStatus := v;
     modelStatus := modelStatus st; modelStatusColor := modelStatusColor st;
     searchResultsList := searchResultsList st;
     audioFolderInput_files := audioFolderInput_files st;
     textSearchInput_value := textSearchInput_value st;
     audioSearchInput_files := audioSearchInput_files st;
     console := console st; alerts := alerts st; objectUrls := objectUrls st;
     calls := calls st |}.

Definition set_modelStatus `{Platform} (v : string) (st : State) : State :=
  {| tokenizer := tokenizer st; textModel := textModel st;
     audioProcessor := audioProcessor st; audioModel := audioModel st;
     db := db st; world := world st; disabled := disabled st;
     audioEmbedStatus := audioEmbedStatus st; dbStatus := dbStatus st;
     modelStatus := v; modelStatusColor := modelStatusColor st;
     searchResultsList := searchResultsList st;
     audioFolderInput_files := audioFolderInput_files st;
     textSearchInput_value := textSearchInput_value st;
     audioSearchInput_files := audioSearchInput_files st;
     console := console st; alerts := alerts st; objectUrls := objectUrls st;
     calls := calls st |}.

Definition set_modelStatusColor `{Platform} (v : string) (st : State) : State :=
  {| tokenizer := tokenizer st; textModel := textModel st;
     audioProcessor := audioProcessor st; audioModel := audioModel st;
     db := db st; world := world st; disabled := disabled st;
     audioEmbedStatus := audioEmbedStatus st; dbStatus := dbStatus st;
     modelStatus := modelStatus st; modelStatusColor := v;
     searchResultsList := searchResultsList st;
     audioFolderInput_files := audioFolderInput_files st;
     textSearchInput_value := textSearchInput_value st;
     audioSearchInput_files := audioSearchInput_files st;
     console := console st; alerts := alerts st; objectUrls := objectUrls st;
     calls := calls st |}.

Definition set_searchResultsList `{Platform} (v : list ResultNode) (st : State) : State :=
  {| tokenizer := tokenizer st; textModel := textModel st;
     audioProcessor := audioProcessor st; audioModel := audioModel st;
     db := db st; world := world st; disabled := disabled st;
     audioEmbedStatus := audioEmbedStatus st; dbStatus := dbStatus st;
     modelStatus := modelStatus st; modelStatusColor := modelStatusColor st;
     searchResultsList := v;
     audioFolderInput_files := audioFolderInput_files st;
     textSearchInput_value := textSearchInput_value st;
     audioSearchInput_files := audioSearchInput_files st;
     console := console st; alerts := alerts st; objectUrls := objectUrls st;
     calls := calls st |}.

Definition set_console `{Platform} (v : list ConsoleEntry) (st : State) : State :=
  {| tokenizer := tokenizer st; textModel := textModel st;
     audioProcessor := audioProcessor st; audioModel := audioModel st;
     db := db st; world := world st; disabled := disabled st;
     audioEmbedStatus := audioEmbedStatus st; dbStatus := dbStatus st;
     modelStatus := modelStatus st; modelStatusColor := modelStatusColor st;
     searchResultsList := searchResultsList st;
     audioFolderInput_files := audioFolderInput_files st;
     textSearchInput_value := textSearchInput_value st;
     audioSearchInput_files := audioSearchInput_files st; console := v;
     alerts := alerts st; objectUrls := objectUrls st; calls := calls st |}.

Definition set_alerts `{Platform} (v : list string) (st : State) : State :=
  {| tokenizer := tokenizer st; textModel := textModel st;
     audioProcessor := audioProcessor st; audioModel := audioModel st;
     db := db st; world := world st; disabled := disabled st;
     audioEmbedStatus := audioEmbedStatus st; dbStatus := dbStatus st;
     modelStatus := modelStatus st; modelStatusColor := modelStatusColor st;
     searchResultsList := searchResultsList st;
     audioFolderInput_files := audioFolderInput_files st;
     textSearchInput_value := textSearchInput_value st;
     audioSearchInput_files := audioSearchInput_files st;
     console := console st; alerts := v; objectUrls := objectUrls st;
     calls := calls st |}.

Definition set_objectUrls `{Platform} (v : list (string * File)) (st : State) : State :=
  {| tokenizer := tokenizer st; textModel := textModel st;
     audioProcessor := audioProcessor st; audioModel := audioModel st;
     db := db st; world := world st; disabled := disabled st;
     audioEmbedStatus := audioEmbedStatus st; dbStatus := dbStatus st;
     modelStatus := modelStatus st; modelStatusColor := modelStatusColor st;
     searchResultsList := searchResultsList st;
     audioFolderInput_files := audioFolderInput_files st;
     textSearchInput_value := textSearchInput_value st;
     audioSearchInput_files := audioSearchInput_files st;
     console := console st; alerts := alerts st; objectUrls := v;
     calls := calls st |}.

Definition set_calls `{Platform} (v : list ExtCall) (st : State) : State :=
  {| tokenizer := tokenizer st; textModel := textModel st;
     audioProcessor := audioProcessor st; audioModel := audioModel st;
     db := db st; world := world st; disabled := disabled st;
     audioEmbedStatus := audioEmbedStatus st; dbStatus := dbStatus st;
     modelStatus := modelStatus st; modelStatusColor := modelStatusColor st;
     searchResultsList := searchResultsList st;
     audioFolderInput_files := audioFolderInput_files st;
     textSearchInput_value := textSearchInput_value st;
     audioSearchInput_files := audioSearchInput_files st;
     console := console st; alerts := alerts st; objectUrls := objectUrls st;
     calls := v |}.
(** ** Computations: state and exceptions *)

Definition M `{Platform} (A : Type) : Type := State -> State * completion A.

Definition ret `{Platform} {A} (a : A) : M A := fun st => (st, Normal a).

Definition throw `{Platform} {A} (e : JsError) : M A := fun st => (st, Throw e).

Definition bind `{Platform} {A B} (m : M A) (k : A -> M B) : M B :=
  fun st =>
    match m st with
    | (st', Normal a) => k a st'
    | (st', Throw e) => (st', Throw e)
    end.

(** [try { m } catch (error) { h error }] *)
Definition try_catch `{Platform} {A} (m : M A) (h : JsError -> M A) : M A :=
  fun st =>
    match m st with
    | (st', Normal a) => (st', Normal a)
    | (st', Throw e) => h e st'
    end.

(** [try { m } finally { f }]: [f] runs however [m] ends, and [m]'s
    completion stands unless [f] itself throws. *)
Definition try_finally `{Platform} {A} (m : M A) (f : M unit) : M A :=
  fun st =>
    match m st with
    | (st', r) =>
        match f st' with
        | (st'', Normal _) => (st'', r)
        | (st'', Throw e) => (st'', Throw e)
        end
    end.

Definition gets `{Platform} {A} (f : State -> A) : M A :=
  fun st => (st, Normal (f st)).

Definition modify `{Platform} (f : State -> State) : M unit :=
  fun st => (f st, Normal tt).

(** Lifts the completion of a call that does not touch the state. *)
Definition lift `{Platform} {A} (c : completion A) : M A :=
  fun st => (st, c).

Declare Scope js_scope.
Delimit Scope js_scope with js.
Notation "x <- m ;; k" := (bind m (fun x => k))
  (at level 61, m at next level, right associativity) : js_scope.
Notation "m ;; k" := (bind m (fun _ => k))
  (at level 61, right associativity) : js_scope.
Open Scope js_scope.

Definition run `{Platform} {A} (m : M A) (st : State) : State := fst (m st).
Definition result `{Platform} {A} (m : M A) (st : State) : completion A :=
  snd (m st).

(** ** Helpers for JavaScript's built-ins *)

(** String concatenation, as in a template literal. *)
Infix "+++" := String.append (at level 60, right associativity).

(** [`${n}`] for a non-negative integer. *)
Definition show_nat (n : nat) : string :=
  NilEmpty.string_of_uint (Nat.to_uint n).

(** [Array.from(embedding)]: the same elements, as an [Array]. *)
Definition Array_from (e : Float32Array) : list float := e.

(** A string is truthy when it is not empty. *)
Definition truthy (s : string) : bool := negb (String.eqb s "").

(** [type.startsWith("audio/")] *)
Definition startsWith (s p : string) : bool := String.prefix p s.

(** A string stands for the JavaScript string it encodes in UTF-8, the
    encoding of the string literals of this file: the code points below
    U+0080 are one byte each, the others two to four bytes. *)

(** The code points [String.prototype.trim] removes (ECMAScript,
    StrWhiteSpaceChar): WhiteSpace, that is TAB, VT, FF, ZWNBSP and the
    space separators of Unicode (SP, NBSP, U+1680, U+2000 to U+200A, U+202F,
    U+205F, U+3000), and LineTerminator, that is LF, CR, LS and PS. *)
Definition WhiteSpace : list N :=
  [0x9; 0xB; 0xC; 0xFEFF; 0x20; 0xA0; 0x1680; 0x2000; 0x2001; 0x2002; 0x2003;
   0x2004; 0x2005; 0x2006; 0x2007; 0x2008; 0x2009; 0x200A; 0x202F; 0x205F;
   0x3000]%N.

Definition LineTerminator : list N := [0xA; 0xD; 0x2028; 0x2029]%N.

(** The UTF-8 bytes of a code point below U+10000. *)
Definition utf8 (c : N) : string :=
  let byte (n : N) := String (ascii_of_N n) EmptyString in
  if N.ltb c 0x80 then byte c
  else if N.ltb c 0x800 then
    byte (0xC0 + c / 0x40)%N +++ byte (0x80 + c mod 0x40)%N
  else
    byte (0xE0 + c / 0x1000)%N +++ byte (0x80 + (c / 0x40) mod 0x40)%N
      +++ byte (0x80 + c mod 0x40)%N.

Definition StrWhiteSpaceChar : list string :=
  map utf8 (WhiteSpace ++ LineTerminator).

Fixpoint rev_string (s acc : string) : string :=
  match s with
  | String c s' => rev_string s' (String c acc)
  | EmptyString => acc
  end.

(** [s] without its prefix [p], when it starts with [p]. *)
Fixpoint strip_prefix (p s : string) : option string :=
  match p, s with
  | EmptyString, _ => Some s
  | String a p', String b s' =>
      if Ascii.eqb a b then strip_prefix p' s' else None
  | String _ _, EmptyString => None
  end.

(** [s] without the first of [ws] it starts with. *)
Fixpoint strip_one (ws : list string) (s : string) : option string :=
  match ws with
  | [] => None
  | w :: ws' =>
      match strip_prefix w s with
      | Some s' => Some s'
      | None => strip_one ws' s
      end
  end.

(** [s] without the elements of [ws] it starts with, at most [n] of them. *)
Fixpoint strip_all (n : nat) (ws : list string) (s : string) : string :=
  match n with
  | 0 => s
  | S n' =>
      match strip_one ws s with
      | Some s' => strip_all n' ws s'
      | None => s
      end
  end.

(** [String.prototype.trimStart], [trimEnd] and [trim]: the string without
    its leading and trailing white space and line terminators.  The end is
    trimmed on the reversed string, where the bytes of a code point come in
    reverse. *)
Definition trimStart (s : string) : string :=
  strip_all (String.length s) StrWhiteSpaceChar s.

Definition trimEnd (s : string) : string :=
  rev_string
    (strip_all (String.length s)
       (map (fun w => rev_string w "") StrWhiteSpaceChar)
       (rev_string s "")) "".

Definition trim (s : string) : string := trimEnd (trimStart s).

(** The blob URL store: [URL.createObjectURL] adds an entry under a new
    URL, [URL.revokeObjectURL] removes the entries under a URL, and reading
    a [blob:] URL resolves it in the store. *)
Fixpoint revoke (url : string) (reg : list (string * File))
  : list (string * File) :=
  match reg with
  | [] => []
  | (u, f) :: reg' =>
      if String.eqb u url then revoke url reg' else (u, f) :: revoke url reg'
  end.

Fixpoint resolve (url : string) (reg : list (string * File)) : option File :=
  match reg with
  | [] => None
  | (u, f) :: reg' => if String.eqb u url then Some f else resolve url reg'
  end.

Section Controller.
Context `{P : Platform}.

(** ** Calls that leave the module *)

Definition called (c : ExtCall) : M unit :=
  modify (fun st => set_calls (calls st ++ [c]) st).

Definition log (e : ConsoleEntry) : M unit :=
  modify (fun st => set_console (console st ++ [e]) st).

Definition alert (msg : string) : M unit :=
  modify (fun st => set_alerts (alerts st ++ [msg]) st).

Definition URL_createObjectURL (f : File) : M string :=
  called (CallCreateObjectURL f) ;;
  reg <- gets objectUrls ;;
  let url := new_object_url f reg in
  modify (set_objectUrls ((url, f) :: reg)) ;;
  ret url.

Definition URL_revokeObjectURL (url : string) : M unit :=
  called (CallRevokeObjectURL url) ;;
  modify (fun st => set_objectUrls (revoke url (objectUrls st)) st).

(** [read_audio(url, rate)]: fetches the URL and decodes what it holds. *)
Definition read_audio (url : string) (rate : N) : M AudioData :=
  called (CallReadAudio url rate) ;;
  reg <- gets objectUrls ;;
  match resolve url reg with
  | Some f => lift (decode_audio f rate)
  | None => throw ("Failed to fetch " +++ url)
  end.

Definition tokenizer_call (tk : Tokenizer) (text : string) : M TextInputs :=
  called (CallTokenizer text) ;; lift (call_tokenizer tk text).

Definition textModel_call (tm : TextModel) (i : TextInputs) : M Float32Array :=
  called CallTextModel ;; lift (call_textModel tm i).

Definition audioProcessor_call (p : Processor) (d : AudioData)
  : M AudioInputs :=
  called CallAudioProcessor ;; lift (call_audioProcessor p d).

Definition audioModel_call (m : AudioModel) (i : AudioInputs)
  : M Float32Array :=
  called CallAudioModel ;; lift (call_audioModel m i).

(** [new VectorDB(options)] *)
Definition new_VectorDB (o : VectorDBOptions) : M VectorDB :=
  called (CallNewVectorDB o) ;;
  fun st =>
    let (w, r) := VectorDB_new o (world st) in (set_world w st, r).

(** [db.insert(doc)] *)
Definition db_insert (h : VectorDB) (d : Doc) : M nat :=
  called (CallInsert h d) ;;
  fun st =>
    let (w, r) := VectorDB_insert h d (world st) in (set_world w st, r).

(** [db.query(array, { limit })] *)
Definition db_query (h : VectorDB) (q : list float) (limit : nat)
  : M (list QueryResult) :=
  called (CallQuery h q limit) ;;
  fun st => (st, VectorDB_query h q limit (world st)).

(** ** Utility functions *)

Definition updateModelStatus (message : string) (loaded : bool) : M unit :=
  modify (set_modelStatus message) ;;
  (if loaded then modify (set_modelStatusColor "green") else ret tt) ;;
  log (console_log message).

Definition updateAudioEmbedStatus (message : string) : M unit :=
  modify (set_audioEmbedStatus message) ;;
  log (console_log message).

Definition updateDbStatus (message : string) : M unit :=
  modify (set_dbStatus message) ;;
  log (console_log message).

Definition disableControls (disabled_ : bool) : M unit :=
  modify (set_disabled (fun c =>
    match c with
    | embedAudioButton => disabled_
    | searchButton => disabled_
    | searchAudioButton => disabled_
    | clearDbButton => disabled_
    | textSearchInput => disabled_
    | audioFolderInput => disabled_
    | audioSearchInput => disabled_
    end)).

(** ** Vector DB initialization *)

Definition initVectorDB : M unit :=
  disableControls true ;;
  updateDbStatus "Initializing vector database..." ;;
  try_catch
    (h <- new_VectorDB {| vectorPath := "embedding"; dbName := DB_NAME |} ;;
     modify (set_db (Some h)) ;;
     updateDbStatus "Vector database initialized." ;;
     disableControls false)
    (fun error =>
       log (console_warn
              "Db constructor failed. Attempting Db.new() as fallback" error) ;;
       updateDbStatus
         "Failed to initialize vector database. App will not function correctly." ;;
       disableControls true).

(** ** Embeddings *)

Definition getTextEmbedding (text : string) : M (option Float32Array) :=
  tk <- gets tokenizer ;;
  tm <- gets textModel ;;
  match tk, tm with
  | Some tk, Some tm =>
      try_catch
        (text_inputs <- tokenizer_call tk text ;;
         text_embeds <- textModel_call tm text_inputs ;;
         ret (Some text_embeds))
        (fun error =>
           log (console_error "Error getting text embedding:" (Some error)) ;;
           updateModelStatus ("Error creating text embedding: " +++ error) false ;;
           ret None)
  | _, _ =>
      updateModelStatus "Text model or tokenizer not loaded." false ;;
      ret None
  end.

(** The local [objectUrl] is assigned by the first statement of the [try]
    block and read in the [finally] block; [URL.createObjectURL] does not
    throw for a [File], so the [finally] block sees the URL it returned. *)
Definition getAudioEmbedding (audioFile : File) : M (option Float32Array) :=
  ap <- gets audioProcessor ;;
  am <- gets audioModel ;;
  match ap, am with
  | Some ap, Some am =>
      objectUrl <- URL_createObjectURL audioFile ;;
      try_finally
        (try_catch
           (audioData <- read_audio objectUrl 44100%N ;;
            audio_inputs <- audioProcessor_call ap audioData ;;
            audio_embeds <- audioModel_call am audio_inputs ;;
            ret (Some audio_embeds))
           (fun error =>
              log (console_error "Error getting audio embedding:" (Some error)) ;;
              updateModelStatus
                ("Error creating audio embedding: " +++ error) false ;;
              ret None))
        (if truthy objectUrl then URL_revokeObjectURL objectUrl else ret tt)
  | _, _ =>
      updateModelStatus "Audio model or processor not loaded." false ;;
      ret None
  end.

(** ** Database operations *)

Definition insertIntoDB (content_ : string) (embedding_ : Float32Array)
    (tags_ : list string) : M unit :=
  d <- gets db ;;
  match d with
  | None => updateDbStatus "Database not initialized."
  | Some h =>
      try_catch
        (let array := Array_from embedding_ in
         _ <- db_insert h
                {| content := content_; embedding := array; tags := tags_ |} ;;
         log (console_log ("Inserted: " +++ content_)))
        (fun error =>
           updateDbStatus ("Error inserting into DB: " +++ error) ;;
           log (console_error "DB insert error:" (Some error)))
  end.

Definition searchDB (embedding_ : Float32Array) (k : nat)
  : M (list QueryResult) :=
  d <- gets db ;;
  match d with
  | None => updateDbStatus "Database not initialized." ;; ret []
  | Some h =>
      if Nat.eqb (List.length embedding_) 0 then
        updateModelStatus "Cannot search with empty embedding." false ;;
        ret []
      else
        try_catch
          (let array := Array_from embedding_ in
           results <- db_query h array k ;;
           log (console_log "Search results:") ;;
           ret results)
          (fun error =>
             updateDbStatus ("Error searching DB: " +++ error) ;;
             log (console_error "DB search error:" (Some error)) ;;
             ret [])
  end.

(** [clearDB] issues the request and returns; the request settles later
    and then runs one of the three callbacks ([deleteRequest_settled]). *)
Definition clearDB : M unit :=
  d <- gets db ;;
  match d with
  | None =>
      updateDbStatus "Database not initialized." ;;
      log (console_error "DB does not exist" None)
  | Some _ => called (CallDeleteDatabase DB_NAME)
  end.

Inductive DeleteOutcome : Type :=
| DeleteSucceeded
| DeleteFailed (target_error : JsError)
| DeleteBlocked.

Definition request_onerror (target_error : JsError) : M unit :=
  updateDbStatus ("Error clearing DB: " +++ target_error).

Definition request_onblocked : M unit :=
  alert "Database clearing was blocked, probably due to an open connection.".

Definition request_onsuccess : M unit :=
  log (console_log "Database cleared") ;;
  updateDbStatus "Database cleared." ;;
  modify (set_searchResultsList []).

Definition deleteRequest_settled (o : DeleteOutcome) : M unit :=
  match o with
  | DeleteSucceeded =>
      modify (fun st => set_world (deleteDatabase_done DB_NAME (world st)) st) ;;
      request_onsuccess
  | DeleteFailed e => request_onerror e
  | DeleteBlocked => request_onblocked
  end.


(** ** UI event handlers

    Each handler is written as the part that runs up to its first
    suspension ([_begin], which yields what the rest needs when the guards
    let it through) followed by the part that runs once the awaited work is
    done ([_rest]). *)

(** One iteration of [for (const file of files)], from [count] to the new
    [count]. *)
Definition embed_file (files_length : nat) (count : nat) (file : File)
  : M nat :=
  if startsWith (file_type file) "audio/" then
    try_catch
      (updateAudioEmbedStatus
         ("Embedding " +++ file_name file +++ "... (" +++ show_nat (count + 1)
            +++ "/" +++ show_nat files_length +++ ")") ;;
       embedding_ <- getAudioEmbedding file ;;
       match embedding_ with
       | Some e =>
           insertIntoDB (file_name file) e [TAG_AUDIO; file_type file] ;;
           ret (count + 1)
       | None => ret count
       end)
      (fun err =>
         updateAudioEmbedStatus
           ("Error embedding " +++ file_name file +++ ": " +++ err) ;;
         log (console_error ("Error embedding " +++ file_name file +++ ":")
                (Some err)) ;;
         ret count)
  else
    updateAudioEmbedStatus ("Skipping non-audio file: " +++ file_name file) ;;
    ret count.

Fixpoint for_files (files_length : nat) (count : nat) (files : list File)
  : M nat :=
  match files with
  | [] => ret count
  | file :: rest =>
      count' <- embed_file files_length count file ;;
      for_files files_length count' rest
  end.

Definition handleEmbedAudioFolder_begin : M (option (list File)) :=
  files <- gets audioFolderInput_files ;;
  if Nat.eqb (List.length files) 0 then
    updateAudioEmbedStatus "No folder/files selected." ;; ret None
  else
    am <- gets audioModel ;;
    ap <- gets audioProcessor ;;
    d <- gets db ;;
    match am, ap, d with
    | Some _, Some _, Some _ =>
        disableControls true ;;
        updateAudioEmbedStatus
          ("Processing " +++ show_nat (List.length files) +++ " files...") ;;
        ret (Some files)
    | _, _, _ => updateAudioEmbedStatus "Models or DB not ready." ;; ret None
    end.

Definition handleEmbedAudioFolder_rest (files : list File) : M unit :=
  count <- for_files (List.length files) 0 files ;;
  updateAudioEmbedStatus
    ("Finished embedding " +++ show_nat count +++ " audio files.") ;;
  disableControls false.

Definition handleEmbedAudioFolder : M unit :=
  r <- handleEmbedAudioFolder_begin ;;
  match r with
  | Some files => handleEmbedAudioFolder_rest files
  | None => ret tt
  end.

Definition displayResults (results : list QueryResult) (type query : string)
  : M unit :=
  modify (set_searchResultsList []) ;;
  if Nat.eqb (List.length results) 0 then
    modify (fun st =>
      set_searchResultsList (searchResultsList st ++ [NoResults]) st)
  else
    modify (fun st =>
      set_searchResultsList
        (searchResultsList st ++ [Header (List.length results) type query]) st) ;;
    modify (fun st =>
      set_searchResultsList
        (searchResultsList st
           ++ map (fun r => Item (content (object r)) (similarity r)) results)
        st).

Definition handleTextSearch_begin : M (option string) :=
  value <- gets textSearchInput_value ;;
  let query := trim value in
  if negb (truthy query) then
    alert "Please enter a search query." ;; ret None
  else
    tm <- gets textModel ;;
    tk <- gets tokenizer ;;
    d <- gets db ;;
    match tm, tk, d with
    | Some _, Some _, Some _ =>
        disableControls true ;;
        updateModelStatus "Generating text embedding for search..." false ;;
        ret (Some query)
    | _, _, _ =>
        updateModelStatus "Models or DB not ready for search." false ;;
        ret None
    end.

Definition handleTextSearch_rest (query : string) : M unit :=
  embedding_ <- getTextEmbedding query ;;
  match embedding_ with
  | Some e =>
      updateModelStatus "Searching database..." false ;;
      results <- searchDB e 10 ;;
      displayResults results "text" query ;;
      updateModelStatus "Search complete." true
  | None =>
      updateModelStatus "Failed to generate embedding for search." false
  end ;;
  disableControls false.

Definition handleTextSearch : M unit :=
  r <- handleTextSearch_begin ;;
  match r with
  | Some query => handleTextSearch_rest query
  | None => ret tt
  end.

Definition handleAudioFileSearch_begin : M (option File) :=
  files <- gets audioSearchInput_files ;;
  match files with
  | [] =>
      alert "Please select an audio file to search with." ;; ret None
  | audioFile :: _ =>
      am <- gets audioModel ;;
      ap <- gets audioProcessor ;;
      d <- gets db ;;
      match am, ap, d with
      | Some _, Some _, Some _ =>
          disableControls true ;;
          updateModelStatus
            ("Generating audio embedding for " +++ file_name audioFile
               +++ "...") false ;;
          ret (Some audioFile)
      | _, _, _ =>
          updateModelStatus "Models or DB not ready for search." false ;;
          ret None
      end
  end.

Definition handleAudioFileSearch_rest (audioFile : File) : M unit :=
  embedding_ <- getAudioEmbedding audioFile ;;
  match embedding_ with
  | Some e =>
      updateModelStatus "Searching database with audio query..." false ;;
      results <- searchDB e 10 ;;
      displayResults results "audio" (file_name audioFile) ;;
      updateModelStatus "Audio search complete." true
  | None =>
      updateModelStatus "Failed to generate embedding for audio search." false
  end ;;
  disableControls false.

Definition handleAudioFileSearch : M unit :=
  r <- handleAudioFileSearch_begin ;;
  match r with
  | Some audioFile => handleAudioFileSearch_rest audioFile
  | None => ret tt
  end.

(** ** Clicks and pending operations

    A click on a disabled control dispatches no event.  A handler that gets
    past its guards is running until its [_rest] has run ([Resume]; the
    suspensions inside [_rest] are not told apart, since the controls change
    only at its end); a clear is running from the [deleteDatabase] request
    until the request succeeds or fails (a blocked request stays
    pending). *)

Inductive Task : Type :=
| EmbedTask (files : list File)
| TextSearchTask (query : string)
| AudioSearchTask (audioFile : File)
| ClearTask.

Record Page : Type := mkPage {
  app : State;
  running : list Task
}.

Inductive Event : Type :=
| Click (c : Control)
| Resume (n : nat)
| DeleteRequestEvent (n : nat) (o : DeleteOutcome).

Fixpoint remove_nth {A} (n : nat) (l : list A) : list A :=
  match l, n with
  | [], _ => []
  | _ :: l', 0 => l'
  | x :: l', S n' => x :: remove_nth n' l'
  end.

(** The listener registered on each control; the inputs have none. *)
Definition listener (c : Control) (pg : Page) : Page :=
  let begun {A} (m : M (option A)) (task : A -> Task) :=
    match m (app pg) with
    | (st, Normal (Some a)) =>
        {| app := st; running := running pg ++ [task a] |}
    | (st, _) => {| app := st; running := running pg |}
    end in
  match c with
  | embedAudioButton => begun handleEmbedAudioFolder_begin EmbedTask
  | searchButton => begun handleTextSearch_begin TextSearchTask
  | searchAudioButton => begun handleAudioFileSearch_begin AudioSearchTask
  | clearDbButton =>
      match db (app pg) with
      | Some _ =>
          {| app := run clearDB (app pg); running := running pg ++ [ClearTask] |}
      | None => {| app := run clearDB (app pg); running := running pg |}
      end
  | _ => pg
  end.

Definition step (e : Event) (pg : Page) : Page :=
  match e with
  | Click c => if disabled (app pg) c then pg else listener c pg
  | Resume n =>
      let finished (m : M unit) :=
        {| app := run m (app pg); running := remove_nth n (running pg) |} in
      match nth_error (running pg) n with
      | Some (EmbedTask files) => finished (handleEmbedAudioFolder_rest files)
      | Some (TextSearchTask query) => finished (handleTextSearch_rest query)
      | Some (AudioSearchTask f) => finished (handleAudioFileSearch_rest f)
      | _ => pg
      end
  | DeleteRequestEvent n o =>
      match nth_error (running pg) n with
      | Some ClearTask =>
          {| app := run (deleteRequest_settled o) (app pg);
             running := match o with
                        | DeleteBlocked => running pg
                        | _ => remove_nth n (running pg)
                        end |}
      | _ => pg
      end
  end.

Definition steps (es : list Event) (pg : Page) : Page :=
  fold_left (fun pg e => step e pg) es pg.

End Controller.

(** * Startup: model loading and [main]

    [loadModels] obtains the four handles with [from_pretrained]; the two
    model loads report their progress through a callback.  The loads are
    calls into [@huggingface/transformers] and, like the encoders, a
    parameter ([Loader]): each load yields a handle or throws, and a model
    load also yields the progress objects its callback is called with
    before it settles.  What [`${progress.file}`] and
    [`${Math.round(progress.progress)}`] print for such an object is left
    to the loader.  The loads are not entered in the trace [calls]. *)

Definition set_tokenizer `{Platform} (v : option Tokenizer) (st : State)
  : State :=
  {| tokenizer := v; textModel := textModel st;
     audioProcessor := audioProcessor st; audioModel := audioModel st;
     db := db st; world := world st; disabled := disabled st;
     audioEmbedStatus := audioEmbedStatus st; dbStatus := dbStatus st;
     modelStatus := modelStatus st; modelStatusColor := modelStatusColor st;
     searchResultsList := searchResultsList st;
     audioFolderInput_files := audioFolderInput_files st;
     textSearchInput_value := textSearchInput_value st;
     audioSearchInput_files := audioSearchInput_files st;
     console := console st; alerts := alerts st; objectUrls := objectUrls st;
     calls := calls st |}.

Definition set_textModel `{Platform} (v : option TextModel) (st : State)
  : State :=
  {| tokenizer := tokenizer st; textModel := v;
     audioProcessor := audioProcessor st; audioModel := audioModel st;
     db := db st; world := world st; disabled := disabled st;
     audioEmbedStatus := audioEmbedStatus st; dbStatus := dbStatus st;
     modelStatus := modelStatus st; modelStatusColor := modelStatusColor st;
     searchResultsList := searchResultsList st;
     audioFolderInput_files := audioFolderInput_files st;
     textSearchInput_value := textSearchInput_value st;
     audioSearchInput_files := audioSearchInput_files st;
     console := console st; alerts := alerts st; objectUrls := objectUrls st;
     calls := calls st |}.

Definition set_audioProcessor `{Platform} (v : option Processor) (st : State)
  : State :=
  {| tokenizer := tokenizer st; textModel := textModel st;
     audioProcessor := v; audioModel := audioModel st; db := db st;
     world := world st; disabled := disabled st;
     audioEmbedStatus := audioEmbedStatus st; dbStatus := dbStatus st;
     modelStatus := modelStatus st; modelStatusColor := modelStatusColor st;
     searchResultsList := searchResultsList st;
     audioFolderInput_files := audioFolderInput_files st;
     textSearchInput_value := textSearchInput_value st;
     audioSearchInput_files := audioSearchInput_files st;
     console := console st; alerts := alerts st; objectUrls := objectUrls st;
     calls := calls st |}.

Definition set_audioModel `{Platform} (v : option AudioModel) (st : State)
  : State :=
  {| tokenizer := tokenizer st; textModel := textModel st;
     audioProcessor := audioProcessor st; audioModel := v; db := db st;
     world := world st; disabled := disabled st;
     audioEmbedStatus := audioEmbedStatus st; dbStatus := dbStatus st;
     modelStatus := modelStatus st; modelStatusColor := modelStatusColor st;
     searchResultsList := searchResultsList st;
     audioFolderInput_files := audioFolderInput_files st;
     textSearchInput_value := textSearchInput_value st;
     audioSearchInput_files := audioSearchInput_files st;
     console := console st; alerts := alerts st; objectUrls := objectUrls st;
     calls := calls st |}.
Class Loader `{Platform} : Type := {
  Progress : Type;
  progress_file : Progress -> string;
  progress_percent : Progress -> string;
  AutoTokenizer_from_pretrained : string -> completion Tokenizer;
  ClapTextModelWithProjection_from_pretrained :
    string -> list Progress * completion TextModel;
  AutoProcessor_from_pretrained : string -> completion Processor;
  ClapAudioModelWithProjection_from_pretrained :
    string -> list Progress * completion AudioModel
}.

Section Startup.
Context `{P : Platform} {L : Loader}.

(** The calls of a [progress_callback], one for each progress object. *)
Fixpoint progress_callbacks (label : string) (events : list Progress)
  : M unit :=
  match events with
  | [] => ret tt
  | progress :: rest =>
      updateModelStatus
        (label +++ progress_file progress +++ " ("
           +++ progress_percent progress +++ "%)...") false ;;
      progress_callbacks label rest
  end.

(** A model load: the callbacks run while the promise is pending, then
    the promise settles. *)
Definition from_pretrained_with_progress {A} (label : string)
    (load : list Progress * completion A) : M A :=
  progress_callbacks label (fst load) ;; lift (snd load).

Definition loadModels : M unit :=
  disableControls true ;;
  updateModelStatus "Loading tokenizer..." false ;;
  try_catch
    (tk <- lift (AutoTokenizer_from_pretrained TEXT_MODEL_NAME) ;;
     modify (set_tokenizer (Some tk)) ;;
     updateModelStatus "Tokenizer loaded. Loading text model..." false ;;
     tm <- from_pretrained_with_progress "Loading text model: "
             (ClapTextModelWithProjection_from_pretrained TEXT_MODEL_NAME) ;;
     modify (set_textModel (Some tm)) ;;
     updateModelStatus "Text model loaded. Loading audio processor..." false ;;
     ap <- lift (AutoProcessor_from_pretrained AUDIO_MODEL_NAME) ;;
     modify (set_audioProcessor (Some ap)) ;;
     updateModelStatus "Audio processor loaded. Loading audio model..." false ;;
     am <- from_pretrained_with_progress "Loading audio model: "
             (ClapAudioModelWithProjection_from_pretrained AUDIO_MODEL_NAME) ;;
     modify (set_audioModel (Some am)) ;;
     updateModelStatus "All models loaded successfully!" true ;;
     disableControls false)
    (fun error =>
       updateModelStatus ("Error loading models: " +++ error) false ;;
       log (console_error "Model loading error:" (Some error)) ;;
       disableControls true).

Definition main : M unit :=
  disableControls true ;;
  initVectorDB ;;
  loadModels ;;
  d <- gets db ;;
  tk <- gets tokenizer ;;
  tm <- gets textModel ;;
  ap <- gets audioProcessor ;;
  am <- gets audioModel ;;
  match d, tk, tm, ap, am with
  | Some _, Some _, Some _, Some _, Some _ => disableControls false
  | _, _, _, _, _ =>
      updateModelStatus
        "Application initialization failed. Some features may be disabled."
        false
  end.

End Startup.

(** * What the claims speak of

    The predicates and counts used to state the properties. *)

Section Vocabulary.
Context `{P : Platform}.

Definition text_ready (st : State) : bool :=
  match tokenizer st, textModel st with
  | Some _, Some _ => true
  | _, _ => false
  end.

Definition audio_ready (st : State) : bool :=
  match audioProcessor st, audioModel st with
  | Some _, Some _ => true
  | _, _ => false
  end.

(** The NotReady condition of an encoder: [null] is returned, the status
    line says which encoder is missing, no call left the module and the
    handles are what they were (nothing was loaded). *)
Definition NotReady (message : string) (st : State)
    (out : State * completion (option Float32Array)) : Prop :=
  snd out = Normal None /\
  modelStatus (fst out) = message /\
  calls (fst out) = calls st /\
  tokenizer (fst out) = tokenizer st /\
  textModel (fst out) = textModel st /\
  audioProcessor (fst out) = audioProcessor st /\
  audioModel (fst out) = audioModel st.

(** The order of section 4.2 between a result and a later one: the
    similarity does not increase, and equal similarities come in ascending
    key order. *)
Definition in_rank_order (r1 r2 : QueryResult) : bool :=
  PrimFloat.leb (similarity r2) (similarity r1)
  && (negb (PrimFloat.eqb (similarity r1) (similarity r2))
      || Nat.ltb (key r1) (key r2)).

Definition ranks_before (r1 r2 : QueryResult) : Prop :=
  in_rank_order r1 r2 = true.

(** The contract of [rank(q, k)]: min(k, store size) results in rank
    order. *)
Definition ranked_top (k storeSize : nat) (rs : list QueryResult) : Prop :=
  List.length rs = Nat.min k storeSize /\
  StronglySorted (fun r1 r2 => in_rank_order r1 r2 = true) rs.

(** A JavaScript number that is not NaN: it equals itself. *)
Definition is_number (x : float) : bool := PrimFloat.eqb x x.

(** The place of a number in the order of the floats: first its class
    (negative infinity, negative, zero, positive, positive infinity), then
    its exponent, then its mantissa.  The two zeros share a place. *)
Definition place_of (x : spec_float) : Z * Z * Z :=
  match x with
  | S754_infinity true => (-2, 0, 0)
  | S754_finite true m e => (-1, - e, Zneg m)
  | S754_zero _ => (0, 0, 0)
  | S754_nan => (0, 0, 0)
  | S754_finite false m e => (1, e, Zpos m)
  | S754_infinity false => (2, 0, 0)
  end%Z.

Definition rung (x : float) : Z * Z * Z := place_of (Prim2SF x).

Definition below (a b : Z * Z * Z) : Prop :=
  (fst (fst a) < fst (fst b) \/
   fst (fst a) = fst (fst b) /\
   (snd (fst a) < snd (fst b) \/
    snd (fst a) = snd (fst b) /\ snd a < snd b))%Z.

Definition level (a b : Z * Z * Z) : Prop :=
  (fst (fst a) = fst (fst b) /\ snd (fst a) = snd (fst b) /\ snd a = snd b)%Z.

(** The floating-point tolerance of section 8, made explicit: 2^-45, about
    2.8e-14. *)
Definition tolerance : float := 0x1p-45%float.

(** Equal to 1.0 within the tolerance. *)
Definition close_to_one (c : float) : bool :=
  PrimFloat.leb (1 - tolerance)%float c
  && PrimFloat.leb c (1 + tolerance)%float.

(** The not-initialised refusal of [insertIntoDB] and [searchDB]: the
    status line says so and nothing is handed to the store. *)
Definition NotInitialized (st st' : State) : Prop :=
  dbStatus st' = "Database not initialized." /\
  calls st' = calls st /\
  world st' = world st.

Definition all_disabled (st : State) : Prop :=
  forall c, disabled st c = true.

(** Nothing is running, or one operation other than a clear is running
    and every control is disabled. *)
Definition exclusive (pg : Page) : Prop :=
  running pg = [] \/
  exists t, running pg = [t] /\ t <> ClearTask /\ all_disabled (app pg).

Definition is_audio (f : File) : bool := startsWith (file_type f) "audio/".

(** What the three awaited calls of [getAudioEmbedding] yield for a file. *)
Definition audio_pipeline (ap : Processor) (am : AudioModel) (f : File)
  : completion Float32Array :=
  match decode_audio f 44100 with
  | Normal audioData =>
      match call_audioProcessor ap audioData with
      | Normal audio_inputs => call_audioModel am audio_inputs
      | Throw e => Throw e
      end
  | Throw e => Throw e
  end.

Definition encodes (ap : Processor) (am : AudioModel) (f : File) : bool :=
  match audio_pipeline ap am f with
  | Normal _ => true
  | Throw _ => false
  end.

(** The document the loop inserts for a file. *)
Definition doc_of (f : File) (v : Float32Array) : Doc :=
  {| content := file_name f; embedding := v; tags := [TAG_AUDIO; file_type f] |}.

(** The documents a run over [files] hands to the store, in order. *)
Fixpoint to_insert (ap : Processor) (am : AudioModel) (files : list File)
  : list Doc :=
  match files with
  | [] => []
  | f :: rest =>
      if is_audio f then
        match audio_pipeline ap am f with
        | Normal v => doc_of f v :: to_insert ap am rest
        | Throw _ => to_insert ap am rest
        end
      else to_insert ap am rest
  end.

(** N, M and skipped of the batch summary. *)
Definition failed (ap : Processor) (am : AudioModel) (files : list File)
  : nat :=
  List.length (filter (fun f => is_audio f && negb (encodes ap am f)) files).

Definition skipped (files : list File) : nat :=
  List.length (filter (fun f => negb (is_audio f)) files).

(** The store after the inserts of [docs], and how many of them it
    rejected. *)
Fixpoint store_after (h : VectorDB) (docs : list Doc) (w : World) : World :=
  match docs with
  | [] => w
  | d :: rest => store_after h rest (fst (VectorDB_insert h d w))
  end.

Fixpoint rejected (h : VectorDB) (docs : list Doc) (w : World) : nat :=
  match docs with
  | [] => 0
  | d :: rest =>
      match VectorDB_insert h d w with
      | (w', Normal _) => rejected h rest w'
      | (w', Throw _) => S (rejected h rest w')
      end
  end.

(** What the log and the call trace record. *)
Definition is_encode_error (e : ConsoleEntry) : bool :=
  match e with
  | console_error msg _ => String.eqb msg "Error getting audio embedding:"
  | _ => false
  end.

Definition is_insert_error (e : ConsoleEntry) : bool :=
  match e with
  | console_error msg _ => String.eqb msg "DB insert error:"
  | _ => false
  end.

Definition encode_errors (st : State) : nat :=
  List.length (filter is_encode_error (console st)).

Definition insert_errors (st : State) : nat :=
  List.length (filter is_insert_error (console st)).

Definition inserts (st : State) : list Doc :=
  flat_map (fun c => match c with CallInsert _ d => [d] | _ => [] end)
    (calls st).

(** The handles the loop needs are in place. *)
Definition batch_ready (ap : Processor) (am : AudioModel) (h : VectorDB)
    (st : State) : Prop :=
  audioProcessor st = Some ap /\ audioModel st = Some am /\ db st = Some h.

(** Modelled from the spec: what sections 3, 4.1 and 7 promise of the
    store's insert ([idb-vector] is not in the repository): an accepted
    insert appends one record under a key greater than every key in the
    store, and a rejected insert leaves the store as it was. *)
Class StoreLaws : Prop := {
  insert_accepted :
    forall h d w w' k,
      VectorDB_insert h d w = (w', Normal k) ->
      scan w' = scan w ++ [(k, d)] /\ Forall (fun r => fst r < k) (scan w);
  insert_rejected :
    forall h d w w' e,
      VectorDB_insert h d w = (w', Throw e) -> scan w' = scan w
}.

(** [l1] is [l2] with some elements left out. *)
Inductive subseq {A : Type} : list A -> list A -> Prop :=
| subseq_nil : subseq [] []
| subseq_skip x l1 l2 : subseq l1 l2 -> subseq l1 (x :: l2)
| subseq_take x l1 l2 : subseq l1 l2 -> subseq (x :: l1) (x :: l2).

Definition keys_ascending (w : World) : Prop :=
  StronglySorted lt (map fst (scan w)).

End Vocabulary.

(** * What the further properties speak of *)

Section FurtherVocabulary.
Context `{P : Platform} {L : Loader}.

(** The page as the module's declarations leave it: every handle null. *)
Definition fresh_page (st : State) : Prop :=
  tokenizer st = None /\ textModel st = None /\
  audioProcessor st = None /\ audioModel st = None /\ db st = None.

Definition all_enabled (st : State) : Prop :=
  forall c, disabled st c = false.


(** The four loads all succeed. *)
Definition loads_succeed : bool :=
  match AutoTokenizer_from_pretrained TEXT_MODEL_NAME,
        snd (ClapTextModelWithProjection_from_pretrained TEXT_MODEL_NAME),
        AutoProcessor_from_pretrained AUDIO_MODEL_NAME,
        snd (ClapAudioModelWithProjection_from_pretrained AUDIO_MODEL_NAME)
  with
  | Normal _, Normal _, Normal _, Normal _ => true
  | _, _, _, _ => false
  end.

(** The store's constructor succeeds in a world. *)
Definition store_opens (w : World) : bool :=
  match snd (VectorDB_new {| vectorPath := "embedding"; dbName := DB_NAME |} w)
  with
  | Normal _ => true
  | Throw _ => false
  end.

(** What the tokenizer followed by the text model yield for a text. *)
Definition text_pipeline (tk : Tokenizer) (tm : TextModel) (text : string)
  : completion Float32Array :=
  match call_tokenizer tk text with
  | Normal text_inputs => call_textModel tm text_inputs
  | Throw e => Throw e
  end.

(** What [searchDB] returns for an embedding on the handle [h]. *)
Definition search_outcome (h : VectorDB) (v : Float32Array) (k : nat)
    (w : World) : list QueryResult :=
  if Nat.eqb (List.length v) 0 then []
  else match VectorDB_query h v k w with
       | Normal rs => rs
       | Throw _ => []
       end.

(** The children [displayResults] leaves in the result list. *)
Definition rendered (results : list QueryResult) (type query : string)
  : list ResultNode :=
  match results with
  | [] => [NoResults]
  | _ :: _ =>
      Header (List.length results) type query
        :: map (fun r => Item (content (object r)) (similarity r)) results
  end.

(** A computation that returns normally from every state. *)
Definition never_throws {A : Type} (m : M A) : Prop :=
  forall st, exists a, snd (m st) = Normal a.

(** A computation that, started with the blob URL store [reg], leaves it
    as it found it. *)
Definition keeps_urls (reg : list (string * File)) {A : Type} (m : M A)
  : Prop :=
  forall st, objectUrls st = reg -> objectUrls (fst (m st)) = reg.

End FurtherVocabulary.

(** ** The store of the specification

    [idb-vector] is not part of the repository: the store is modelled from
    sections 3, 4.1 and 4.2 of the specification, as a list of keyed
    records.  The reference platform puts it behind the controller, with
    stub encoders. *)

Module Reference.

(** Modelled from the spec: the dot product in the similarity metric of
    the store ([idb-vector], imported by [main.ts]; its code is not in the
    repository).  Section 4.2: cosine similarity
    dot(a,b) / (norm a * norm b), defined as 0 when either vector has zero
    norm. *)
Definition dot (a b : list float) : float :=
  fold_left (fun s xy => s + fst xy * snd xy)%float (combine a b) 0%float.

(** Modelled from the spec: the norm of section 4.2. *)
Definition norm (a : list float) : float := PrimFloat.sqrt (dot a a).

(** Modelled from the spec: cosine similarity, 0 when either norm is 0
    (section 4.2). *)
Definition cosine (a b : list float) : float :=
  if PrimFloat.eqb (norm a) 0 || PrimFloat.eqb (norm b) 0 then 0%float
  else (dot a b / (norm a * norm b))%float.

(** Modelled from the spec: the brute-force ranking of section 4.2.  Every
    record is scored, the scores are sorted in descending order and a tie is
    broken by ascending key: a record goes behind every record scoring at
    least as much, and the records arrive in key order. *)
Fixpoint place (r : QueryResult) (l : list QueryResult) : list QueryResult :=
  match l with
  | [] => [r]
  | x :: l' =>
      if PrimFloat.ltb (similarity x) (similarity r) then r :: l
      else x :: place r l'
  end.

(** Modelled from the spec: the result for a record (section 3,
    QueryResult): the record with its similarity to the query. *)
Definition score (q : list float) (kd : nat * Doc) : QueryResult :=
  {| object := snd kd;
     similarity := cosine q (embedding (snd kd));
     key := fst kd |}.

(** Modelled from the spec: [rank] of section 4.2, before the top k are
    taken. *)
Definition rank (q : list float) (w : list (nat * Doc)) : list QueryResult :=
  fold_left (fun acc kd => place (score q kd) acc) w [].

(** The similarity of the query to every record is a number. *)
Definition comparable (q : list float) (w : list (nat * Doc)) : Prop :=
  Forall (fun kd => is_number (cosine q (embedding (snd kd))) = true) w.

(** Modelled from the spec: the dimensionality D a store has established
    (section 3: all vectors of one store share the same D). *)
Definition established_D (w : list (nat * Doc)) : option nat :=
  match w with
  | [] => None
  | (_, d) :: _ => Some (List.length (embedding d))
  end.

(** Modelled from the spec: a vector whose length differs from the
    established D (section 3). *)
Definition mismatches (v : list float) (w : list (nat * Doc)) : bool :=
  match established_D w with
  | Some D => negb (Nat.eqb (List.length v) D)
  | None => false
  end.

(** Modelled from the spec: the key insert assigns (section 3: a
    monotonically increasing integer assigned by the store). *)
Definition next_key (w : list (nat * Doc)) : nat :=
  S (list_max (map fst w)).

(** Modelled from the spec: [insert] of section 4.1.  It appends a new
    record under the next key, or rejects a vector whose length differs from
    the established D with DimensionMismatch and leaves the store as it was
    (sections 3 and 7). *)
Definition insert (d : Doc) (w : list (nat * Doc))
  : list (nat * Doc) * completion nat :=
  if mismatches (embedding d) w then (w, Throw "DimensionMismatch")
  else (w ++ [(next_key w, d)], Normal (next_key w)).

(** Modelled from the spec: [rank(queryVector, k)] of section 4.2, the
    top k of the ranking; an empty query and one whose length differs from
    the established D are rejected. *)
Definition query (q : list float) (limit : nat) (w : list (nat * Doc))
  : completion (list QueryResult) :=
  if Nat.eqb (List.length q) 0 || mismatches q w
  then Throw "DimensionMismatch"
  else Normal (firstn limit (rank q w)).

(** Modelled from the spec: a platform whose store is the one above, a
    list of keyed records, and whose encoders are stubs: [audio] and [text]
    say what a file or a text embeds to, or how encoding it fails. *)
Definition platform
    (audio : File -> completion Float32Array)
    (text : string -> completion Float32Array) : Platform :=
  {| Tokenizer := unit;
     TextModel := unit;
     Processor := unit;
     AudioModel := unit;
     TextInputs := string;
     AudioData := Float32Array;
     AudioInputs := Float32Array;
     call_tokenizer := fun _ s => Normal s;
     call_textModel := fun _ s => text s;
     decode_audio := fun f _ => audio f;
     call_audioProcessor := fun _ d => Normal d;
     call_audioModel := fun _ i => Normal i;
     VectorDB := VectorDBOptions;
     World := list (nat * Doc);
     VectorDB_new := fun o w => (w, Normal o);
     VectorDB_insert := fun _ d w => insert d w;
     VectorDB_query := fun _ q limit w => query q limit w;
     deleteDatabase_done :=
       fun name w => if String.eqb name DB_NAME then [] else w;
     scan := fun w => w;
     new_object_url :=
       fun _ reg => "blob:clap-web/" +++ show_nat (List.length reg) |}.

(** The store of the spec's example (section 8): embeddings [1,0], [0,1]
    and [1,1] under the labels a, b, c and the keys 1, 2, 3. *)
Definition doc_a : Doc :=
  {| content := "a"; embedding := [1; 0]%float; tags := [] |}.
Definition doc_b : Doc :=
  {| content := "b"; embedding := [0; 1]%float; tags := [] |}.
Definition doc_c : Doc :=
  {| content := "c"; embedding := [1; 1]%float; tags := [] |}.
Definition abc : list (nat * Doc) := [(1, doc_a); (2, doc_b); (3, doc_c)].

Definition the_db : VectorDBOptions :=
  {| vectorPath := "embedding"; dbName := DB_NAME |}.

(** The page once [main] has loaded the models and opened the store over
    the records [w]: every control enabled. *)
Definition loaded audio text (w : list (nat * Doc)) (folder : list File)
  : @State (platform audio text) :=
  @mkState (platform audio text)
    (Some tt) (Some tt) (Some tt) (Some tt) (Some the_db) w
    (fun _ => false) "" "Vector database initialized."
    "All models loaded successfully!" "green" []
    folder "" [] [] [] [] [].

(** Stub encoders: the bytes of a file decide what it embeds to; the bytes
    numbered 0 cannot be decoded. *)
Definition stub_audio (f : File) : completion Float32Array :=
  match file_blob f with
  | 0 => Throw "Unable to decode audio data"
  | 1 => Normal [1; 0]%float
  | 2 => Normal [0; 1]%float
  | _ => Normal [1; 1]%float
  end.

Definition stub_text (s : string) : completion Float32Array :=
  Normal [1; 0]%float.

Definition reference_platform : Platform := platform stub_audio stub_text.

Definition kick : File :=
  {| file_name := "kick.wav"; file_type := "audio/wav"; file_blob := 1 |}.
Definition snare : File :=
  {| file_name := "snare.wav"; file_type := "audio/wav"; file_blob := 2 |}.
Definition broken : File :=
  {| file_name := "broken.wav"; file_type := "audio/wav"; file_blob := 0 |}.
Definition notes : File :=
  {| file_name := "notes.txt"; file_type := "text/plain"; file_blob := 7 |}.

(** A store left by an encoder of three dimensions. *)
Definition legacy : list (nat * Doc) :=
  [(1, {| content := "old.wav"; embedding := [1; 0; 0]%float;
          tags := ["audio"; "audio/wav"] |})].

(** The page over the example store, over an empty store with a folder
    selected, and before anything is loaded. *)
Definition over_abc : @State reference_platform :=
  loaded stub_audio stub_text abc [].

Definition with_folder (folder : list File) : @State reference_platform :=
  loaded stub_audio stub_text [] folder.

Definition over_legacy (folder : list File) : @State reference_platform :=
  loaded stub_audio stub_text legacy folder.

Definition unloaded : @State reference_platform :=
  @mkState reference_platform None None None None None []
    (fun _ => true) "" "" "" "" [] [] "" [] [] [] [] [].

End Reference.

(** ** Reference loaders and further pages *)

Module ReferenceStartup.
Import Reference.

(** A stub loader for the reference platform: the load numbered [fails] (1
    for the tokenizer up to 4 for the audio model) throws, the others
    succeed; each model load reports its progress twice. *)
Definition stub_loader (fails : nat) : @Loader reference_platform :=
  let settle (n : nat) : completion unit :=
    if Nat.eqb fails n then Throw "Failed to fetch" else Normal tt in
  @Build_Loader reference_platform (string * string) fst snd
    (fun _ => settle 1)
    (fun _ => ([("model.onnx", "50"); ("model.onnx", "100")], settle 2))
    (fun _ => settle 3)
    (fun _ => ([("model.onnx", "50"); ("model.onnx", "100")], settle 4)).

(** The reference platform in a browser where the store cannot be opened: the
    constructor of the store throws. *)
Definition closed_platform : Platform :=
  {| Tokenizer := unit;
     TextModel := unit;
     Processor := unit;
     AudioModel := unit;
     TextInputs := string;
     AudioData := Float32Array;
     AudioInputs := Float32Array;
     call_tokenizer := fun _ s => Normal s;
     call_textModel := fun _ s => stub_text s;
     decode_audio := fun f _ => stub_audio f;
     call_audioProcessor := fun _ d => Normal d;
     call_audioModel := fun _ i => Normal i;
     VectorDB := VectorDBOptions;
     World := list (nat * Doc);
     VectorDB_new := fun _ w => (w, Throw "IndexedDB is not available");
     VectorDB_insert := fun _ d w => insert d w;
     VectorDB_query := fun _ q limit w => query q limit w;
     deleteDatabase_done :=
       fun name w => if String.eqb name DB_NAME then [] else w;
     scan := fun w => w;
     new_object_url :=
       fun _ reg => "blob:clap-web/" +++ show_nat (List.length reg) |}.

(** A loader for it whose four loads succeed. *)
Definition closed_loader : @Loader closed_platform :=
  @Build_Loader closed_platform (string * string) fst snd
    (fun _ => Normal tt)
    (fun _ => ([("model.onnx", "100")], Normal tt))
    (fun _ => Normal tt)
    (fun _ => ([("model.onnx", "100")], Normal tt)).

(** The page before [main] has run, in that browser. *)
Definition closed_fresh : @State closed_platform :=
  @mkState closed_platform None None None None None []
    (fun _ => false) "" "" "" "" [] [] "" [] [] [] [] [].

(** The loaded page over the example store with a query typed and an
    audio file chosen for searching. *)
Definition searching (value : string) (files : list File)
  : @State reference_platform :=
  @mkState reference_platform
    (Some tt) (Some tt) (Some tt) (Some tt) (Some the_db) abc
    (fun _ => false) "" "Vector database initialized."
    "All models loaded successfully!" "green" []
    [] value files [] [] [] [].

(** A query of white space only: a space, a no-break space, an ideographic
    space, a line separator and a byte order mark. *)
Definition blank : string :=
  " " +++ utf8 0xA0 +++ utf8 0x3000 +++ utf8 0x2028 +++ utf8 0xFEFF.

(** A query between a no-break space, spaces and an ideographic space. *)
Definition padded : string :=
  utf8 0xA0 +++ " kick drum " +++ utf8 0x3000.

(** The idle page with a folder selected and a query typed. *)
Definition idle (folder : list File) (value : string)
  : @Page reference_platform :=
  {| app :=
       @mkState reference_platform
         (Some tt) (Some tt) (Some tt) (Some tt) (Some the_db) []
         (fun _ => false) "" "Vector database initialized."
         "All models loaded successfully!" "green" []
         folder value [] [] [] [] [];
     running := [] |}.

End ReferenceStartup.

(** * Properties *)

Section Properties.
Context `{P : Platform}.

Ltac unfold_js :=
  unfold called, log, alert, run, result in *;
  unfold bind, ret, throw, try_catch, try_finally, gets, modify, lift in *.

(** ** Readiness *)

(** C7: for the text and for the audio encoder alike, an embedding asked
    for before the encoder is ready fails at once with the NotReady
    condition and loads nothing. *)
Theorem embed_before_ready (st : State) (text : string) (audioFile : File) :
  (text_ready st = false ->
   NotReady "Text model or tokenizer not loaded." st
     (getTextEmbedding text st)) /\
  (audio_ready st = false ->
   NotReady "Audio model or processor not loaded." st
     (getAudioEmbedding audioFile st)).
Proof.
  unfold NotReady, text_ready, audio_ready, getTextEmbedding,
    getAudioEmbedding, updateModelStatus.
  unfold_js.
  split; intros H.
  - destruct (tokenizer st) eqn:Etk, (textModel st) eqn:Etm;
      try discriminate; cbn; repeat split; auto.
  - destruct (audioProcessor st) eqn:Eap, (audioModel st) eqn:Eam;
      try discriminate; cbn; repeat split; auto.
Qed.

(** ** The blob URL store *)

Lemma revoke_fresh (url : string) (reg : list (string * File)) :
  ~ In url (map fst reg) -> revoke url reg = reg.
Proof.
  induction reg as [|[u f] reg IH]; cbn; intros Hfresh; [reflexivity|].
  destruct (String.eqb_spec u url) as [->|Hne].
  - exfalso; apply Hfresh; now left.
  - f_equal; apply IH; intros Hin; apply Hfresh; now right.
Qed.

Lemma revoke_created (url : string) (f : File) (reg : list (string * File)) :
  ~ In url (map fst reg) -> revoke url ((url, f) :: reg) = reg.
Proof.
  intros Hfresh; cbn; rewrite String.eqb_refl; now apply revoke_fresh.
Qed.

Lemma truthy_nonempty (s : string) : s <> "" -> truthy s = true.
Proof.
  unfold truthy; intros Hne.
  destruct (String.eqb_spec s ""); [congruence|reflexivity].
Qed.

(** C10: a call of [getAudioEmbedding] leaves the blob URL store as it
    found it, whether the embedding succeeds, reading, preprocessing or the
    model throws, or the encoder is not ready; when a URL is created, the
    last call made before returning revokes that very URL.  Browsers mint a
    non-empty URL that is not yet in the store. *)
Theorem getAudioEmbedding_revokes (st : State) (audioFile : File) :
  let url := new_object_url audioFile (objectUrls st) in
  url <> "" ->
  ~ In url (map fst (objectUrls st)) ->
  objectUrls (run (getAudioEmbedding audioFile) st) = objectUrls st /\
  (audio_ready st = true ->
   exists between,
     calls (run (getAudioEmbedding audioFile) st) =
     calls st ++ CallCreateObjectURL audioFile :: between
       ++ [CallRevokeObjectURL url]).
Proof.
  intros url Hne Hfresh.
  pose proof (truthy_nonempty url Hne) as Htruthy.
  pose proof (revoke_created url audioFile _ Hfresh) as Hrevoke.
  unfold audio_ready, getAudioEmbedding, URL_createObjectURL,
    URL_revokeObjectURL, read_audio, audioProcessor_call, audioModel_call,
    updateModelStatus.
  unfold_js.
  destruct (audioProcessor st) as [ap|] eqn:Eap;
    [destruct (audioModel st) as [am|] eqn:Eam|];
    cbn; try (split; [reflexivity|discriminate]).
  fold url. rewrite String.eqb_refl. cbn.
  destruct (decode_audio audioFile 44100) as [audioData|e1]; cbn;
    [destruct (call_audioProcessor ap audioData) as [inputs|e2]; cbn;
     [destruct (call_audioModel am inputs) as [embeds|e3]; cbn|]|];
    rewrite Htruthy; cbn; rewrite String.eqb_refl;
    (split; [now apply revoke_fresh|intros _]).
  all: repeat rewrite <- app_assoc; cbn.
  all: first
    [ exists [CallReadAudio url 44100; CallAudioProcessor; CallAudioModel];
      reflexivity
    | exists [CallReadAudio url 44100; CallAudioProcessor]; reflexivity
    | exists [CallReadAudio url 44100]; reflexivity ].
Qed.

(** ** Search *)

Ltac unfold_search :=
  unfold searchDB, db_query, updateDbStatus, updateModelStatus, Array_from;
  unfold_js.

(** What [searchDB] does on an initialised handle, for every store.  An
    empty query is answered with the empty sequence and the report "Cannot
    search with empty embedding.", without consulting the store.  A
    non-empty query goes to the store as it is, and [searchDB] returns the
    store's answer without a report, or the empty sequence with the report
    "Error searching DB: ..." when the store's query throws. *)
Lemma searchDB_empty_or_delegated (st : State) (h : VectorDB)
    (q : Float32Array) (k : nat) :
  db st = Some h ->
  (q = [] ->
   result (searchDB q k) st = Normal [] /\
   modelStatus (run (searchDB q k) st) = "Cannot search with empty embedding."
   /\ calls (run (searchDB q k) st) = calls st) /\
  (q <> [] ->
   calls (run (searchDB q k) st) = calls st ++ [CallQuery h q k] /\
   match VectorDB_query h q k (world st) with
   | Normal rs =>
       result (searchDB q k) st = Normal rs /\
       dbStatus (run (searchDB q k) st) = dbStatus st /\
       modelStatus (run (searchDB q k) st) = modelStatus st
   | Throw e =>
       result (searchDB q k) st = Normal [] /\
       dbStatus (run (searchDB q k) st) = "Error searching DB: " +++ e
   end).
Proof.
  intros Hdb. unfold_search. rewrite Hdb. split.
  - intros ->. cbn. repeat split.
  - intros Hq. destruct q as [|x q']; [congruence|]. cbn.
    destruct (VectorDB_query h (x :: q') k (world st)); cbn; repeat split.
Qed.

(** ** Insert *)

Ltac unfold_insert :=
  unfold insertIntoDB, db_insert, updateDbStatus, Array_from; unfold_js.

(** What [insertIntoDB] does on an initialised handle, for every store.
    It hands the store the vector it was given, element for element,
    whatever its length; when the store's insert throws, the rejection is
    reported as "Error inserting into DB: ..." and logged; when the store
    accepts, nothing is reported.  In both cases the world is the one the
    store's insert left. *)
Lemma insertIntoDB_forwards (st : State) (h : VectorDB) (content_ : string)
    (e : Float32Array) (tags_ : list string) :
  db st = Some h ->
  let doc := {| content := content_; embedding := e; tags := tags_ |} in
  let st' := run (insertIntoDB content_ e tags_) st in
  calls st' = calls st ++ [CallInsert h doc] /\
  world st' = fst (VectorDB_insert h doc (world st)) /\
  match snd (VectorDB_insert h doc (world st)) with
  | Normal _ =>
      dbStatus st' = dbStatus st /\
      console st' = console st ++ [console_log ("Inserted: " +++ content_)]
  | Throw err =>
      dbStatus st' = "Error inserting into DB: " +++ err /\
      console st' =
        console st ++ [console_log ("Error inserting into DB: " +++ err);
                       console_error "DB insert error:" (Some err)]
  end.
Proof.
  intros Hdb doc st'. subst st' doc. unfold_insert. rewrite Hdb. cbn.
  destruct (VectorDB_insert h _ (world st)) as [w [key_|err]]; cbn;
    repeat split; now rewrite <- ?app_assoc.
Qed.

(** ** Clear *)

Lemma insertIntoDB_calls (st : State) (h : VectorDB) (content_ : string)
    (e : Float32Array) (tags_ : list string) :
  db st = Some h ->
  calls (run (insertIntoDB content_ e tags_) st) =
  calls st
    ++ [CallInsert h {| content := content_; embedding := e; tags := tags_ |}].
Proof.
  intros Hdb. unfold_insert. rewrite Hdb. cbn.
  destruct (VectorDB_insert h _ (world st)) as [w [key_|err]]; reflexivity.
Qed.

Lemma searchDB_calls (st : State) (h : VectorDB) (q : Float32Array)
    (k : nat) :
  db st = Some h ->
  q <> [] ->
  calls (run (searchDB q k) st) = calls st ++ [CallQuery h q k].
Proof.
  intros Hdb Hq. unfold_search. rewrite Hdb.
  destruct q as [|x q']; [congruence|]. cbn.
  destruct (VectorDB_query h (x :: q') k (world st)); reflexivity.
Qed.

Lemma insertIntoDB_not_initialized (st : State) (content_ : string)
    (e : Float32Array) (tags_ : list string) :
  db st = None -> NotInitialized st (run (insertIntoDB content_ e tags_) st).
Proof.
  intros Hdb. unfold NotInitialized. unfold_insert. rewrite Hdb. cbn.
  repeat split.
Qed.

Lemma searchDB_not_initialized (st : State) (q : Float32Array) (k : nat) :
  db st = None ->
  NotInitialized st (run (searchDB q k) st) /\
  result (searchDB q k) st = Normal [].
Proof.
  intros Hdb. unfold NotInitialized. unfold_search. rewrite Hdb. cbn.
  repeat split.
Qed.

Lemma initVectorDB_sets_handle (st : State) (w : World) (h : VectorDB) :
  VectorDB_new {| vectorPath := "embedding"; dbName := DB_NAME |} (world st)
    = (w, Normal h) ->
  db (run initVectorDB st) = Some h /\ world (run initVectorDB st) = w.
Proof.
  intros Hnew.
  unfold initVectorDB, new_VectorDB, updateDbStatus, disableControls.
  unfold_js. cbn. rewrite Hnew. cbn. split; reflexivity.
Qed.

(** C3 (amended): a successful clear leaves the in-memory handle in place.
    After [clearDB] and the success of its request, [db] is the handle it
    was, so an insert or a non-empty query made then is not refused as
    not-initialised: it is handed to the store through that handle.  The
    refusal is given while [db] is null, and once [initVectorDB] has
    succeeded an insert is handed to the store. *)
Theorem clear_keeps_handle (st : State) (h : VectorDB) :
  db st = Some h ->
  let cleared := run (deleteRequest_settled DeleteSucceeded) (run clearDB st) in
  (db cleared = Some h /\
   dbStatus cleared = "Database cleared." /\
   world cleared = deleteDatabase_done DB_NAME (world st) /\
   (forall content_ e tags_,
      calls (run (insertIntoDB content_ e tags_) cleared) =
      calls cleared
        ++ [CallInsert h
              {| content := content_; embedding := e; tags := tags_ |}]) /\
   (forall q k,
      q <> [] ->
      calls (run (searchDB q k) cleared) = calls cleared ++ [CallQuery h q k]))
  /\
  (forall st0 content_ e tags_ q k,
     db st0 = None ->
     NotInitialized st0 (run (insertIntoDB content_ e tags_) st0) /\
     NotInitialized st0 (run (searchDB q k) st0) /\
     result (searchDB q k) st0 = Normal [])
  /\
  (forall st0 w h' content_ e tags_,
     VectorDB_new {| vectorPath := "embedding"; dbName := DB_NAME |}
       (world st0) = (w, Normal h') ->
     calls (run (insertIntoDB content_ e tags_) (run initVectorDB st0)) =
     calls (run initVectorDB st0)
       ++ [CallInsert h'
             {| content := content_; embedding := e; tags := tags_ |}]).
Proof.
  intros Hdb cleared.
  assert (db cleared = Some h) as Hcleared.
  { subst cleared.
    unfold deleteRequest_settled, request_onsuccess, clearDB, updateDbStatus.
    unfold_js. rewrite Hdb. cbn. exact Hdb. }
  split; [|split].
  - split; [exact Hcleared|].
    split; [|split; [|split]].
    + subst cleared.
      unfold deleteRequest_settled, request_onsuccess, clearDB, updateDbStatus.
      unfold_js. rewrite Hdb. reflexivity.
    + subst cleared.
      unfold deleteRequest_settled, request_onsuccess, clearDB, updateDbStatus.
      unfold_js. rewrite Hdb. reflexivity.
    + intros content_ e tags_. now apply insertIntoDB_calls.
    + intros q k Hq. now apply searchDB_calls.
  - intros st0 content_ e tags_ q k Hnone.
    split; [now apply insertIntoDB_not_initialized|].
    now apply searchDB_not_initialized.
  - intros st0 w h' content_ e tags_ Hnew.
    destruct (initVectorDB_sets_handle st0 w h' Hnew) as [Hh _].
    now apply insertIntoDB_calls.
Qed.

(** ** One operation at a time *)

Lemma handleEmbedAudioFolder_begin_disables (st st' : State)
    (files : list File) :
  handleEmbedAudioFolder_begin st = (st', Normal (Some files)) ->
  all_disabled st'.
Proof.
  unfold handleEmbedAudioFolder_begin, updateAudioEmbedStatus,
    disableControls.
  unfold_js.
  destruct (Nat.eqb (List.length (audioFolderInput_files st)) 0);
    [cbn; congruence|].
  destruct (audioModel st), (audioProcessor st), (db st); cbn;
    intros H; inversion H; subst; intros []; reflexivity.
Qed.

Lemma handleTextSearch_begin_disables (st st' : State) (query : string) :
  handleTextSearch_begin st = (st', Normal (Some query)) ->
  all_disabled st'.
Proof.
  unfold handleTextSearch_begin, updateModelStatus, disableControls.
  unfold_js.
  destruct (negb (truthy (trim (textSearchInput_value st))));
    [cbn; congruence|].
  destruct (textModel st), (tokenizer st), (db st); cbn;
    intros H; inversion H; subst; intros []; reflexivity.
Qed.

Lemma handleAudioFileSearch_begin_disables (st st' : State) (f : File) :
  handleAudioFileSearch_begin st = (st', Normal (Some f)) ->
  all_disabled st'.
Proof.
  unfold handleAudioFileSearch_begin, updateModelStatus, disableControls.
  unfold_js.
  destruct (audioSearchInput_files st); [cbn; congruence|].
  destruct (audioModel st), (audioProcessor st), (db st); cbn;
    intros H; inversion H; subst; intros []; reflexivity.
Qed.

(** [clearDB] and the callbacks of its request never touch the
    controls. *)
Lemma clearDB_keeps_controls (st : State) (o : DeleteOutcome) (c : Control) :
  disabled (run clearDB st) c = disabled st c /\
  disabled (run (deleteRequest_settled o) st) c = disabled st c.
Proof.
  unfold clearDB, deleteRequest_settled, request_onsuccess, request_onerror,
    request_onblocked, updateDbStatus.
  unfold_js.
  split; [destruct (db st)|destruct o]; reflexivity.
Qed.

(** The three handlers that disable the controls exclude each other and
    themselves: as long as the clear button is not clicked, at most one
    operation is running. *)
Lemma step_exclusive (e : Event) (pg : Page) :
  e <> Click clearDbButton -> exclusive pg -> exclusive (step e pg).
Proof.
  intros Hclear Hex. destruct e as [c|n|n o]; unfold step.
  - destruct (disabled (app pg) c) eqn:Hc; [exact Hex|].
    assert (running pg = []) as Hidle.
    { destruct Hex as [Hidle|(t & _ & _ & Hall)]; [exact Hidle|].
      rewrite Hall in Hc; discriminate. }
    destruct c; try exact Hex; try congruence; unfold listener;
      rewrite Hidle.
    + destruct (handleEmbedAudioFolder_begin (app pg))
        as [st' [[files|]|err]] eqn:Hbegin; try (now left).
      right. exists (EmbedTask files). split; [reflexivity|].
      split; [congruence|].
      eapply handleEmbedAudioFolder_begin_disables; eassumption.
    + destruct (handleTextSearch_begin (app pg))
        as [st' [[query|]|err]] eqn:Hbegin; try (now left).
      right. exists (TextSearchTask query). split; [reflexivity|].
      split; [congruence|].
      eapply handleTextSearch_begin_disables; eassumption.
    + destruct (handleAudioFileSearch_begin (app pg))
        as [st' [[f|]|err]] eqn:Hbegin; try (now left).
      right. exists (AudioSearchTask f). split; [reflexivity|].
      split; [congruence|].
      eapply handleAudioFileSearch_begin_disables; eassumption.
  - destruct Hex as [Hidle|(t & Hone & Hnot & Hall)].
    + rewrite Hidle. destruct n; cbn [nth_error]; now left.
    + rewrite Hone. destruct n as [|n]; cbn [nth_error].
      * destruct t; try congruence; now left.
      * destruct n; right; exists t; auto.
  - destruct Hex as [Hidle|(t & Hone & Hnot & Hall)].
    + rewrite Hidle. destruct n; cbn [nth_error]; now left.
    + rewrite Hone. destruct n as [|n]; cbn [nth_error].
      * destruct t; try congruence; right; eexists; eauto.
      * destruct n; right; exists t; auto.
Qed.

Lemma steps_exclusive (es : list Event) (pg : Page) :
  ~ In (Click clearDbButton) es ->
  exclusive pg ->
  List.length (running (steps es pg)) <= 1.
Proof.
  intros Hes Hex.
  assert (exclusive (steps es pg)) as [Hidle|(t & Hone & _)].
  { revert pg Hex. induction es as [|e es IH]; intros pg Hex; [exact Hex|].
    cbn. apply IH.
    - intros Hin; apply Hes; now right.
    - apply step_exclusive; [|exact Hex].
      intros ->; apply Hes; now left. }
  - rewrite Hidle; cbn; lia.
  - rewrite Hone; cbn; lia.
Qed.

(** ** Batch embedding *)

Lemma count_partition (ap : Processor) (am : AudioModel)
    (files : list File) :
  List.length (to_insert ap am files) + failed ap am files + skipped files
  = List.length files.
Proof.
  unfold failed, skipped, encodes.
  induction files as [|f files IH]; [reflexivity|]. cbn.
  destruct (is_audio f); cbn;
    [destruct (audio_pipeline ap am f); cbn|]; lia.
Qed.

Lemma updateAudioEmbedStatus_step (message : string) (st : State) :
  let out := updateAudioEmbedStatus message st in
  snd out = Normal tt /\
  audioEmbedStatus (fst out) = message /\
  audioProcessor (fst out) = audioProcessor st /\
  audioModel (fst out) = audioModel st /\
  db (fst out) = db st /\
  world (fst out) = world st /\
  inserts (fst out) = inserts st /\
  insert_errors (fst out) = insert_errors st /\
  encode_errors (fst out) = encode_errors st.
Proof.
  unfold updateAudioEmbedStatus, inserts, insert_errors, encode_errors.
  unfold_js. cbn. rewrite !filter_app. cbn. rewrite !app_nil_r.
  repeat split.
Qed.

Lemma getAudioEmbedding_step (ap : Processor) (am : AudioModel) (f : File)
    (st : State) :
  audioProcessor st = Some ap ->
  audioModel st = Some am ->
  let out := getAudioEmbedding f st in
  snd out = Normal (match audio_pipeline ap am f with
                    | Normal v => Some v
                    | Throw _ => None
                    end) /\
  audioProcessor (fst out) = Some ap /\
  audioModel (fst out) = Some am /\
  db (fst out) = db st /\
  world (fst out) = world st /\
  inserts (fst out) = inserts st /\
  insert_errors (fst out) = insert_errors st /\
  encode_errors (fst out) =
    encode_errors st + (if encodes ap am f then 0 else 1).
Proof.
  intros Hap Ham.
  unfold getAudioEmbedding, URL_createObjectURL, URL_revokeObjectURL,
    read_audio, audioProcessor_call, audioModel_call, updateModelStatus,
    encodes, audio_pipeline, inserts, insert_errors, encode_errors.
  unfold_js. rewrite Hap, Ham. cbn. rewrite String.eqb_refl. cbn.
  destruct (decode_audio f 44100) as [audioData|e1]; cbn;
    [destruct (call_audioProcessor ap audioData) as [inputs|e2]; cbn;
     [destruct (call_audioModel am inputs) as [embeds|e3]; cbn|]|];
    destruct (truthy (new_object_url f (objectUrls st))); cbn;
    rewrite ?filter_app, ?flat_map_app, ?length_app; cbn;
    rewrite ?app_nil_r, ?Nat.add_0_r;
    repeat split; auto.
Qed.

Lemma insertIntoDB_step (h : VectorDB) (content_ : string)
    (e : Float32Array) (tags_ : list string) (st : State) :
  db st = Some h ->
  let doc := {| content := content_; embedding := e; tags := tags_ |} in
  let out := insertIntoDB content_ e tags_ st in
  snd out = Normal tt /\
  audioProcessor (fst out) = audioProcessor st /\
  audioModel (fst out) = audioModel st /\
  db (fst out) = Some h /\
  world (fst out) = fst (VectorDB_insert h doc (world st)) /\
  inserts (fst out) = inserts st ++ [doc] /\
  insert_errors (fst out) =
    insert_errors st + (match snd (VectorDB_insert h doc (world st)) with
                        | Normal _ => 0
                        | Throw _ => 1
                        end) /\
  encode_errors (fst out) = encode_errors st.
Proof.
  intros Hdb doc. subst doc.
  unfold inserts, insert_errors, encode_errors. unfold_insert.
  rewrite Hdb. cbn.
  destruct (VectorDB_insert h _ (world st)) as [w [key_|err]]; cbn;
    rewrite ?filter_app, ?flat_map_app, ?length_app; cbn;
    rewrite ?app_nil_r, ?Nat.add_0_r;
    repeat split; auto.
Qed.

(** One iteration: the count and what the iteration leaves behind. *)
Lemma embed_file_step (ap : Processor) (am : AudioModel) (h : VectorDB)
    (n count : nat) (f : File) (st : State) :
  batch_ready ap am h st ->
  let out := embed_file n count f st in
  snd out = Normal (count + List.length (to_insert ap am [f])) /\
  batch_ready ap am h (fst out) /\
  inserts (fst out) = inserts st ++ to_insert ap am [f] /\
  world (fst out) = store_after h (to_insert ap am [f]) (world st) /\
  encode_errors (fst out) = encode_errors st + failed ap am [f] /\
  insert_errors (fst out) =
    insert_errors st + rejected h (to_insert ap am [f]) (world st).
Proof.
  intros (Hap & Ham & Hdb) out.
  destruct (embed_file n count f st) as [st' r] eqn:E. subst out.
  unfold embed_file in E. fold (is_audio f) in E.
  unfold failed, batch_ready, encodes. cbn [to_insert filter fst snd].
  destruct (is_audio f) eqn:Haudio; cbn [andb negb].
  - unfold try_catch, bind in E.
    match type of E with
    | context [updateAudioEmbedStatus ?m st] =>
        pose proof (updateAudioEmbedStatus_step m st) as Hs;
        destruct (updateAudioEmbedStatus m st) as [st1 r1]
    end.
    cbn in Hs.
    destruct Hs as (-> & _ & Hap1 & Ham1 & Hdb1 & Hw1 & Hi1 & Hie1 & Hee1).
    rewrite Hap in Hap1; rewrite Ham in Ham1; rewrite Hdb in Hdb1.
    pose proof (getAudioEmbedding_step ap am f st1 Hap1 Ham1) as Hg.
    destruct (getAudioEmbedding f st1) as [st2 r2]. cbn in Hg.
    destruct Hg as (-> & Hap2 & Ham2 & Hdb2 & Hw2 & Hi2 & Hie2 & Hee2).
    rewrite Hdb1 in Hdb2. unfold encodes in Hee2.
    destruct (audio_pipeline ap am f) as [v|e].
    + pose proof (insertIntoDB_step h (file_name f) v
                    [TAG_AUDIO; file_type f] st2 Hdb2) as Hi.
      destruct (insertIntoDB (file_name f) v [TAG_AUDIO; file_type f] st2)
        as [st3 r3]. cbn in Hi.
      destruct Hi as (-> & Hap3 & Ham3 & Hdb3 & Hw3 & Hi3 & Hie3 & Hee3).
      unfold ret in E. inversion E; subst st' r; clear E.
      unfold doc_of. cbn.
      rewrite Hw3, Hi3, Hie3, Hee3, Hap3, Ham3, Hw2, Hi2, Hie2, Hee2, Hw1, Hi1,
        Hie1, Hee1.
      repeat split; auto; try lia.
      destruct (VectorDB_insert h _ (world st)) as [w [key_|err]];
        reflexivity.
    + unfold ret in E. inversion E; subst st' r; clear E. cbn.
      rewrite Hw2, Hi2, Hie2, Hee2, Hw1, Hi1, Hie1, Hee1, app_nil_r.
      repeat split; auto; lia.
  - unfold bind in E.
    match type of E with
    | context [updateAudioEmbedStatus ?m st] =>
        pose proof (updateAudioEmbedStatus_step m st) as Hs;
        destruct (updateAudioEmbedStatus m st) as [st1 r1]
    end.
    cbn in Hs.
    destruct Hs as (-> & _ & Hap1 & Ham1 & Hdb1 & Hw1 & Hi1 & Hie1 & Hee1).
    unfold ret in E. inversion E; subst st' r; clear E. cbn.
    rewrite Hw1, Hi1, Hie1, Hee1, Hap1, Ham1, Hdb1, app_nil_r.
    repeat split; auto; lia.
Qed.

Lemma to_insert_cons (ap : Processor) (am : AudioModel) (f : File)
    (files : list File) :
  to_insert ap am (f :: files) = to_insert ap am [f] ++ to_insert ap am files.
Proof.
  cbn. destruct (is_audio f); [destruct (audio_pipeline ap am f)|];
    reflexivity.
Qed.

Lemma store_after_app (h : VectorDB) (d1 d2 : list Doc) (w : World) :
  store_after h (d1 ++ d2) w = store_after h d2 (store_after h d1 w).
Proof.
  revert w. induction d1 as [|d d1 IH]; intros w; [reflexivity|].
  cbn. apply IH.
Qed.

Lemma rejected_app (h : VectorDB) (d1 d2 : list Doc) (w : World) :
  rejected h (d1 ++ d2) w
  = rejected h d1 w + rejected h d2 (store_after h d1 w).
Proof.
  revert w. induction d1 as [|d d1 IH]; intros w; [reflexivity|].
  cbn. destruct (VectorDB_insert h d w) as [w' [key_|err]]; cbn;
    rewrite IH; reflexivity.
Qed.

(** The loop: every file is visited, in order, whatever happened to the
    files before it. *)
Lemma for_files_run (ap : Processor) (am : AudioModel) (h : VectorDB)
    (n : nat) (files : list File) :
  forall (count : nat) (st : State),
    batch_ready ap am h st ->
    let out := for_files n count files st in
    snd out = Normal (count + List.length (to_insert ap am files)) /\
    batch_ready ap am h (fst out) /\
    inserts (fst out) = inserts st ++ to_insert ap am files /\
    world (fst out) = store_after h (to_insert ap am files) (world st) /\
    encode_errors (fst out) = encode_errors st + failed ap am files /\
    insert_errors (fst out) =
      insert_errors st + rejected h (to_insert ap am files) (world st).
Proof.
  induction files as [|f files IH]; intros count st Hready out.
  - subst out. cbn. rewrite app_nil_r. unfold failed. cbn.
    repeat split; auto; try apply Hready; lia.
  - destruct (for_files n count (f :: files) st) as [st' r] eqn:E.
    subst out. cbn [for_files] in E. unfold bind at 1 in E.
    pose proof (embed_file_step ap am h n count f st Hready) as Hstep.
    destruct (embed_file n count f st) as [st1 r1]. cbn [fst snd] in Hstep.
    destruct Hstep as (-> & Hready1 & Hi1 & Hw1 & Hee1 & Hie1).
    pose proof (IH (count + List.length (to_insert ap am [f])) st1 Hready1)
      as Hrest.
    rewrite E in Hrest. cbn [fst snd] in *.
    destruct Hrest as (-> & Hready2 & Hi2 & Hw2 & Hee2 & Hie2).
    rewrite (to_insert_cons ap am f files).
    rewrite store_after_app, rejected_app, length_app.
    rewrite Hi2, Hw2, Hee2, Hie2, Hi1, Hw1, Hee1, Hie1.
    replace (failed ap am (f :: files))
      with (failed ap am [f] + failed ap am files).
    + repeat split; auto; try apply Hready2; try lia.
      * f_equal; lia.
      * now rewrite app_assoc.
    + unfold failed. cbn.
      destruct (is_audio f && negb (encodes ap am f)); reflexivity.
Qed.

Lemma disableControls_step (b : bool) (st : State) :
  let out := disableControls b st in
  snd out = Normal tt /\
  (forall c, disabled (fst out) c = b) /\
  audioEmbedStatus (fst out) = audioEmbedStatus st /\
  audioProcessor (fst out) = audioProcessor st /\
  audioModel (fst out) = audioModel st /\
  db (fst out) = db st /\
  world (fst out) = world st /\
  inserts (fst out) = inserts st /\
  insert_errors (fst out) = insert_errors st /\
  encode_errors (fst out) = encode_errors st.
Proof.
  unfold disableControls. unfold_js. cbn.
  repeat split. intros []; reflexivity.
Qed.

(** The whole handler on a page whose models and store are ready and
    whose folder input holds at least one file. *)
Lemma handleEmbedAudioFolder_run (ap : Processor) (am : AudioModel)
    (h : VectorDB) (st : State) :
  batch_ready ap am h st ->
  audioFolderInput_files st <> [] ->
  let files := audioFolderInput_files st in
  let docs := to_insert ap am files in
  let st' := run handleEmbedAudioFolder st in
  audioEmbedStatus st' =
    "Finished embedding " +++ show_nat (List.length docs) +++ " audio files."
  /\ (forall c, disabled st' c = false)
  /\ inserts st' = inserts st ++ docs
  /\ world st' = store_after h docs (world st)
  /\ encode_errors st' = encode_errors st + failed ap am files
  /\ insert_errors st' = insert_errors st + rejected h docs (world st).
Proof.
  intros (Hap & Ham & Hdb) Hfiles. cbv zeta. unfold run.
  destruct (handleEmbedAudioFolder st) as [st' r] eqn:E.
  unfold handleEmbedAudioFolder, handleEmbedAudioFolder_begin,
    handleEmbedAudioFolder_rest in E.
  unfold bind at 1 2, gets at 1 in E.
  remember (audioFolderInput_files st) as files eqn:Efiles.
  replace (Nat.eqb (List.length files) 0) with false in E
    by (destruct files; [congruence|reflexivity]).
  clear Hfiles Efiles.
  unfold bind at 1 2 3, gets in E. rewrite Hap, Ham, Hdb in E.
  unfold bind at 1 2 in E.
  pose proof (disableControls_step true st) as Hd.
  destruct (disableControls true st) as [st1 r1]. cbn [fst snd] in Hd.
  destruct Hd as (-> & _ & _ & Hap1 & Ham1 & Hdb1 & Hw1 & Hi1 & Hie1 & Hee1).
  unfold bind at 1 in E.
  match type of E with
  | context [updateAudioEmbedStatus ?m st1] =>
      pose proof (updateAudioEmbedStatus_step m st1) as Hs;
      destruct (updateAudioEmbedStatus m st1) as [st2 r2]
  end.
  cbn [fst snd] in Hs.
  destruct Hs as (-> & _ & Hap2 & Ham2 & Hdb2 & Hw2 & Hi2 & Hie2 & Hee2).
  unfold ret at 1 in E. unfold bind at 1 in E.
  assert (batch_ready ap am h st2) as Hready2.
  { unfold batch_ready. rewrite Hap2, Ham2, Hdb2, Hap1, Ham1, Hdb1. auto. }
  pose proof (for_files_run ap am h (List.length files) files 0 st2 Hready2)
    as Hloop.
  destruct (for_files (List.length files) 0 files st2) as [st3 r3].
  cbn [fst snd] in Hloop.
  destruct Hloop as (-> & Hready3 & Hi3 & Hw3 & Hee3 & Hie3).
  cbn [Nat.add] in E.
  match type of E with
  | context [updateAudioEmbedStatus ?m st3] =>
      pose proof (updateAudioEmbedStatus_step m st3) as Hs;
      destruct (updateAudioEmbedStatus m st3) as [st4 r4]
  end.
  cbn [fst snd] in Hs.
  destruct Hs as (-> & Hmsg4 & Hap4 & Ham4 & Hdb4 & Hw4 & Hi4 & Hie4 & Hee4).
  pose proof (disableControls_step false st4) as Hd.
  destruct (disableControls false st4) as [st5 r5]. cbn [fst snd] in Hd.
  destruct Hd as (-> & Hen5 & Hmsg5 & _ & _ & _ & Hw5 & Hi5 & Hie5 & Hee5).
  inversion E; subst st' r; clear E. cbn [fst].
  rewrite Hmsg5, Hmsg4, Hw5, Hi5, Hie5, Hee5, Hw4, Hi4, Hie4, Hee4, Hw3, Hi3,
    Hie3, Hee3, Hw2, Hi2, Hie2, Hee2, Hw1, Hi1, Hie1, Hee1.
  repeat split; auto.
Qed.

(** ** The store behind the batch *)

Lemma StronglySorted_snoc (l : list nat) (k : nat) :
  StronglySorted lt l -> Forall (fun x => x < k) l ->
  StronglySorted lt (l ++ [k]).
Proof.
  induction l as [|x l IH]; intros Hsorted Hall; cbn.
  - constructor; constructor.
  - inversion Hsorted as [|? ? Hl Hx]; subst.
    inversion Hall as [|? ? Hxk Hlk]; subst.
    constructor; [now apply IH|].
    apply Forall_app; split; [exact Hx|]. constructor; [exact Hxk|constructor].
Qed.

Lemma store_after_scan {L : StoreLaws} (h : VectorDB) (docs : list Doc) :
  forall w,
    exists new,
      scan (store_after h docs w) = scan w ++ new /\
      subseq (map snd new) docs /\
      List.length new + rejected h docs w = List.length docs.
Proof.
  induction docs as [|d docs IH]; intros w; cbn.
  - exists []. rewrite app_nil_r. repeat split. constructor.
  - destruct (VectorDB_insert h d w) as [w' [k|e]] eqn:Hins; cbn.
    + destruct (insert_accepted _ _ _ _ _ Hins) as [Hscan _].
      destruct (IH w') as (new & Hnew & Hsub & Hlen).
      exists ((k, d) :: new). rewrite Hnew, Hscan, <- app_assoc. cbn.
      repeat split; [now constructor|lia].
    + pose proof (insert_rejected _ _ _ _ _ Hins) as Hscan.
      destruct (IH w') as (new & Hnew & Hsub & Hlen).
      exists new. rewrite Hnew, Hscan.
      repeat split; [now constructor|lia].
Qed.

Lemma store_after_keys {L : StoreLaws} (h : VectorDB) (docs : list Doc) :
  forall w, keys_ascending w -> keys_ascending (store_after h docs w).
Proof.
  unfold keys_ascending.
  induction docs as [|d docs IH]; intros w Hsorted; cbn; [exact Hsorted|].
  apply IH.
  destruct (VectorDB_insert h d w) as [w' [k|e]] eqn:Hins; cbn.
  - destruct (insert_accepted _ _ _ _ _ Hins) as [Hscan Hall].
    rewrite Hscan, map_app. cbn. apply StronglySorted_snoc; [exact Hsorted|].
    apply Forall_map. exact Hall.
  - now rewrite (insert_rejected _ _ _ _ _ Hins).
Qed.

(** The files whose documents the run inserts, in the order supplied. *)
Lemma to_insert_in_supply_order (ap : Processor) (am : AudioModel)
    (files : list File) :
  map content (to_insert ap am files)
  = map file_name (filter (fun f => is_audio f && encodes ap am f) files).
Proof.
  unfold encodes. induction files as [|f files IH]; [reflexivity|]. cbn.
  destruct (is_audio f); cbn; [|exact IH].
  destruct (audio_pipeline ap am f); cbn; [now rewrite IH|exact IH].
Qed.

(** C4 (amended): a batch run over N files, of which M fail encoding and
    [skipped] are not audio, finishes with processed = N - M - skipped
    (the files that were embedded), reports exactly M encoding errors,
    hands the store exactly [processed] documents and re-enables the
    controls.  The store gains one record for each of these inserts it
    accepts: [processed] less the rejected inserts, each of which is
    reported as well.  No failure stops the loop. *)
Theorem batch_embed_summary {L : StoreLaws} (ap : Processor) (am : AudioModel)
    (h : VectorDB) (st : State) :
  batch_ready ap am h st ->
  audioFolderInput_files st <> [] ->
  let files := audioFolderInput_files st in
  let N := List.length files in
  let M := failed ap am files in
  let processed := List.length (to_insert ap am files) in
  let st' := run handleEmbedAudioFolder st in
  audioEmbedStatus st' =
    "Finished embedding " +++ show_nat processed +++ " audio files." /\
  processed = N - M - skipped files /\
  encode_errors st' = encode_errors st + M /\
  inserts st' = inserts st ++ to_insert ap am files /\
  List.length (scan (world st')) + (insert_errors st' - insert_errors st)
    = List.length (scan (world st)) + processed /\
  (forall c, disabled st' c = false).
Proof.
  intros Hready Hfiles. cbv zeta.
  destruct (handleEmbedAudioFolder_run ap am h st Hready Hfiles)
    as (Hmsg & Hen & Hi & Hw & Hee & Hie).
  pose proof (count_partition ap am (audioFolderInput_files st)) as Hcount.
  destruct (store_after_scan h (to_insert ap am (audioFolderInput_files st))
              (world st)) as (new & Hnew & _ & Hlen).
  rewrite Hw, Hnew, length_app, Hie.
  repeat split; auto; lia.
Qed.

(** C9: a batch run visits the files in the order supplied; the documents
    it hands to the store are those of the embedded audio files in that
    order; the records the store gains carry them in the same order, behind
    the records already there, and the keys ascend along the scan, so a
    file supplied earlier gets the smaller key. *)
Theorem batch_embed_order {L : StoreLaws} (ap : Processor) (am : AudioModel)
    (h : VectorDB) (st : State) :
  batch_ready ap am h st ->
  audioFolderInput_files st <> [] ->
  keys_ascending (world st) ->
  let files := audioFolderInput_files st in
  let st' := run handleEmbedAudioFolder st in
  inserts st' = inserts st ++ to_insert ap am files /\
  map content (to_insert ap am files)
    = map file_name (filter (fun f => is_audio f && encodes ap am f) files) /\
  (exists new,
     scan (world st') = scan (world st) ++ new /\
     subseq (map snd new) (to_insert ap am files)) /\
  keys_ascending (world st').
Proof.
  intros Hready Hfiles Hkeys. cbv zeta.
  destruct (handleEmbedAudioFolder_run ap am h st Hready Hfiles)
    as (_ & _ & Hi & Hw & _ & _).
  split; [exact Hi|]. split; [apply to_insert_in_supply_order|].
  rewrite Hw. split.
  - destruct (store_after_scan h (to_insert ap am (audioFolderInput_files st))
                (world st)) as (new & Hnew & Hsub & _).
    exists new. split; assumption.
  - now apply store_after_keys.
Qed.

End Properties.

(** * Further properties *)

Section Coverage.
Context `{P : Platform} {L : Loader}.

Ltac unfold_js :=
  unfold called, log, alert, run, result in *;
  unfold bind, ret, throw, try_catch, try_finally, gets, modify, lift in *.

(** ** Startup *)

Lemma progress_callbacks_frame (label : string) (events : list Progress) :
  forall st,
    let out := progress_callbacks label events st in
    snd out = Normal tt /\
    tokenizer (fst out) = tokenizer st /\
    textModel (fst out) = textModel st /\
    audioProcessor (fst out) = audioProcessor st /\
    audioModel (fst out) = audioModel st /\
    db (fst out) = db st /\
    world (fst out) = world st /\
    disabled (fst out) = disabled st /\
    calls (fst out) = calls st /\
    modelStatusColor (fst out) = modelStatusColor st.
Proof.
  induction events as [|p events IH]; intros st; cbv zeta;
    cbn [progress_callbacks].
  - repeat split.
  - unfold bind.
    match goal with
    | |- context [updateModelStatus ?m false st] =>
        destruct (IH (fst (updateModelStatus m false st)))
          as (Hr & Htk & Htm & Hap & Ham & Hdb & Hw & Hd & Hc & Hcol);
        change (updateModelStatus m false st)
          with (fst (updateModelStatus m false st), Normal tt)
    end.
    cbv beta iota.
    rewrite Hr, Htk, Htm, Hap, Ham, Hdb, Hw, Hd, Hc, Hcol.
    repeat split.
Qed.

Ltac step_progress :=
  match goal with
  | |- context [progress_callbacks ?l ?ev ?s] =>
      let Hr := fresh "Hr" in
      let Htk := fresh "Htk" in
      let Htm := fresh "Htm" in
      let Hap := fresh "Hap" in
      let Ham := fresh "Ham" in
      let Hdb := fresh "Hdb" in
      let Hw := fresh "Hw" in
      let Hd := fresh "Hd" in
      let Hc := fresh "Hc" in
      let Hcol := fresh "Hcol" in
      let st := fresh "st" in
      let r := fresh "r" in
      destruct (progress_callbacks_frame l ev s)
        as (Hr & Htk & Htm & Hap & Ham & Hdb & Hw & Hd & Hc & Hcol);
      destruct (progress_callbacks l ev s) as [st r];
      cbn [fst snd] in Hr, Htk, Htm, Hap, Ham, Hdb, Hw, Hd, Hc, Hcol;
      subst r; cbn in Htk, Htm, Hap, Ham, Hdb, Hw, Hd, Hc, Hcol
  end.


(** X2: [main], started on a fresh page, never throws and leaves the
    controls enabled exactly when the four models loaded, whether or not the
    store could be opened.  When the models load but the store's
    constructor throws, [db] stays null, the status line reads "Application
    initialization failed. Some features may be disabled." (still in green)
    and every control is enabled.  When a load fails every control is
    disabled and the same failure line is shown. *)
Theorem main_controls (st : State) :
  fresh_page st ->
  let st' := run main st in
  let opened :=
    snd (VectorDB_new {| vectorPath := "embedding"; dbName := DB_NAME |}
           (world st)) in
  result main st = Normal tt /\
  (if loads_succeed then all_enabled st' else all_disabled st') /\
  db st' = match opened with Normal h => Some h | Throw _ => None end /\
  (loads_succeed = true -> modelStatusColor st' = "green") /\
  modelStatus st' =
    (if loads_succeed && store_opens (world st)
     then "All models loaded successfully!"
     else "Application initialization failed. Some features may be disabled.").
Proof.
  intros (Ftk & Ftm & Fap & Fam & Fdb). cbv zeta.
  unfold run, result. destruct (main st) as [st' r] eqn:E. cbn [fst snd].
  revert E.
  unfold main, initVectorDB, new_VectorDB, loadModels,
    from_pretrained_with_progress, updateModelStatus, updateDbStatus,
    disableControls, loads_succeed, store_opens, all_disabled, all_enabled.
  unfold_js. cbn.
  destruct (VectorDB_new {| vectorPath := "embedding"; dbName := DB_NAME |}
              (world st)) as [w [h|e0]]; cbn.
  all: destruct (AutoTokenizer_from_pretrained TEXT_MODEL_NAME) as [tk|e1];
    cbn; rewrite ?Ftk, ?Ftm, ?Fap, ?Fam, ?Fdb; cbn;
    [|intros E; inversion E; subst st' r; cbn; repeat split;
      first [assumption|congruence|intros []; reflexivity]].
  all: step_progress.
  all: destruct (snd (ClapTextModelWithProjection_from_pretrained
                        TEXT_MODEL_NAME)) as [tm|e2]; cbn;
    [|rewrite ?Htk, ?Htm, ?Hap, ?Ham, ?Hdb, ?Hd, ?Ftk, ?Ftm, ?Fap, ?Fam, ?Fdb;
      cbn;
      intros E; inversion E; subst st' r; cbn; repeat split;
      first [assumption|congruence|intros []; reflexivity]].
  all: destruct (AutoProcessor_from_pretrained AUDIO_MODEL_NAME) as [ap|e3];
    cbn;
    [|rewrite ?Htk, ?Htm, ?Hap, ?Ham, ?Hdb, ?Hd, ?Ftk, ?Ftm, ?Fap, ?Fam, ?Fdb;
      cbn;
      intros E; inversion E; subst st' r; cbn; repeat split;
      first [assumption|congruence|intros []; reflexivity]].
  all: step_progress.
  all: destruct (snd (ClapAudioModelWithProjection_from_pretrained
                        AUDIO_MODEL_NAME)) as [am|e4]; cbn;
    rewrite ?Htk0, ?Htm0, ?Hap0, ?Ham0, ?Hdb0, ?Hd0; cbn;
    rewrite ?Htk, ?Htm, ?Hap, ?Ham, ?Hdb, ?Hd, ?Ftk, ?Ftm, ?Fap, ?Fam, ?Fdb;
    cbn;
    intros E; inversion E; subst st' r; cbn; repeat split;
    first [assumption|congruence|intros []; reflexivity].
Qed.

(** ** Opening the store *)

(** X3: [initVectorDB] never throws.  It calls the store's constructor
    once; when the constructor returns, [db] is the new handle, the status
    line says so and every control is enabled; when it throws, [db] is left
    as it was, the failure is logged as a warning and put on the status
    line, and every control is disabled. *)
Theorem initVectorDB_outcome (st : State) :
  let opts := {| vectorPath := "embedding"; dbName := DB_NAME |} in
  let st' := run initVectorDB st in
  result initVectorDB st = Normal tt /\
  calls st' = calls st ++ [CallNewVectorDB opts] /\
  world st' = fst (VectorDB_new opts (world st)) /\
  match snd (VectorDB_new opts (world st)) with
  | Normal h =>
      db st' = Some h /\
      dbStatus st' = "Vector database initialized." /\
      all_enabled st'
  | Throw e =>
      db st' = db st /\
      dbStatus st' =
        "Failed to initialize vector database. App will not function correctly."
      /\ all_disabled st' /\
      In (console_warn
            "Db constructor failed. Attempting Db.new() as fallback" e)
         (console st')
  end.
Proof.
  cbv zeta.
  unfold initVectorDB, new_VectorDB, updateDbStatus, disableControls,
    all_enabled, all_disabled.
  unfold_js. cbn.
  destruct (VectorDB_new {| vectorPath := "embedding"; dbName := DB_NAME |}
              (world st)) as [w [h|e]]; cbn;
    repeat split; try (intros []; reflexivity).
  rewrite !in_app_iff. cbn. tauto.
Qed.

(** ** Embedding a text *)

(** X4: with tokenizer and text model loaded, [getTextEmbedding] never
    throws.  It returns the model's embedding when tokenizer and model both
    succeed, leaving status line and log alone; when either throws it
    returns null, logs the error and puts "Error creating text embedding:
    ..." on the status line.  The model is not called when the tokenizer
    throws.  Handles, store and controls are untouched. *)
Theorem getTextEmbedding_outcome (st : State) (tk : Tokenizer)
    (tm : TextModel) (text : string) :
  tokenizer st = Some tk ->
  textModel st = Some tm ->
  let st' := run (getTextEmbedding text) st in
  match text_pipeline tk tm text with
  | Normal v =>
      result (getTextEmbedding text) st = Normal (Some v) /\
      modelStatus st' = modelStatus st /\
      console st' = console st
  | Throw e =>
      result (getTextEmbedding text) st = Normal None /\
      modelStatus st' = "Error creating text embedding: " +++ e /\
      console st' =
        console st
          ++ [console_error "Error getting text embedding:" (Some e);
              console_log ("Error creating text embedding: " +++ e)]
  end /\
  calls st' =
    calls st
      ++ CallTokenizer text
         :: match call_tokenizer tk text with
            | Normal _ => [CallTextModel]
            | Throw _ => []
            end /\
  tokenizer st' = Some tk /\ textModel st' = Some tm /\
  db st' = db st /\ world st' = world st /\ disabled st' = disabled st.
Proof.
  intros Htk Htm. cbv zeta.
  unfold getTextEmbedding, tokenizer_call, textModel_call, updateModelStatus,
    text_pipeline.
  unfold_js. rewrite Htk, Htm. cbn.
  destruct (call_tokenizer tk text) as [inputs|e1]; cbn;
    [destruct (call_textModel tm inputs) as [v|e2]; cbn|];
    rewrite <- ?app_assoc; repeat split; auto.
Qed.

(** ** Embedding an audio file *)

(** X5: with processor and audio model loaded, [getAudioEmbedding] never
    throws.  It returns the model's embedding when reading, preprocessing
    and the model all succeed, leaving the status line alone; when one of
    them throws it returns null, logs the error once and puts "Error
    creating audio embedding: ..." on the status line.  Handles, store and
    controls are untouched. *)
Theorem getAudioEmbedding_outcome (st : State) (ap : Processor)
    (am : AudioModel) (audioFile : File) :
  audioProcessor st = Some ap ->
  audioModel st = Some am ->
  let st' := run (getAudioEmbedding audioFile) st in
  match audio_pipeline ap am audioFile with
  | Normal v =>
      result (getAudioEmbedding audioFile) st = Normal (Some v) /\
      modelStatus st' = modelStatus st /\
      console st' = console st
  | Throw e =>
      result (getAudioEmbedding audioFile) st = Normal None /\
      modelStatus st' = "Error creating audio embedding: " +++ e /\
      console st' =
        console st
          ++ [console_error "Error getting audio embedding:" (Some e);
              console_log ("Error creating audio embedding: " +++ e)]
  end /\
  audioProcessor st' = Some ap /\ audioModel st' = Some am /\
  db st' = db st /\ world st' = world st /\ disabled st' = disabled st.
Proof.
  intros Hap Ham. cbv zeta.
  unfold getAudioEmbedding, URL_createObjectURL, URL_revokeObjectURL,
    read_audio, audioProcessor_call, audioModel_call, updateModelStatus,
    audio_pipeline.
  unfold_js. rewrite Hap, Ham. cbn. rewrite String.eqb_refl. cbn.
  destruct (decode_audio audioFile 44100) as [audioData|e1]; cbn;
    [destruct (call_audioProcessor ap audioData) as [inputs|e2]; cbn;
     [destruct (call_audioModel am inputs) as [embeds|e3]; cbn|]|];
    destruct (truthy (new_object_url audioFile (objectUrls st))); cbn;
    rewrite <- ?app_assoc; repeat split; auto.
Qed.

(** ** White space *)

Lemma strip_one_white (c : N) (rest : string) :
  In c (WhiteSpace ++ LineTerminator) ->
  strip_one StrWhiteSpaceChar (utf8 c +++ rest) = Some rest.
Proof.
  intros H. cbn in H.
  repeat (destruct H as [<- | H]; [reflexivity|]). destruct H.
Qed.

Lemma strip_all_white (cs : list N) : forall n,
  Forall (fun c => In c (WhiteSpace ++ LineTerminator)) cs ->
  List.length cs <= n ->
  strip_all n StrWhiteSpaceChar (String.concat "" (map utf8 cs)) = "".
Proof.
  induction cs as [|c cs IH]; intros n Hall Hn.
  - destruct n; reflexivity.
  - inversion Hall as [|? ? Hc Hcs]; subst.
    destruct n as [|n]; [cbn in Hn; lia|].
    assert (String.concat "" (map utf8 (c :: cs))
            = utf8 c +++ String.concat "" (map utf8 cs)) as ->.
    { cbn [map String.concat]. destruct (map utf8 cs); [|reflexivity].
      cbn. clear. induction (utf8 c); cbn; congruence. }
    cbn [strip_all]. rewrite (strip_one_white c _ Hc).
    apply IH; [exact Hcs|cbn in Hn; lia].
Qed.

Lemma utf8_length (c : N) : 1 <= String.length (utf8 c).
Proof.
  unfold utf8. destruct (N.ltb c 128); [cbn; lia|].
  destruct (N.ltb c 2048); cbn; lia.
Qed.

Lemma length_append (s1 s2 : string) :
  String.length (s1 +++ s2) = String.length s1 + String.length s2.
Proof. induction s1 as [|c s1 IH]; cbn; congruence. Qed.

Lemma concat_utf8_length (cs : list N) :
  List.length cs <= String.length (String.concat "" (map utf8 cs)).
Proof.
  induction cs as [|c cs IH]; [cbn; lia|].
  assert (String.concat "" (map utf8 (c :: cs))
          = utf8 c +++ String.concat "" (map utf8 cs)) as ->.
  { cbn [map String.concat]. destruct (map utf8 cs); [|reflexivity].
    cbn. clear. induction (utf8 c); cbn; congruence. }
  rewrite length_append. pose proof (utf8_length c). cbn [List.length]. lia.
Qed.

(** A string of white space and line terminators only is blank: [trim]
    leaves nothing of it. *)
Lemma trim_white (cs : list N) :
  Forall (fun c => In c (WhiteSpace ++ LineTerminator)) cs ->
  trim (String.concat "" (map utf8 cs)) = "".
Proof.
  intros Hall. unfold trim, trimStart.
  rewrite (strip_all_white cs _ Hall (concat_utf8_length cs)).
  reflexivity.
Qed.

(** ** Searching *)

(** X6: a text search on a ready page with a query that is not blank never
    throws, never inserts and always ends with every control enabled.  It
    embeds the trimmed query; when that fails the result list is left as it
    was and the status line reads "Failed to generate embedding for
    search."; otherwise it asks the store for 10 results and shows what
    [searchDB] returned: a header with the count and one item per result in
    the store's order, or "No results found." when nothing came back, which
    is also what a failed store query shows.  The status line then reads
    "Search complete." in green. *)
Theorem handleTextSearch_outcome (st : State) (tk : Tokenizer)
    (tm : TextModel) (h : VectorDB) :
  tokenizer st = Some tk ->
  textModel st = Some tm ->
  db st = Some h ->
  trim (textSearchInput_value st) <> "" ->
  let query := trim (textSearchInput_value st) in
  let st' := run handleTextSearch st in
  result handleTextSearch st = Normal tt /\
  all_enabled st' /\
  world st' = world st /\
  inserts st' = inserts st /\
  match text_pipeline tk tm query with
  | Throw _ =>
      searchResultsList st' = searchResultsList st /\
      modelStatus st' = "Failed to generate embedding for search."
  | Normal v =>
      searchResultsList st' =
        rendered (search_outcome h v 10 (world st)) "text" query /\
      modelStatus st' = "Search complete." /\
      modelStatusColor st' = "green"
  end.
Proof.
  intros Htk Htm Hdb Hquery. cbv zeta.
  pose proof (truthy_nonempty _ Hquery) as Htruthy.
  unfold run, result.
  destruct (handleTextSearch st) as [st' r] eqn:E. cbn [fst snd]. revert E.
  unfold handleTextSearch, handleTextSearch_begin, handleTextSearch_rest,
    getTextEmbedding, tokenizer_call, textModel_call, searchDB, db_query,
    displayResults, updateModelStatus, updateDbStatus, disableControls,
    Array_from, text_pipeline, search_outcome, rendered, all_enabled, inserts.
  unfold_js. rewrite Htruthy. cbn.
  repeat (progress (rewrite ?Htk, ?Htm, ?Hdb; cbn)).
  destruct (call_tokenizer tk (trim (textSearchInput_value st)))
    as [inputs|e1]; cbn;
    [destruct (call_textModel tm inputs) as [[|x v]|e2]; cbn;
     rewrite ?Hdb; cbn;
     [|destruct (VectorDB_query h (x :: v) 10 (world st))
         as [[|r0 rs]|e3]; cbn|]|].
  all: intros E; inversion E; subst st' r; cbn;
    rewrite !flat_map_app, ?app_nil_r;
    repeat split; intros []; reflexivity.
Qed.


(** ** Guards *)

(** X8: a handler whose guard fails only reports.  With no file selected,
    [handleEmbedAudioFolder] sets its status line and [handleAudioFileSearch]
    raises an alert; with a blank query [handleTextSearch] raises an alert;
    with the input present but a model or the store missing, each puts its
    "not ready" line on the status.  In all six cases nothing else happens:
    no control is disabled, no call leaves the module. *)
Theorem handlers_only_report_when_refusing (st : State) :
  (audioFolderInput_files st = [] ->
   handleEmbedAudioFolder st
   = updateAudioEmbedStatus "No folder/files selected." st) /\
  (audioFolderInput_files st <> [] ->
   audioModel st = None \/ audioProcessor st = None \/ db st = None ->
   handleEmbedAudioFolder st
   = updateAudioEmbedStatus "Models or DB not ready." st) /\
  (trim (textSearchInput_value st) = "" ->
   handleTextSearch st = alert "Please enter a search query." st) /\
  (trim (textSearchInput_value st) <> "" ->
   textModel st = None \/ tokenizer st = None \/ db st = None ->
   handleTextSearch st
   = updateModelStatus "Models or DB not ready for search." false st) /\
  (audioSearchInput_files st = [] ->
   handleAudioFileSearch st
   = alert "Please select an audio file to search with." st) /\
  (audioSearchInput_files st <> [] ->
   audioModel st = None \/ audioProcessor st = None \/ db st = None ->
   handleAudioFileSearch st
   = updateModelStatus "Models or DB not ready for search." false st).
Proof.
  unfold handleEmbedAudioFolder, handleEmbedAudioFolder_begin,
    handleTextSearch, handleTextSearch_begin, handleAudioFileSearch,
    handleAudioFileSearch_begin, updateAudioEmbedStatus, updateModelStatus.
  unfold_js.
  repeat split.
  - intros ->. reflexivity.
  - intros Hfiles Hmissing.
    destruct (audioFolderInput_files st); [congruence|]. cbn.
    destruct (audioModel st), (audioProcessor st), (db st);
      try reflexivity.
    destruct Hmissing as [H|[H|H]]; discriminate.
  - intros ->. reflexivity.
  - intros Hquery Hmissing. rewrite (truthy_nonempty _ Hquery). cbn.
    destruct (textModel st), (tokenizer st), (db st); try reflexivity.
    destruct Hmissing as [H|[H|H]]; discriminate.
  - intros ->. reflexivity.
  - intros Hfiles Hmissing.
    destruct (audioSearchInput_files st); [congruence|]. cbn.
    destruct (audioModel st), (audioProcessor st), (db st);
      try reflexivity.
    destruct Hmissing as [H|[H|H]]; discriminate.
Qed.

(** ** No exception escapes *)

Lemma never_throws_ret {A} (a : A) : never_throws (ret a).
Proof. intros st. now exists a. Qed.

Lemma never_throws_gets {A} (f : State -> A) : never_throws (gets f).
Proof. intros st. now eexists. Qed.

Lemma never_throws_bind {A B} (m : M A) (k : A -> M B) :
  never_throws m -> (forall a, never_throws (k a)) -> never_throws (bind m k).
Proof.
  intros Hm Hk st. unfold bind. destruct (Hm st) as [a Ha].
  destruct (m st) as [st1 r]. cbn in Ha. subst r. apply Hk.
Qed.

Lemma never_throws_try_catch {A} (m : M A) (handler : JsError -> M A) :
  (forall e, never_throws (handler e)) -> never_throws (try_catch m handler).
Proof.
  intros Hh st. unfold try_catch.
  destruct (m st) as [st1 [a|e]]; [now exists a|apply Hh].
Qed.

Lemma never_throws_status :
  (forall m, never_throws (updateAudioEmbedStatus m)) /\
  (forall m b, never_throws (updateModelStatus m b)) /\
  (forall m, never_throws (updateDbStatus m)) /\
  (forall b, never_throws (disableControls b)) /\
  (forall e, never_throws (log e)) /\
  (forall m, never_throws (alert m)).
Proof.
  unfold never_throws, updateAudioEmbedStatus, updateModelStatus,
    updateDbStatus, disableControls.
  unfold_js.
  repeat split; intros; try (now exists tt).
  destruct b; now exists tt.
Qed.

(** Closes a goal [never_throws m] for a computation built from the
    status updates with [bind], [ret], [gets] and case distinctions. *)
Ltac straight_line :=
  let Hs := fresh "Hs" in
  pose proof never_throws_status as Hs;
  destruct Hs as (? & ? & ? & ? & ? & ?);
  repeat first
    [ apply never_throws_ret | apply never_throws_gets | solve [auto]
    | apply never_throws_bind; [|intros ?]
    | match goal with
      | |- never_throws (if ?b then _ else _) => destruct b
      | |- never_throws (match ?x with _ => _ end) => destruct x
      | |- never_throws (match ?x with _ => _ end _) => destruct x; cbv beta
      end ].

Lemma never_throws_initVectorDB : never_throws initVectorDB.
Proof.
  unfold initVectorDB.
  apply never_throws_bind; [straight_line|intros ?].
  apply never_throws_bind; [straight_line|intros ?].
  apply never_throws_try_catch. intros e. straight_line.
Qed.

Lemma never_throws_loadModels : never_throws loadModels.
Proof.
  unfold loadModels.
  apply never_throws_bind; [straight_line|intros ?].
  apply never_throws_bind; [straight_line|intros ?].
  apply never_throws_try_catch. intros e. straight_line.
Qed.

Lemma never_throws_main : never_throws main.
Proof.
  unfold main.
  apply never_throws_bind; [straight_line|intros ?].
  apply never_throws_bind; [apply never_throws_initVectorDB|intros ?].
  apply never_throws_bind; [apply never_throws_loadModels|intros ?].
  apply never_throws_bind; [apply never_throws_gets|intros d].
  apply never_throws_bind; [apply never_throws_gets|intros tk].
  apply never_throws_bind; [apply never_throws_gets|intros tm].
  apply never_throws_bind; [apply never_throws_gets|intros ap].
  apply never_throws_bind; [apply never_throws_gets|intros am].
  destruct d, tk, tm, ap, am; straight_line.
Qed.

Lemma never_throws_getTextEmbedding (text : string) :
  never_throws (getTextEmbedding text).
Proof.
  unfold getTextEmbedding.
  apply never_throws_bind; [straight_line|intros [tk|]];
    (apply never_throws_bind; [straight_line|intros [tm|]]);
    try straight_line.
  apply never_throws_try_catch. intros e. straight_line.
Qed.

Lemma never_throws_getAudioEmbedding (f : File) :
  never_throws (getAudioEmbedding f).
Proof.
  intros st.
  unfold getAudioEmbedding, URL_createObjectURL, URL_revokeObjectURL,
    read_audio, audioProcessor_call, audioModel_call, updateModelStatus.
  unfold_js.
  destruct (audioProcessor st) as [ap|];
    [destruct (audioModel st) as [am|]|]; cbn; eauto.
  rewrite String.eqb_refl. cbn.
  destruct (truthy (new_object_url f (objectUrls st)));
    (destruct (decode_audio f 44100) as [audioData|e1]; cbn; eauto;
     destruct (call_audioProcessor ap audioData) as [inputs|e2]; cbn; eauto;
     destruct (call_audioModel am inputs); cbn; eauto).
Qed.

Lemma never_throws_insertIntoDB (content_ : string) (e : Float32Array)
    (tags_ : list string) :
  never_throws (insertIntoDB content_ e tags_).
Proof.
  unfold insertIntoDB.
  apply never_throws_bind; [straight_line|intros [h|]]; [|straight_line].
  apply never_throws_try_catch. intros err. straight_line.
Qed.

Lemma never_throws_searchDB (q : Float32Array) (k : nat) :
  never_throws (searchDB q k).
Proof.
  unfold searchDB.
  apply never_throws_bind; [straight_line|intros [h|]]; [|straight_line].
  destruct (Nat.eqb (List.length q) 0); [straight_line|].
  apply never_throws_try_catch. intros err. straight_line.
Qed.

Lemma never_throws_clear (o : DeleteOutcome) :
  never_throws clearDB /\ never_throws (deleteRequest_settled o).
Proof.
  split.
  - unfold clearDB.
    apply never_throws_bind; [straight_line|intros [h|]]; [|straight_line].
    intros st. now exists tt.
  - unfold deleteRequest_settled, request_onsuccess, request_onerror,
      request_onblocked.
    destruct o; [|straight_line..].
    apply never_throws_bind; [intros st; now exists tt|intros ?].
    apply never_throws_bind; [straight_line|intros ?].
    apply never_throws_bind; [straight_line|intros ?].
    intros st. now exists tt.
Qed.

Lemma never_throws_displayResults (results : list QueryResult)
    (type query : string) :
  never_throws (displayResults results type query).
Proof.
  intros st. unfold displayResults. unfold_js.
  destruct results; now exists tt.
Qed.

Lemma never_throws_for_files (n : nat) (files : list File) :
  forall count, never_throws (for_files n count files).
Proof.
  induction files as [|f files IH]; intros count; cbn [for_files].
  - apply never_throws_ret.
  - apply never_throws_bind; [|intros count'; apply IH].
    unfold embed_file. destruct (startsWith (file_type f) "audio/");
      [|straight_line].
    apply never_throws_try_catch. intros err. straight_line.
Qed.

Lemma never_throws_search_rest (v : option Float32Array)
    (type query searching complete failed_ : string) :
  never_throws
    (match v with
     | Some e =>
         updateModelStatus searching false ;;
         results <- searchDB e 10 ;;
         displayResults results type query ;;
         updateModelStatus complete true
     | None => updateModelStatus failed_ false
     end ;; disableControls false).
Proof.
  apply never_throws_bind; [|intros ?; straight_line].
  destruct v as [e|]; [|straight_line].
  apply never_throws_bind; [straight_line|intros ?].
  apply never_throws_bind; [apply never_throws_searchDB|intros results].
  apply never_throws_bind; [apply never_throws_displayResults|intros ?].
  straight_line.
Qed.

Lemma never_throws_handlers :
  never_throws handleEmbedAudioFolder /\
  never_throws handleTextSearch /\
  never_throws handleAudioFileSearch.
Proof.
  split; [|split].
  - unfold handleEmbedAudioFolder.
    apply never_throws_bind;
      [unfold handleEmbedAudioFolder_begin; straight_line|].
    intros [files|]; [|straight_line].
    unfold handleEmbedAudioFolder_rest.
    apply never_throws_bind; [apply never_throws_for_files|intros ?].
    straight_line.
  - unfold handleTextSearch.
    apply never_throws_bind;
      [unfold handleTextSearch_begin; straight_line|].
    intros [query|]; [|straight_line].
    unfold handleTextSearch_rest.
    apply never_throws_bind; [apply never_throws_getTextEmbedding|].
    intros v. apply never_throws_search_rest.
  - unfold handleAudioFileSearch.
    apply never_throws_bind;
      [unfold handleAudioFileSearch_begin; straight_line|].
    intros [f|]; [|straight_line].
    unfold handleAudioFileSearch_rest.
    apply never_throws_bind; [apply never_throws_getAudioEmbedding|].
    intros v. apply never_throws_search_rest.
Qed.

(** X9: no operation lets an exception escape.  Whatever the encoders, the
    loader and the store throw, the functions that open the store, load the
    models, embed, insert, search and clear, the callbacks of a clear and
    the three button handlers all return normally. *)
Theorem no_exception_escapes :
  never_throws initVectorDB /\
  never_throws loadModels /\
  never_throws main /\
  (forall text, never_throws (getTextEmbedding text)) /\
  (forall audioFile, never_throws (getAudioEmbedding audioFile)) /\
  (forall content_ e tags_, never_throws (insertIntoDB content_ e tags_)) /\
  (forall q k, never_throws (searchDB q k)) /\
  never_throws clearDB /\
  (forall o, never_throws (deleteRequest_settled o)) /\
  never_throws handleEmbedAudioFolder /\
  never_throws handleTextSearch /\
  never_throws handleAudioFileSearch.
Proof.
  destruct never_throws_handlers as (Hembed & Htext & Haudio).
  split; [apply never_throws_initVectorDB|].
  split; [apply never_throws_loadModels|].
  split; [apply never_throws_main|].
  split; [apply never_throws_getTextEmbedding|].
  split; [apply never_throws_getAudioEmbedding|].
  split; [apply never_throws_insertIntoDB|].
  split; [apply never_throws_searchDB|].
  split; [apply (never_throws_clear DeleteBlocked)|].
  split; [intros o; apply (never_throws_clear o)|].
  split; [exact Hembed|]. split; [exact Htext|exact Haudio].
Qed.

(** ** Finished operations *)

Lemma enabled_at_the_end {A} (m : M A) :
  never_throws m ->
  forall st, all_enabled (run (m ;; disableControls false) st).
Proof.
  intros Hm st. unfold run, bind. destruct (Hm st) as [a Ha].
  destruct (m st) as [st1 r]. cbn in Ha. subst r.
  unfold disableControls. unfold_js. intros []; reflexivity.
Qed.

(** X10: whatever the encoders and the store do, an operation that has
    started and runs to its end leaves every control enabled: the rest of a
    batch run, of a text search and of an audio search each end by enabling
    the controls, and no failure on the way skips that step.  On the page,
    completing the only running operation leaves nothing running and every
    control enabled. *)
Theorem finished_operation_enables_controls (st : State) (files : list File)
    (query : string) (audioFile : File) :
  all_enabled (run (handleEmbedAudioFolder_rest files) st) /\
  all_enabled (run (handleTextSearch_rest query) st) /\
  all_enabled (run (handleAudioFileSearch_rest audioFile) st) /\
  (forall pg t,
     running pg = [t] -> t <> ClearTask ->
     running (step (Resume 0) pg) = [] /\
     all_enabled (app (step (Resume 0) pg))).
Proof.
  destruct never_throws_status as (Haudio & Hmodel & _ & _ & _ & _).
  assert (forall files0 st0,
            all_enabled (run (handleEmbedAudioFolder_rest files0) st0))
    as Hembed.
  { intros files0 st0. unfold handleEmbedAudioFolder_rest, run.
    destruct (never_throws_for_files (List.length files0) files0 0 st0)
      as [count Hcount].
    unfold bind at 1.
    destruct (for_files (List.length files0) 0 files0 st0) as [st1 r].
    cbn in Hcount. subst r.
    apply (enabled_at_the_end (updateAudioEmbedStatus _)). apply Haudio. }
  assert (forall query0 st0,
            all_enabled (run (handleTextSearch_rest query0) st0)) as Htext.
  { intros query0 st0. unfold handleTextSearch_rest, run.
    destruct (never_throws_getTextEmbedding query0 st0) as [v Hv].
    unfold bind at 1.
    destruct (getTextEmbedding query0 st0) as [st1 r]. cbn in Hv. subst r.
    apply enabled_at_the_end.
    destruct v as [v|]; [|apply Hmodel].
    apply never_throws_bind; [apply Hmodel|intros ?].
    apply never_throws_bind; [apply never_throws_searchDB|intros results].
    apply never_throws_bind; [apply never_throws_displayResults|intros ?].
    apply Hmodel. }
  assert (forall f0 st0,
            all_enabled (run (handleAudioFileSearch_rest f0) st0)) as Hsearch.
  { intros f0 st0. unfold handleAudioFileSearch_rest, run.
    destruct (never_throws_getAudioEmbedding f0 st0) as [v Hv].
    unfold bind at 1.
    destruct (getAudioEmbedding f0 st0) as [st1 r]. cbn in Hv. subst r.
    apply enabled_at_the_end.
    destruct v as [v|]; [|apply Hmodel].
    apply never_throws_bind; [apply Hmodel|intros ?].
    apply never_throws_bind; [apply never_throws_searchDB|intros results].
    apply never_throws_bind; [apply never_throws_displayResults|intros ?].
    apply Hmodel. }
  split; [apply Hembed|]. split; [apply Htext|]. split; [apply Hsearch|].
  intros pg t Hone Hnot. unfold step. rewrite Hone. cbn [nth_error].
  destruct t; try congruence; cbn [running app remove_nth]; split;
    auto.
Qed.

(** ** One operation at a time, the clear button apart *)

Lemma steps_keep_exclusive (es : list Event) :
  forall pg,
    ~ In (Click clearDbButton) es ->
    exclusive pg -> exclusive (steps es pg).
Proof.
  induction es as [|e es IH]; intros pg Hes Hex; [exact Hex|].
  cbn. apply IH.
  - intros Hin. apply Hes. now right.
  - apply step_exclusive; [|exact Hex]. intros ->. apply Hes. now left.
Qed.

(** X11: starting from a page where nothing is running, and as long as the
    clear button is not clicked, clicks and completions in any order leave
    at most one operation running, and while one is running every control
    is disabled. *)
Theorem one_operation_without_clear (es : list Event) (pg : Page) :
  running pg = [] ->
  ~ In (Click clearDbButton) es ->
  List.length (running (steps es pg)) <= 1 /\
  (running (steps es pg) <> [] -> all_disabled (app (steps es pg))).
Proof.
  intros Hidle Hes.
  destruct (steps_keep_exclusive es pg Hes (or_introl Hidle))
    as [Hnone|(t & Hone & _ & Hall)].
  - rewrite Hnone. split; [cbn; lia|congruence].
  - rewrite Hone. split; [cbn; lia|intros _; exact Hall].
Qed.

(** ** Clearing *)

(** X12: [clearDB] asks for the deletion of the database named
    "clap-embeddings-db" and changes nothing else; with [db] null it asks
    for nothing and reports "Database not initialized.".  When the request
    fails or is blocked, the store, the handle and the displayed results
    stay as they were: a failure goes to the status line, a blocked request
    raises an alert.  Only a succeeded request deletes the database and
    empties the result list. *)
Theorem clear_request_outcomes (st : State) :
  (db st = None ->
   calls (run clearDB st) = calls st /\
   dbStatus (run clearDB st) = "Database not initialized." /\
   In (console_error "DB does not exist" None) (console (run clearDB st))) /\
  (db st <> None ->
   run clearDB st = set_calls (calls st ++ [CallDeleteDatabase DB_NAME]) st)
  /\
  (forall e,
     let st' := run (deleteRequest_settled (DeleteFailed e)) st in
     world st' = world st /\ db st' = db st /\
     searchResultsList st' = searchResultsList st /\
     dbStatus st' = "Error clearing DB: " +++ e) /\
  run (deleteRequest_settled DeleteBlocked) st
  = set_alerts
      (alerts st
         ++ ["Database clearing was blocked, probably due to an open connection."])
      st /\
  (let st' := run (deleteRequest_settled DeleteSucceeded) st in
   world st' = deleteDatabase_done DB_NAME (world st) /\ db st' = db st /\
   searchResultsList st' = [] /\ dbStatus st' = "Database cleared.").
Proof.
  unfold clearDB, deleteRequest_settled, request_onsuccess, request_onerror,
    request_onblocked, updateDbStatus.
  unfold_js.
  split; [intros ->; cbn; repeat split; rewrite !in_app_iff; cbn; tauto|].
  split; [destruct (db st); [reflexivity|congruence]|].
  repeat split.
Qed.

(** ** What a batch run inserts *)

Lemma to_insert_from_audio (ap : Processor) (am : AudioModel)
    (files : list File) :
  Forall
    (fun d =>
       exists f,
         In f files /\ is_audio f = true /\
         audio_pipeline ap am f = Normal (embedding d) /\
         content d = file_name f /\ tags d = [TAG_AUDIO; file_type f])
    (to_insert ap am files).
Proof.
  induction files as [|f files IH]; cbn; [constructor|].
  assert (forall l,
            Forall
              (fun d =>
                 exists f0,
                   In f0 files /\ is_audio f0 = true /\
                   audio_pipeline ap am f0 = Normal (embedding d) /\
                   content d = file_name f0 /\
                   tags d = [TAG_AUDIO; file_type f0]) l ->
            Forall
              (fun d =>
                 exists f0,
                   (f = f0 \/ In f0 files) /\ is_audio f0 = true /\
                   audio_pipeline ap am f0 = Normal (embedding d) /\
                   content d = file_name f0 /\
                   tags d = [TAG_AUDIO; file_type f0]) l) as Hweaken.
  { intros l Hl. eapply Forall_impl; [|exact Hl].
    intros d (f0 & Hin & Hrest). exists f0. split; [now right|exact Hrest]. }
  destruct (is_audio f) eqn:Haudio; [|now apply Hweaken].
  destruct (audio_pipeline ap am f) as [v|e] eqn:Hpipe; [|now apply Hweaken].
  constructor; [|now apply Hweaken].
  exists f. cbn. repeat split; auto.
Qed.

(** X13: every document a batch run hands to the store comes from a
    supplied file whose media type starts with "audio/": it carries the
    file's name as content, the tags "audio" and the file's media type, and
    as embedding exactly the vector the audio model returned for that
    file.  A file of another type, or one that failed to embed, is never
    inserted. *)
Theorem batch_inserts_only_embedded_audio (ap : Processor) (am : AudioModel)
    (h : VectorDB) (st : State) :
  batch_ready ap am h st ->
  audioFolderInput_files st <> [] ->
  exists new,
    inserts (run handleEmbedAudioFolder st) = inserts st ++ new /\
    Forall
      (fun d =>
         exists f,
           In f (audioFolderInput_files st) /\
           startsWith (file_type f) "audio/" = true /\
           audio_pipeline ap am f = Normal (embedding d) /\
           content d = file_name f /\ tags d = [TAG_AUDIO; file_type f])
      new.
Proof.
  intros Hready Hfiles.
  destruct (handleEmbedAudioFolder_run ap am h st Hready Hfiles)
    as (_ & _ & Hinserts & _).
  exists (to_insert ap am (audioFolderInput_files st)).
  split; [exact Hinserts|apply to_insert_from_audio].
Qed.

(** ** Object URLs *)

Section UrlStore.
Variable reg : list (string * File).

Lemma keeps_urls_ret {A} (a : A) : keeps_urls reg (ret a).
Proof. intros st Hst. exact Hst. Qed.

Lemma keeps_urls_gets {A} (f : State -> A) : keeps_urls reg (gets f).
Proof. intros st Hst. exact Hst. Qed.

Lemma keeps_urls_bind {A B} (m : M A) (k : A -> M B) :
  keeps_urls reg m -> (forall a, keeps_urls reg (k a)) ->
  keeps_urls reg (bind m k).
Proof.
  intros Hm Hk st Hst. unfold bind. specialize (Hm st Hst).
  destruct (m st) as [st1 [a|e]]; cbn in *; [|exact Hm].
  now apply Hk.
Qed.

Lemma keeps_urls_try_catch {A} (m : M A) (handler : JsError -> M A) :
  keeps_urls reg m -> (forall e, keeps_urls reg (handler e)) ->
  keeps_urls reg (try_catch m handler).
Proof.
  intros Hm Hh st Hst. unfold try_catch. specialize (Hm st Hst).
  destruct (m st) as [st1 [a|e]]; cbn in *; [exact Hm|].
  now apply Hh.
Qed.

Lemma keeps_urls_status :
  (forall m, keeps_urls reg (updateAudioEmbedStatus m)) /\
  (forall m b, keeps_urls reg (updateModelStatus m b)) /\
  (forall m, keeps_urls reg (updateDbStatus m)) /\
  (forall b, keeps_urls reg (disableControls b)) /\
  (forall e, keeps_urls reg (log e)) /\
  (forall m, keeps_urls reg (alert m)).
Proof.
  unfold keeps_urls, updateAudioEmbedStatus, updateModelStatus,
    updateDbStatus, disableControls.
  unfold_js.
  repeat split; intros; try assumption.
  destruct b; assumption.
Qed.

Lemma keeps_urls_insertIntoDB (content_ : string) (e : Float32Array)
    (tags_ : list string) :
  keeps_urls reg (insertIntoDB content_ e tags_).
Proof.
  intros st Hst. unfold insertIntoDB, db_insert, updateDbStatus, Array_from.
  unfold_js.
  destruct (db st) as [h|]; cbn; [|exact Hst].
  destruct (VectorDB_insert h _ (world st)) as [w [key_|err]]; exact Hst.
Qed.

Lemma keeps_urls_searchDB (q : Float32Array) (k : nat) :
  keeps_urls reg (searchDB q k).
Proof.
  intros st Hst.
  unfold searchDB, db_query, updateDbStatus, updateModelStatus, Array_from.
  unfold_js.
  destruct (db st) as [h|]; cbn; [|exact Hst].
  destruct q as [|x q]; cbn; [exact Hst|].
  destruct (VectorDB_query h (x :: q) k (world st)); exact Hst.
Qed.

Lemma keeps_urls_displayResults (results : list QueryResult)
    (type query : string) :
  keeps_urls reg (displayResults results type query).
Proof.
  intros st Hst. unfold displayResults. unfold_js.
  destruct results; exact Hst.
Qed.

Hypothesis mints_fresh :
  forall f,
    new_object_url f reg <> "" /\ ~ In (new_object_url f reg) (map fst reg).

Lemma keeps_urls_getAudioEmbedding (f : File) :
  keeps_urls reg (getAudioEmbedding f).
Proof.
  intros st Hst. destruct (mints_fresh f) as [Hne Hfresh].
  pose proof (truthy_nonempty _ Hne) as Htruthy.
  unfold getAudioEmbedding, URL_createObjectURL, URL_revokeObjectURL,
    read_audio, audioProcessor_call, audioModel_call, updateModelStatus.
  unfold_js.
  destruct (audioProcessor st) as [ap|];
    [destruct (audioModel st) as [am|]|]; cbn; try exact Hst.
  rewrite Hst, String.eqb_refl. cbn.
  destruct (decode_audio f 44100) as [audioData|e1]; cbn;
    [destruct (call_audioProcessor ap audioData) as [inputs|e2]; cbn;
     [destruct (call_audioModel am inputs) as [embeds|e3]; cbn|]|];
    rewrite Htruthy; cbn; rewrite String.eqb_refl;
    now apply revoke_fresh.
Qed.

Lemma keeps_urls_for_files (n : nat) (files : list File) :
  forall count, keeps_urls reg (for_files n count files).
Proof.
  destruct keeps_urls_status as (Haudio & _ & _ & _ & Hlog & _).
  induction files as [|f files IH]; intros count; cbn [for_files].
  - apply keeps_urls_ret.
  - apply keeps_urls_bind; [|intros count'; apply IH].
    unfold embed_file. destruct (startsWith (file_type f) "audio/").
    + apply keeps_urls_try_catch.
      * apply keeps_urls_bind; [apply Haudio|intros ?].
        apply keeps_urls_bind; [apply keeps_urls_getAudioEmbedding|].
        intros [v|]; [|apply keeps_urls_ret].
        apply keeps_urls_bind; [apply keeps_urls_insertIntoDB|].
        intros ?. apply keeps_urls_ret.
      * intros err. apply keeps_urls_bind; [apply Haudio|intros ?].
        apply keeps_urls_bind; [apply Hlog|intros ?]. apply keeps_urls_ret.
    + apply keeps_urls_bind; [apply Haudio|intros ?]. apply keeps_urls_ret.
Qed.

Lemma keeps_urls_handlers :
  keeps_urls reg handleEmbedAudioFolder /\
  keeps_urls reg handleAudioFileSearch.
Proof.
  destruct keeps_urls_status
    as (Haudio & Hmodel & _ & Hcontrols & _ & Halert).
  split.
  - apply (keeps_urls_bind handleEmbedAudioFolder_begin).
    + unfold handleEmbedAudioFolder_begin.
      repeat first
        [ apply keeps_urls_ret | apply Haudio | apply Hcontrols
        | apply keeps_urls_gets
        | apply keeps_urls_bind; [|intros ?]
        | match goal with
          | |- keeps_urls _ (if ?b then _ else _) => destruct b
          | |- keeps_urls _ (match ?x with _ => _ end) => destruct x
          | |- keeps_urls _ (match ?x with _ => _ end _) =>
              destruct x; cbv beta
          end ].
    + intros [files|]; [|apply keeps_urls_ret].
      unfold handleEmbedAudioFolder_rest.
      apply keeps_urls_bind; [apply keeps_urls_for_files|intros count].
      apply keeps_urls_bind; [apply Haudio|intros ?; apply Hcontrols].
  - apply (keeps_urls_bind handleAudioFileSearch_begin).
    + unfold handleAudioFileSearch_begin.
      repeat first
        [ apply keeps_urls_ret | apply Hmodel | apply Halert
        | apply Hcontrols | apply keeps_urls_gets
        | apply keeps_urls_bind; [|intros ?]
        | match goal with
          | |- keeps_urls _ (match ?x with _ => _ end) => destruct x
          | |- keeps_urls _ (match ?x with _ => _ end _) =>
              destruct x; cbv beta
          end ].
    + intros [f|]; [|apply keeps_urls_ret].
      unfold handleAudioFileSearch_rest.
      apply keeps_urls_bind; [apply keeps_urls_getAudioEmbedding|].
      intros embedding_.
      apply keeps_urls_bind; [|intros ?; apply Hcontrols].
      destruct embedding_ as [v|]; [|apply Hmodel].
      apply keeps_urls_bind; [apply Hmodel|intros ?].
      apply keeps_urls_bind; [apply keeps_urls_searchDB|intros results].
      apply keeps_urls_bind; [apply keeps_urls_displayResults|intros ?].
      apply Hmodel.
Qed.

End UrlStore.

(** X14: provided the URLs the browser mints from the current blob URL
    store are non-empty and not yet in it, the two handlers that read audio
    files leave the store as they found it, however many files they read
    and whichever of them fail: no object URL outlives a batch run or an
    audio search. *)
Theorem handlers_revoke_every_url (st : State) :
  (forall f,
     new_object_url f (objectUrls st) <> "" /\
     ~ In (new_object_url f (objectUrls st)) (map fst (objectUrls st))) ->
  objectUrls (run handleEmbedAudioFolder st) = objectUrls st /\
  objectUrls (run handleAudioFileSearch st) = objectUrls st.
Proof.
  intros Hfresh.
  destruct (keeps_urls_handlers (objectUrls st) Hfresh) as [Hembed Hsearch].
  split; [now apply Hembed|now apply Hsearch].
Qed.

End Coverage.

(** * The reference platform at work *)

Import Reference.

Lemma next_key_above (w : list (nat * Doc)) :
  Forall (fun r => fst r < next_key w) w.
Proof.
  unfold next_key.
  assert (Forall (fun k => k <= list_max (map fst w)) (map fst w)) as Hmax
    by (apply list_max_le; lia).
  rewrite Forall_map in Hmax.
  eapply Forall_impl; [|exact Hmax]. cbn. intros r Hr. lia.
Qed.

(** The reference store keeps the promises of [StoreLaws]. *)
Lemma reference_laws audio text : @StoreLaws (platform audio text).
Proof.
  split; cbn; unfold insert; intros h d w w' k Hins;
    destruct (mismatches (embedding d) w);
    inversion Hins; subst; auto.
  split; [reflexivity|apply next_key_above].
Qed.

(** ** The order of the floats

    What [<], [<=] and [==] say of two numbers, neither of them NaN, in
    terms of their places. *)

Lemma is_number_spec x : is_number x = true <-> Prim2SF x <> S754_nan.
Proof.
  unfold is_number. rewrite eqb_spec. unfold SFeqb.
  destruct (Prim2SF x) as [s|s| |s m e]; cbn.
  - split; [discriminate|reflexivity].
  - destruct s; split; try discriminate; reflexivity.
  - split; [discriminate|congruence].
  - destruct s; rewrite Z.compare_refl, ?Pos.compare_cont_refl; cbn;
      split; try discriminate; reflexivity.
Qed.

Lemma SFcompare_spec x y :
  x <> S754_nan -> y <> S754_nan ->
  exists c, SFcompare x y = Some c /\
    (c = Lt <-> below (place_of x) (place_of y)) /\
    (c = Eq <-> level (place_of x) (place_of y)) /\
    (c = Gt <-> below (place_of y) (place_of x)).
Proof.
  intros Hx Hy. unfold below, level.
  destruct x as [s1|s1| |s1 m1 e1]; [| |congruence|];
    (destruct y as [s2|s2| |s2 m2 e2]; [| |congruence|]);
    try (destruct s1); try (destruct s2); cbn;
    try (eexists; split; [reflexivity|]; cbn;
         repeat split; intros; try discriminate; try lia; fail).
  - exists (match (e1 ?= e2)%Z with Lt => Gt | Gt => Lt | Eq => CompOpp (Pos.compare_cont Eq m1 m2) end).
    split; [reflexivity|].
    change (Pos.compare_cont Eq m1 m2) with (Pos.compare m1 m2).
    destruct (Z.compare_spec e1 e2); [destruct (Pos.compare_spec m1 m2)| |];
      cbn; repeat split; intros; try discriminate; try lia.
  - exists (match (e1 ?= e2)%Z with Lt => Lt | Gt => Gt | Eq => Pos.compare_cont Eq m1 m2 end).
    split; [reflexivity|].
    change (Pos.compare_cont Eq m1 m2) with (Pos.compare m1 m2).
    destruct (Z.compare_spec e1 e2); [destruct (Pos.compare_spec m1 m2)| |];
      cbn; repeat split; intros; try discriminate; try lia.
Qed.

Lemma ltb_rung x y :
  is_number x = true -> is_number y = true ->
  (PrimFloat.ltb x y = true <-> below (rung x) (rung y)).
Proof.
  rewrite !is_number_spec. intros Hx Hy. rewrite ltb_spec. unfold SFltb, rung.
  destruct (SFcompare_spec _ _ Hx Hy) as (c & -> & Hlt & Heq & Hgt).
  destruct c; split; intros H; try discriminate; try reflexivity;
    try (apply Hlt; reflexivity).
  - apply Hlt in H; discriminate.
  - apply Hlt in H; discriminate.
Qed.

Lemma eqb_rung x y :
  is_number x = true -> is_number y = true ->
  (PrimFloat.eqb x y = true <-> level (rung x) (rung y)).
Proof.
  rewrite !is_number_spec. intros Hx Hy. rewrite eqb_spec. unfold SFeqb, rung.
  destruct (SFcompare_spec _ _ Hx Hy) as (c & -> & Hlt & Heq & Hgt).
  destruct c; split; intros H; try discriminate; try reflexivity;
    try (apply Heq; reflexivity).
  - apply Heq in H; discriminate.
  - apply Heq in H; discriminate.
Qed.

Lemma leb_rung x y :
  is_number x = true -> is_number y = true ->
  (PrimFloat.leb x y = true <-> below (rung x) (rung y) \/ level (rung x) (rung y)).
Proof.
  rewrite !is_number_spec. intros Hx Hy. rewrite leb_spec. unfold SFleb, rung.
  destruct (SFcompare_spec _ _ Hx Hy) as (c & -> & Hlt & Heq & Hgt).
  destruct c; split; intros H; try discriminate; try reflexivity.
  - right; apply Heq; reflexivity.
  - left; apply Hlt; reflexivity.
  - destruct H as [H|H]; [apply Hlt in H|apply Heq in H]; discriminate.
Qed.

Lemma ltb_false_rung x y :
  is_number x = true -> is_number y = true ->
  (PrimFloat.ltb x y = false <-> below (rung y) (rung x) \/ level (rung x) (rung y)).
Proof.
  intros Hx Hy. pose proof (ltb_rung x y Hx Hy) as H.
  destruct (PrimFloat.ltb x y).
  - split; [discriminate|]. intros H'. exfalso.
    assert (below (rung x) (rung y)) as Hb by (apply H; reflexivity).
    unfold below, level in *. lia.
  - split; [intros _|reflexivity].
    assert (~ below (rung x) (rung y)) as Hb by (intros Hb; apply H in Hb; discriminate).
    unfold below, level in *. lia.
Qed.

(** ** The ranking of the reference store *)

Lemma place_perm r l : Permutation (place r l) (r :: l).
Proof.
  induction l as [|x l IH]; cbn; [reflexivity|].
  destruct (PrimFloat.ltb (similarity x) (similarity r)); [reflexivity|].
  rewrite IH. apply perm_swap.
Qed.

Lemma in_rank_order_rungs r1 r2 :
  is_number (similarity r1) = true -> is_number (similarity r2) = true ->
  (in_rank_order r1 r2 = true <->
   below (rung (similarity r2)) (rung (similarity r1)) \/
   level (rung (similarity r1)) (rung (similarity r2)) /\ key r1 < key r2).
Proof.
  intros H1 H2. unfold in_rank_order.
  rewrite andb_true_iff, orb_true_iff, negb_true_iff, Nat.ltb_lt.
  rewrite (leb_rung _ _ H2 H1).
  pose proof (eqb_rung _ _ H1 H2) as He.
  destruct (PrimFloat.eqb (similarity r1) (similarity r2)).
  - assert (level (rung (similarity r1)) (rung (similarity r2))) as Hl
      by (apply He; reflexivity).
    unfold below, level in *. split.
    + intros [_ [Hf|Hk]]; [discriminate|]. right. split; [exact Hl|exact Hk].
    + intros [Hb|[_ Hk]]; [lia|]. split; [right; lia|right; exact Hk].
  - assert (~ level (rung (similarity r1)) (rung (similarity r2))) as Hl
      by (intros Hl; apply He in Hl; discriminate).
    unfold below, level in *. split.
    + intros [[Hb|Hb] _]; [left; exact Hb|exfalso; apply Hl; lia].
    + intros [Hb|[Hb _]]; [|exfalso; apply Hl; exact Hb].
      split; [left; exact Hb|left; reflexivity].
Qed.

Lemma place_sorted r l :
  is_number (similarity r) = true ->
  Forall (fun x => is_number (similarity x) = true /\ key x < key r) l ->
  StronglySorted ranks_before l ->
  StronglySorted ranks_before (place r l).
Proof.
  intros Hr. induction l as [|x l IH]; intros Hl Hs; cbn.
  - repeat constructor.
  - inversion Hl as [|? ? [Hx Hk] Hl']; subst.
    inversion Hs as [|? ? Hs' Hxl]; subst.
    destruct (PrimFloat.ltb (similarity x) (similarity r)) eqn:Hlt.
    + constructor; [exact Hs|].
      apply (ltb_rung _ _ Hx Hr) in Hlt.
      constructor.
      * apply in_rank_order_rungs; auto.
      * rewrite Forall_forall in Hxl, Hl'. apply Forall_forall. intros y Hy.
        destruct (Hl' y Hy) as [Hyn _].
        specialize (Hxl y Hy). unfold ranks_before in Hxl.
        apply (in_rank_order_rungs x y Hx Hyn) in Hxl.
        apply in_rank_order_rungs; auto.
        unfold below, level in *. lia.
    + constructor; [now apply IH|].
      apply (ltb_false_rung _ _ Hx Hr) in Hlt.
      eapply Permutation_Forall; [symmetry; apply place_perm|].
      constructor; [|exact Hxl].
      apply in_rank_order_rungs; auto.
      unfold below, level in *. lia.
Qed.

Lemma rank_fold q w : forall acc,
  StronglySorted lt (map fst w) ->
  comparable q w ->
  Forall (fun x => is_number (similarity x) = true /\
                   Forall (fun kd => key x < fst kd) w) acc ->
  StronglySorted ranks_before acc ->
  StronglySorted ranks_before
    (fold_left (fun acc kd => place (score q kd) acc) w acc) /\
  Permutation (fold_left (fun acc kd => place (score q kd) acc) w acc)
    (acc ++ map (score q) w).
Proof.
  induction w as [|kd w IH]; intros acc Hkeys Hcmp Hacc Hs; cbn.
  - split; [exact Hs|]. now rewrite app_nil_r.
  - inversion Hkeys as [|? ? Hkeys' Hkd]; subst.
    inversion Hcmp as [|? ? Hn Hcmp']; subst.
    destruct (IH (place (score q kd) acc)) as [Hsorted Hperm]; auto.
    + eapply Permutation_Forall; [symmetry; apply place_perm|].
      constructor.
      * split; [exact Hn|]. cbn. rewrite Forall_map in Hkd. exact Hkd.
      * eapply Forall_impl; [|exact Hacc]. cbn. intros x [Hx Hall].
        split; [exact Hx|]. now inversion Hall.
    + apply place_sorted; [exact Hn| |exact Hs].
      eapply Forall_impl; [|exact Hacc]. cbn. intros x [Hx Hall].
      split; [exact Hx|]. now inversion Hall.
    + split; [exact Hsorted|].
      rewrite Hperm. rewrite (place_perm (score q kd) acc).
      cbn. apply Permutation_middle.
Qed.

Lemma rank_sorted q w :
  StronglySorted lt (map fst w) ->
  comparable q w ->
  StronglySorted ranks_before (rank q w) /\
  Permutation (rank q w) (map (score q) w).
Proof.
  intros Hkeys Hcmp. unfold rank.
  now apply (rank_fold q w []); [| |constructor|constructor].
Qed.

Lemma StronglySorted_app {A} (R : A -> A -> Prop) l1 l2 :
  StronglySorted R (l1 ++ l2) ->
  StronglySorted R l1 /\ Forall (fun x => Forall (R x) l2) l1.
Proof.
  induction l1 as [|x l1 IH]; cbn; intros H.
  - split; constructor.
  - inversion H as [|? ? Hs Hx]; subst. destruct (IH Hs) as [H1 H2].
    apply Forall_app in Hx. destruct Hx as [Hx1 Hx2].
    split; constructor; auto.
Qed.

(** ** The controller over the reference store

    The store of module [Reference] behind the controller, with any stub
    encoders. *)

Section ReferenceStore.
Variable audio : File -> completion Float32Array.
Variable text : string -> completion Float32Array.

(** C1 (amended): on an initialised handle over the store of the
    specification, whose keys ascend in insertion order, [searchDB] answers
    a query that is not empty, has the established dimension and whose
    similarity to every record is a number with min(k, store size) results
    in rank order: similarities do not increase and equal similarities come
    in ascending key order.  The results are the top of the ranking: with
    the records left out they are the scored records of the store, and each
    of them ranks before every record left out. *)
Theorem searchDB_ranks_the_store (st : @State (platform audio text))
    (h : VectorDB) (q : Float32Array) (k : nat) :
  db st = Some h ->
  q <> [] ->
  mismatches q (scan (world st)) = false ->
  keys_ascending (world st) ->
  comparable q (scan (world st)) ->
  exists rs rest,
    result (searchDB q k) st = Normal rs /\
    ranked_top k (List.length (scan (world st))) rs /\
    Permutation (rs ++ rest) (map (score q) (scan (world st))) /\
    Forall (fun r => Forall (ranks_before r) rest) rs.
Proof.
  intros Hdb Hq Hdim Hkeys Hcmp.
  destruct (searchDB_empty_or_delegated st h q k Hdb) as [_ Hrun].
  destruct (Hrun Hq) as [_ Hout]. clear Hrun.
  cbn in Hout, Hkeys, Hcmp, Hdim |- *. unfold query in Hout.
  destruct q as [|x q']; [congruence|].
  change (Nat.eqb (List.length (x :: q')) 0) with false in Hout.
  rewrite Hdim in Hout. cbn [orb] in Hout. destruct Hout as (Hres & _).
  destruct (rank_sorted (x :: q') (world st) Hkeys Hcmp) as [Hsorted Hperm].
  exists (firstn k (rank (x :: q') (world st))),
         (skipn k (rank (x :: q') (world st))).
  rewrite firstn_skipn.
  rewrite <- (firstn_skipn k (rank (x :: q') (world st))) in Hsorted.
  apply StronglySorted_app in Hsorted. destruct Hsorted as [Hfirst Hrest].
  split; [exact Hres|]. split; [|split; [exact Hperm|exact Hrest]].
  split; [|exact Hfirst].
  rewrite length_firstn. f_equal.
  rewrite (Permutation_length Hperm). apply length_map.
Qed.

(** A vector of the established dimension, or the first vector of an empty
    store, is stored as it is, under the next key. *)
Lemma insertIntoDB_stores_match (st : @State (platform audio text))
    (h : VectorDB) (content_ : string) (e : Float32Array)
    (tags_ : list string) :
  db st = Some h ->
  mismatches e (scan (world st)) = false ->
  scan (world (run (insertIntoDB content_ e tags_) st)) =
  scan (world st)
    ++ [(next_key (scan (world st)),
         {| content := content_; embedding := e; tags := tags_ |})].
Proof.
  intros Hdb Hdim.
  destruct (insertIntoDB_forwards st h content_ e tags_ Hdb)
    as (_ & Hworld & _).
  cbn in Hworld, Hdim |- *. rewrite Hworld. unfold insert. cbn.
  rewrite Hdim. reflexivity.
Qed.

(** C5: over the store of the specification, a vector whose length differs
    from the established dimension D is rejected with DimensionMismatch:
    [insertIntoDB] hands the store the vector as it is (it neither pads nor
    truncates it), the store throws, the rejection is reported on the
    status line and logged, and the records of the store are what they
    were. *)
Theorem insertIntoDB_rejects_mismatch (st : @State (platform audio text))
    (h : VectorDB) (content_ : string) (e : Float32Array)
    (tags_ : list string) (D : nat) :
  db st = Some h ->
  established_D (scan (world st)) = Some D ->
  List.length e <> D ->
  let st' := run (insertIntoDB content_ e tags_) st in
  result (insertIntoDB content_ e tags_) st = Normal tt /\
  dbStatus st' = "Error inserting into DB: DimensionMismatch" /\
  console st' =
    console st ++ [console_log "Error inserting into DB: DimensionMismatch";
                   console_error "DB insert error:" (Some "DimensionMismatch")]
  /\
  scan (world st') = scan (world st) /\
  calls st' =
    calls st
      ++ [CallInsert h {| content := content_; embedding := e; tags := tags_ |}].
Proof.
  intros Hdb HD Hlen st'.
  pose proof (insertIntoDB_forwards st h content_ e tags_ Hdb) as Hrun.
  cbn zeta in Hrun. fold st' in Hrun.
  destruct Hrun as (Hcalls & Hworld & Hout).
  assert (insert {| content := content_; embedding := e; tags := tags_ |}
            (world st) = (world st, Throw "DimensionMismatch")) as Hins.
  { unfold insert, mismatches. cbn in HD |- *. rewrite HD.
    destruct (Nat.eqb_spec (List.length e) D); [contradiction|reflexivity]. }
  cbn in Hworld, Hout. rewrite Hins in Hworld, Hout. cbn in Hworld, Hout.
  destruct Hout as [Hstatus Hconsole].
  split; [|repeat split; assumption].
  unfold insertIntoDB, db_insert, updateDbStatus, Array_from.
  unfold called, log, alert, run, result.
  unfold bind, ret, throw, try_catch, try_finally, gets, modify, lift.
  rewrite Hdb. cbn. rewrite Hins. reflexivity.
Qed.

(** C8: over the store of the specification, an empty query and a query
    whose length differs from the established dimension D are answered with
    the empty sequence and a report, and leave the store as it was.  The
    empty query is refused by [searchDB] itself ("Cannot search with empty
    embedding.", the store is not consulted); the mismatched query is
    refused by the store, and [searchDB] catches the rejection, reports
    "Error searching DB: DimensionMismatch" and logs it.  No exception
    leaves [searchDB] and no partial result is returned. *)
Theorem searchDB_rejects_bad_query (st : @State (platform audio text))
    (h : VectorDB) (q : Float32Array) (k : nat) :
  db st = Some h ->
  let st' := run (searchDB q k) st in
  (q = [] ->
   result (searchDB q k) st = Normal [] /\
   modelStatus st' = "Cannot search with empty embedding." /\
   calls st' = calls st /\
   scan (world st') = scan (world st)) /\
  (forall D,
     q <> [] ->
     established_D (scan (world st)) = Some D ->
     List.length q <> D ->
     result (searchDB q k) st = Normal [] /\
     dbStatus st' = "Error searching DB: DimensionMismatch" /\
     In (console_error "DB search error:" (Some "DimensionMismatch"))
       (console st') /\
     scan (world st') = scan (world st)).
Proof.
  intros Hdb st'.
  destruct (searchDB_empty_or_delegated st h q k Hdb) as [Hempty Hrun].
  fold st' in Hempty, Hrun.
  assert (world st' = world st) as Hworld.
  { subst st'. unfold searchDB, db_query, updateDbStatus, updateModelStatus,
      Array_from.
    unfold called, log, alert, run, result.
    unfold bind, ret, throw, try_catch, try_finally, gets, modify, lift.
    rewrite Hdb. destruct q as [|x q']; cbn; [reflexivity|].
    destruct (query (x :: q') k (world st)); reflexivity. }
  split.
  - intros ->. destruct (Hempty eq_refl) as (Hr & Hm & Hc).
    repeat split; first [assumption|now rewrite Hworld].
  - intros D Hq HD Hlen.
    assert (query q k (world st) = Throw "DimensionMismatch") as Hquery.
    { unfold query, mismatches. cbn in HD. rewrite HD.
      destruct (Nat.eqb_spec (List.length q) D); [contradiction|].
      now rewrite orb_true_r. }
    destruct (Hrun Hq) as [_ Hout]. cbn in Hout. rewrite Hquery in Hout.
    destruct Hout as [Hr Hs].
    split; [exact Hr|]. split; [exact Hs|]. split; [|now rewrite Hworld].
    subst st'. unfold searchDB, db_query, updateDbStatus, updateModelStatus,
      Array_from.
    unfold called, log, alert, run, result.
    unfold bind, ret, throw, try_catch, try_finally, gets, modify, lift.
    rewrite Hdb. destruct q as [|x q']; [congruence|]. cbn.
    rewrite Hquery. cbn. apply in_or_app. right. cbn. tauto.
Qed.

End ReferenceStore.

(** ** Rounding

    The square root, the product and the quotient of binary64, bounded
    through their specification: each result is the exact one cut to 53
    bits and, at most, moved up by one unit in the last place. *)

Section Rounding.
Local Open Scope Z_scope.

Lemma digits2_pos_bounds (p : positive) :
  2 ^ (Zpos (digits2_pos p) - 1) <= Zpos p < 2 ^ Zpos (digits2_pos p).
Proof.
  induction p as [p IH|p IH|]; cbn [digits2_pos].
  - rewrite Pos2Z.inj_succ.
    replace (Z.succ (Zpos (digits2_pos p)) - 1) with (Z.succ (Zpos (digits2_pos p) - 1)) by lia.
    rewrite !Z.pow_succ_r by lia. lia.
  - rewrite Pos2Z.inj_succ.
    replace (Z.succ (Zpos (digits2_pos p)) - 1) with (Z.succ (Zpos (digits2_pos p) - 1)) by lia.
    rewrite !Z.pow_succ_r by lia. lia.
  - cbn. lia.
Qed.

Lemma Zdigits2_bounds (m : Z) :
  0 < m -> 2 ^ (Zdigits2 m - 1) <= m < 2 ^ Zdigits2 m.
Proof.
  destruct m as [|p|p]; try lia. intros _. apply digits2_pos_bounds.
Qed.

Lemma Zdigits2_pos (m : Z) : 0 < m -> 0 < Zdigits2 m.
Proof. destruct m; cbn; lia. Qed.

Lemma Zdigits2_unique (m d : Z) :
  2 ^ (d - 1) <= m < 2 ^ d -> 0 < d -> Zdigits2 m = d.
Proof.
  intros Hm Hd.
  assert (0 < m) as Hpos by (pose proof (Z.pow_pos_nonneg 2 (d - 1)); lia).
  pose proof (Zdigits2_bounds m Hpos) as Hb.
  pose proof (Zdigits2_pos m Hpos) as Hdp.
  destruct (Z.lt_trichotomy (Zdigits2 m) d) as [H|[H|H]]; [|exact H|].
  - assert (2 ^ Zdigits2 m <= 2 ^ (d - 1)) by (apply Z.pow_le_mono_r; lia). lia.
  - assert (2 ^ d <= 2 ^ (Zdigits2 m - 1)) by (apply Z.pow_le_mono_r; lia). lia.
Qed.

Lemma shr_1_m (r : shr_record) :
  0 <= shr_m r -> shr_m (shr_1 r) = shr_m r / 2.
Proof.
  destruct r as [m rb sb]. cbn [shr_m]. intros Hm.
  destruct m as [|[p|p|]|p]; cbn [shr_1 shr_m]; try lia; try reflexivity.
  - apply Z.div_unique with (r := 1); lia.
  - apply Z.div_unique with (r := 0); lia.
Qed.

Lemma shr_1_nonneg (r : shr_record) : 0 <= shr_m r -> 0 <= shr_m (shr_1 r).
Proof.
  intros H. rewrite shr_1_m by exact H. apply Z.div_pos; lia.
Qed.

Lemma iter_pos_shr_1 (p : positive) : forall r,
  0 <= shr_m r ->
  0 <= shr_m (iter_pos shr_1 p r) /\
  shr_m (iter_pos shr_1 p r) = shr_m r / 2 ^ Zpos p.
Proof.
  induction p as [p IH|p IH|]; intros r Hr; cbn [iter_pos].
  - destruct (IH (shr_1 r) (shr_1_nonneg r Hr)) as [H1 E1].
    destruct (IH _ H1) as [H2 E2].
    split; [exact H2|].
    rewrite E2, E1, shr_1_m by exact Hr.
    assert (0 < 2 ^ Zpos p) as Hpow by (apply Z.pow_pos_nonneg; lia).
    assert (2 ^ Zpos p~1 = 2 * 2 ^ Zpos p * 2 ^ Zpos p) as ->.
    { rewrite <- Z.pow_succ_r, <- Z.pow_add_r by lia. f_equal. lia. }
    rewrite !Z.div_div by lia. f_equal. lia.
  - destruct (IH r Hr) as [H1 E1].
    destruct (IH _ H1) as [H2 E2].
    split; [exact H2|].
    rewrite E2, E1.
    assert (0 < 2 ^ Zpos p) as Hpow by (apply Z.pow_pos_nonneg; lia).
    assert (2 ^ Zpos p~0 = 2 ^ Zpos p * 2 ^ Zpos p) as ->.
    { rewrite <- Z.pow_add_r by lia. f_equal. lia. }
    rewrite !Z.div_div by lia. reflexivity.
  - split; [now apply shr_1_nonneg|]. rewrite shr_1_m by exact Hr. reflexivity.
Qed.

Lemma shr_spec (r : shr_record) (e n : Z) :
  0 <= shr_m r -> 0 <= n ->
  snd (shr r e n) = e + n /\ shr_m (fst (shr r e n)) = shr_m r / 2 ^ n.
Proof.
  intros Hr Hn. destruct n as [|p|p]; try lia; cbn [shr fst snd].
  - split; [lia|]. change (2 ^ 0) with 1. now rewrite Z.div_1_r.
  - split; [reflexivity|]. now apply iter_pos_shr_1.
Qed.

Lemma shr_record_of_loc_m m l : shr_m (shr_record_of_loc m l) = m.
Proof. destruct l as [|[]]; reflexivity. Qed.

Lemma round_nearest_even_bounds m l :
  round_nearest_even m l = m \/ round_nearest_even m l = m + 1.
Proof.
  destruct l as [|[]]; cbn; auto. destruct (Z.even m); auto.
Qed.

Lemma binary_round_aux_bounds sx mx ex l k :
  k = Zdigits2 mx - 53 ->
  0 < mx -> 0 <= k -> -1074 <= ex + k ->
  exists C j,
    (j = 0 \/ j = 1) /\
    2 ^ 52 <= Zpos C < 2 ^ 53 /\
    mx / 2 ^ k <= Zpos C * 2 ^ j <= mx / 2 ^ k + 1 /\
    binary_round_aux 53 1024 sx mx ex l =
      if ex + k + j <=? 971 then S754_finite sx C (ex + k + j)
      else S754_infinity sx.
Proof.
  intros Hkdef Hmx Hk Hex.
  pose proof (Zdigits2_bounds mx Hmx) as Hd.
  assert (2 ^ 52 <= mx / 2 ^ k < 2 ^ 53) as Hm0.
  { assert (0 < 2 ^ k) by (apply Z.pow_pos_nonneg; lia).
    assert (2 ^ (Zdigits2 mx - 1) = 2 ^ 52 * 2 ^ k) as E1
      by (rewrite <- Z.pow_add_r by lia; f_equal; lia).
    assert (2 ^ Zdigits2 mx = 2 ^ 53 * 2 ^ k) as E2
      by (rewrite <- Z.pow_add_r by lia; f_equal; lia).
    split.
    - apply Z.div_le_lower_bound; lia.
    - apply Z.div_lt_upper_bound; lia. }
  unfold binary_round_aux, shr_fexp.
  assert (fexp 53 1024 (Zdigits2 mx + ex) - ex = k) as Hshift.
  { unfold fexp, emin. lia. }
  rewrite Hshift.
  destruct (shr_spec (shr_record_of_loc mx l) ex k) as [He1 Hm1];
    [rewrite shr_record_of_loc_m; lia|exact Hk|].
  rewrite shr_record_of_loc_m in Hm1.
  destruct (shr (shr_record_of_loc mx l) ex k) as [mrs1 e1].
  cbn [fst snd] in He1, Hm1. subst e1.
  set (m1 := round_nearest_even (shr_m mrs1) (loc_of_shr_record mrs1)).
  assert (m1 = mx / 2 ^ k \/ m1 = mx / 2 ^ k + 1) as Hm1'.
  { subst m1. rewrite <- Hm1. apply round_nearest_even_bounds. }
  clearbody m1. clear Hm1 mrs1.
  destruct (Z.eq_dec m1 (2 ^ 53)) as [Htop|Htop].
  - (* the rounding carries into the next binade *)
    subst m1.
    assert (fexp 53 1024 (Zdigits2 (2 ^ 53) + (ex + k)) - (ex + k) = 1) as Hs2.
    { change (Zdigits2 (2 ^ 53)) with 54. unfold fexp, emin. lia. }
    rewrite Hs2. cbn [shr shr_record_of_loc].
    change (iter_pos shr_1 1 {| shr_m := 2 ^ 53; shr_r := false; shr_s := false |})
      with {| shr_m := 2 ^ 52; shr_r := false; shr_s := false |}.
    cbn [shr_m].
    exists (Z.to_pos (2 ^ 52)), 1.
    split; [now right|]. split; [cbn; lia|]. split; [cbn in *; lia|].
    change (2 ^ 52) with (Zpos (Z.to_pos (2 ^ 52))).
    reflexivity.
  - assert (2 ^ 52 <= m1 < 2 ^ 53) as Hr by lia.
    assert (Zdigits2 m1 = 53) as Hd1 by (apply Zdigits2_unique; lia).
    assert (fexp 53 1024 (Zdigits2 m1 + (ex + k)) - (ex + k) = 0) as Hs2.
    { rewrite Hd1. unfold fexp, emin. lia. }
    rewrite Hs2. cbn [shr shr_record_of_loc shr_m].
    destruct m1 as [|C|C]; try (cbn in Hr; lia).
    exists C, 0.
    split; [now left|]. split; [exact Hr|]. split; [cbn in *; lia|].
    rewrite Z.add_0_r. reflexivity.
Qed.

Lemma binary_round_aux_down sx mx ex l :
  0 < mx -> Zdigits2 mx = 53 -> -1074 <= ex ->
  l = loc_Exact \/ l = loc_Inexact Lt ->
  binary_round_aux 53 1024 sx mx ex l =
    if ex <=? 971 then S754_finite sx (Z.to_pos mx) ex else S754_infinity sx.
Proof.
  intros Hmx Hd Hex Hl.
  unfold binary_round_aux, shr_fexp.
  assert (fexp 53 1024 (Zdigits2 mx + ex) - ex = 0) as ->.
  { rewrite Hd. unfold fexp, emin. lia. }
  cbn [shr].
  assert (round_nearest_even (shr_m (shr_record_of_loc mx l))
            (loc_of_shr_record (shr_record_of_loc mx l)) = mx) as ->.
  { destruct Hl as [-> | ->]; reflexivity. }
  assert (fexp 53 1024 (Zdigits2 mx + ex) - ex = 0) as ->.
  { rewrite Hd. unfold fexp, emin. lia. }
  cbn [shr shr_record_of_loc shr_m].
  destruct mx as [|p|p]; try lia. reflexivity.
Qed.

Lemma sqrt_bounds (m : positive) (e : Z) :
  Zdigits2 (Zpos m) = 53 -> -1074 <= e <= 971 ->
  exists C s',
    (s' = 52 \/ s' = 53) /\
    e = 2 * (Z.div2 e - 26) + s' /\
    2 ^ 52 <= Zpos C < 2 ^ 53 /\
    (Zpos C - 1) * (Zpos C - 1) <= Zpos m * 2 ^ s' /\
    Zpos m * 2 ^ s' < (Zpos C + 1) * (Zpos C + 1) /\
    SFsqrt 53 1024 (S754_finite false m e)
      = S754_finite false C (Z.div2 e - 26).
Proof.
  intros Hd He.
  pose proof (Zdigits2_bounds (Zpos m) eq_refl) as Hm. rewrite Hd in Hm.
  change (2 ^ (53 - 1)) with (2 ^ 52) in Hm.
  unfold SFsqrt, SFsqrt_core_binary. rewrite Hd.
  set (e' := Z.div2 e - 26).
  assert (Z.min (fexp 53 1024 (Z.div2 (53 + e + 1))) (Z.div2 e) = e') as ->.
  { subst e'. unfold fexp, emin. rewrite !Z.div2_div.
    Z.div_mod_to_equations. lia. }
  assert (e - 2 * e' = 52 \/ e - 2 * e' = 53) as Hs.
  { subst e'. rewrite Z.div2_div. Z.div_mod_to_equations. lia. }
  set (s' := e - 2 * e') in *.
  assert (match s' with
          | 0 => Zpos m
          | Zpos _ => Z.shiftl (Zpos m) s'
          | Zneg _ => 0
          end = Zpos m * 2 ^ s') as ->.
  { destruct Hs as [-> | ->]; rewrite Z.shiftl_mul_pow2 by lia; reflexivity. }
  assert (2 ^ 104 <= Zpos m * 2 ^ s' <= (2 ^ 53 - 1) * 2 ^ 53) as HM.
  { destruct Hs as [-> | ->]; lia. }
  pose proof (Z.sqrtrem_spec (Zpos m * 2 ^ s')) as Hsq.
  destruct (Z.sqrtrem (Zpos m * 2 ^ s')) as [q r].
  destruct Hsq as [Hsq Hr]; [lia|].
  assert (2 ^ 52 <= q < 2 ^ 53) as Hq.
  { split.
    - destruct (Z_lt_le_dec q (2 ^ 52)) as [Hlt|]; [|assumption].
      exfalso. assert (q * q + r <= (q + 1) * (q + 1) - 1) by lia.
      assert ((q + 1) * (q + 1) <= 2 ^ 52 * 2 ^ 52) by (apply Z.mul_le_mono_nonneg; lia).
      change (2 ^ 52 * 2 ^ 52) with (2 ^ 104) in *. lia.
    - destruct (Z_lt_le_dec q (2 ^ 53)) as [|Hge]; [assumption|].
      exfalso.
      assert (2 ^ 53 * 2 ^ 53 <= q * q) by (apply Z.mul_le_mono_nonneg; lia).
      lia. }
  assert (Zdigits2 q = 53) as Hdq by (apply Zdigits2_unique; lia).
  assert (-1074 <= e' + 0) as Hrange.
  { subst e'. rewrite Z.div2_div. Z.div_mod_to_equations. lia. }
  assert ((e' <=? 971) = true) as Hfin.
  { apply Z.leb_le. subst e'. rewrite Z.div2_div. Z.div_mod_to_equations. lia. }
  set (l := if r =? 0 then loc_Exact
            else loc_Inexact (if r <=? q then Lt else Gt)).
  destruct (binary_round_aux_bounds false q e' l 0
              ltac:(lia) ltac:(lia) ltac:(lia) Hrange)
    as (C & j & Hj & HC & Hval & Hres).
  change (2 ^ 0) with 1 in Hval. rewrite Z.div_1_r in Hval.
  rewrite Z.add_0_r in Hres.
  assert (j = 0) as ->.
  { destruct Hj as [Hj|Hj]; [exact Hj|]. exfalso. subst j.
    change (2 ^ 1) with 2 in Hval.
    assert (q = 2 ^ 53 - 1) as Hqtop by lia.
    assert (r <= q) as Hrq.
    { assert (q * q + q = (2 ^ 53 - 1) * 2 ^ 53) by (rewrite Hqtop; reflexivity).
      lia. }
    assert (l = loc_Exact \/ l = loc_Inexact Lt) as Hl.
    { subst l. destruct (r =? 0); [now left|right].
      apply Z.leb_le in Hrq. now rewrite Hrq. }
    rewrite (binary_round_aux_down false q e' l ltac:(lia) Hdq ltac:(lia) Hl) in Hres.
    rewrite Hfin in Hres.
    destruct (e' + 1 <=? 971); [|discriminate].
    injection Hres as _ Hexp. lia. }
  change (2 ^ 0) with 1 in Hval. rewrite Z.mul_1_r in Hval.
  rewrite Z.add_0_r in Hres. rewrite Hfin in Hres.
  exists C, s'.
  split; [exact Hs|]. split; [subst s'; lia|].
  split; [exact HC|]. split; [|split; [|exact Hres]].
  - assert (Zpos C = q \/ Zpos C = q + 1) as [-> | ->] by lia.
    + assert ((q - 1) * (q - 1) <= q * q) by nia. lia.
    + replace (q + 1 - 1) with q by lia. lia.
  - assert (Zpos C = q \/ Zpos C = q + 1) as [-> | ->] by lia.
    + nia.
    + assert ((q + 1) * (q + 1) <= (q + 1 + 1) * (q + 1 + 1)) by nia. nia.
Qed.

Lemma mul_self_bounds (C : positive) (en : Z) :
  2 ^ 52 <= Zpos C < 2 ^ 53 -> -1127 <= 2 * en ->
  exists Cp j k,
    (j = 0 \/ j = 1) /\ (k = 52 \/ k = 53) /\
    2 ^ 52 <= Zpos Cp < 2 ^ 53 /\
    Zpos C * Zpos C - 2 ^ k < Zpos Cp * 2 ^ j * 2 ^ k /\
    Zpos Cp * 2 ^ j * 2 ^ k <= Zpos C * Zpos C + 2 ^ k /\
    SFmul 53 1024 (S754_finite false C en) (S754_finite false C en)
      = if 2 * en + k + j <=? 971
        then S754_finite false Cp (2 * en + k + j)
        else S754_infinity false.
Proof.
  intros HC Hen. unfold SFmul. cbn [xorb].
  rewrite Pos2Z.inj_mul.
  assert (2 ^ 104 <= Zpos C * Zpos C < 2 ^ 106) as HM.
  { split.
    - change (2 ^ 104) with (2 ^ 52 * 2 ^ 52). apply Z.mul_le_mono_nonneg; lia.
    - change (2 ^ 106) with (2 ^ 53 * 2 ^ 53). apply Z.mul_lt_mono_nonneg; lia. }
  set (M := Zpos C * Zpos C) in *.
  assert (Zdigits2 M = 105 \/ Zdigits2 M = 106) as Hd.
  { destruct (Z_lt_le_dec M (2 ^ 105)).
    - left. apply Zdigits2_unique; [change (105 - 1) with 104|]; lia.
    - right. apply Zdigits2_unique; [change (106 - 1) with 105|]; lia. }
  set (k := Zdigits2 M - 53).
  assert (k = 52 \/ k = 53) as Hk by lia.
  destruct (binary_round_aux_bounds false M (en + en) loc_Exact k)
    as (Cp & j & Hj & HCp & Hval & Hres); try lia.
  assert (0 < 2 ^ k) as Hpow by (apply Z.pow_pos_nonneg; lia).
  pose proof (Z.mul_div_le M (2 ^ k) Hpow) as H1.
  pose proof (Z.mul_succ_div_gt M (2 ^ k) Hpow) as H2.
  exists Cp, j, k.
  split; [exact Hj|]. split; [exact Hk|]. split; [exact HCp|].
  split; [|split].
  - nia.
  - nia.
  - replace (2 * en) with (en + en) by lia. exact Hres.
Qed.

Lemma div_bounds (m Cp : positive) (e ep : Z) :
  2 ^ 52 <= Zpos m < 2 ^ 53 -> 2 ^ 52 <= Zpos Cp < 2 ^ 53 ->
  -1000 <= e - ep <= 1000 ->
  exists Cc j k,
    (j = 0 \/ j = 1) /\ (k = 0 \/ k = 1) /\
    2 ^ 52 <= Zpos Cc < 2 ^ 53 /\
    Zpos m * 2 ^ 53 - (1 + 2 ^ k) * Zpos Cp < Zpos Cc * 2 ^ j * 2 ^ k * Zpos Cp /\
    Zpos Cc * 2 ^ j * 2 ^ k * Zpos Cp <= Zpos m * 2 ^ 53 + 2 ^ k * Zpos Cp /\
    SFdiv 53 1024 (S754_finite false m e) (S754_finite false Cp ep)
      = S754_finite false Cc (e - ep - 53 + k + j).
Proof.
  intros Hm HCp He. unfold SFdiv, SFdiv_core_binary. cbn [xorb].
  rewrite (Zdigits2_unique (Zpos m) 53), (Zdigits2_unique (Zpos Cp) 53)
    by (try change (53 - 1) with 52; lia).
  assert (Z.min (fexp 53 1024 (53 + e - (53 + ep))) (e - ep) = e - ep - 53) as ->.
  { unfold fexp, emin. lia. }
  replace (e - ep - (e - ep - 53)) with 53 by lia.
  rewrite Z.shiftl_mul_pow2 by lia.
  pose proof (Z.div_eucl_eq (Zpos m * 2 ^ 53) (Zpos Cp)) as Heq.
  pose proof (Z.mod_pos_bound (Zpos m * 2 ^ 53) (Zpos Cp)) as Hmod.
  unfold Z.modulo in Hmod.
  destruct (Z.div_eucl (Zpos m * 2 ^ 53) (Zpos Cp)) as [Q R].
  specialize (Heq ltac:(lia)). specialize (Hmod ltac:(lia)).
  assert (2 ^ 52 <= Q < 2 ^ 54) as HQ.
  { split.
    - destruct (Z_lt_le_dec Q (2 ^ 52)) as [Hlt|]; [|assumption]. exfalso.
      assert (Zpos Cp * Q <= Zpos Cp * (2 ^ 52 - 1)) by (apply Z.mul_le_mono_nonneg_l; lia).
      assert (Zpos Cp * (2 ^ 52 - 1) + Zpos Cp <= 2 ^ 53 * 2 ^ 52) by nia.
      nia.
    - destruct (Z_lt_le_dec Q (2 ^ 54)) as [|Hge]; [assumption|]. exfalso.
      assert (Zpos Cp * 2 ^ 54 <= Zpos Cp * Q) by (apply Z.mul_le_mono_nonneg_l; lia).
      nia. }
  assert (Zdigits2 Q = 53 \/ Zdigits2 Q = 54) as Hd.
  { destruct (Z_lt_le_dec Q (2 ^ 53)).
    - left. apply Zdigits2_unique; [change (53 - 1) with 52|]; lia.
    - right. apply Zdigits2_unique; [change (54 - 1) with 53|]; lia. }
  set (k := Zdigits2 Q - 53).
  assert (k = 0 \/ k = 1) as Hk by lia.
  destruct (binary_round_aux_bounds false Q (e - ep - 53)
              (new_location (Zpos Cp) R) k)
    as (Cc & j & Hj & HCc & Hval & Hres); try lia.
  assert ((e - ep - 53 + k + j <=? 971) = true) as Hfin by (apply Z.leb_le; lia).
  rewrite Hfin in Hres.
  assert (0 < 2 ^ k) as Hpow by (apply Z.pow_pos_nonneg; lia).
  pose proof (Z.mul_div_le Q (2 ^ k) Hpow) as H1.
  pose proof (Z.mul_succ_div_gt Q (2 ^ k) Hpow) as H2.
  assert (2 ^ k * (Zpos Cc * 2 ^ j) - 2 ^ k <= Q /\
          Q + 1 <= 2 ^ k * (Zpos Cc * 2 ^ j) + 2 ^ k) as [HT1 HT2].
  { clear Hres Heq Hmod.
    destruct Hk as [E | E]; rewrite E in *;
      [change (2 ^ 0) with 1 in *|change (2 ^ 1) with 2 in *]; lia. }
  assert ((Q + 1) * Zpos Cp
          <= (2 ^ k * (Zpos Cc * 2 ^ j) + 2 ^ k) * Zpos Cp) as Hlo
    by (apply Z.mul_le_mono_nonneg_r; lia).
  assert ((2 ^ k * (Zpos Cc * 2 ^ j) - 2 ^ k) * Zpos Cp <= Q * Zpos Cp) as Hhi
    by (apply Z.mul_le_mono_nonneg_r; lia).
  exists Cc, j, k.
  split; [exact Hj|]. split; [exact Hk|]. split; [exact HCc|].
  split; [|split; [|exact Hres]]; clear Hres HT1 HT2 H1 H2 Hval; lia.
Qed.

Lemma self_ratio_bounds (m : positive) (e : Z) :
  Zdigits2 (Zpos m) = 53 -> -1074 <= e <= 971 ->
  let s := S754_finite false m e in
  let n := SFsqrt 53 1024 s in
  exists Cc ec,
    SFdiv 53 1024 s (SFmul 53 1024 n n) = S754_finite false Cc ec /\
    (ec = -53 /\ 2 ^ 53 - 2 ^ 8 <= Zpos Cc \/
     ec = -52 /\ Zpos Cc <= 2 ^ 52 + 2 ^ 7).
Proof.
  intros Hd He s n. subst s n.
  pose proof (Zdigits2_bounds (Zpos m) eq_refl) as Hm. rewrite Hd in Hm.
  change (2 ^ (53 - 1)) with (2 ^ 52) in Hm.
  destruct (sqrt_bounds m e Hd He)
    as (C & s' & Hs' & Hes & HC & Hlo & Hhi & ->).
  set (e' := Z.div2 e - 26) in *.
  assert (-1127 <= 2 * e') as Hen by lia.
  destruct (mul_self_bounds C e' HC Hen)
    as (Cp & j2 & k & Hj2 & Hk & HCp & Hplo & Phi & ->).
  set (ep := 2 * e' + k + j2).
  (* the product of the norms against the squared norm *)
  assert (ep - e = -1 /\ -64 <= 2 * Zpos m - Zpos Cp <= 64 \/
          ep - e = 0 /\ -32 <= Zpos m - Zpos Cp <= 32 \/
          ep - e = 1 /\ -32 <= Zpos m - 2 * Zpos Cp <= 32) as Hmp.
  { subst ep.
    assert ((Zpos C - 1) * (Zpos C - 1)
            = Zpos C * Zpos C - 2 * Zpos C + 1) as E1 by ring.
    assert ((Zpos C + 1) * (Zpos C + 1)
            = Zpos C * Zpos C + 2 * Zpos C + 1) as E2 by ring.
    rewrite E1 in Hlo. rewrite E2 in Hhi. clear E1 E2.
    set (Y := Zpos C * Zpos C) in *. clearbody Y.
    destruct Hj2 as [-> | ->], Hk as [-> | ->], Hs' as [-> | ->];
      change (2 ^ 0) with 1 in Hplo, Phi; change (2 ^ 1) with 2 in Hplo, Phi;
      lia. }
  (* the product does not overflow *)
  assert ((ep <=? 971) = true) as Hfin.
  { apply Z.leb_le. destruct (Z_le_gt_dec ep 971) as [|Hover]; [assumption|].
    exfalso.
    assert (e = 971 /\ s' = 53 /\ k = 53 /\ j2 = 1) as (-> & -> & -> & ->).
    { subst ep. lia. }
    change (2 ^ 1) with 2 in Phi.
    assert (Zpos C * Zpos C <= (2 ^ 53 - 1) * (2 ^ 53 - 1))
      by (apply Z.mul_le_mono_nonneg; lia).
    lia. }
  rewrite Hfin.
  assert (-1000 <= e - ep <= 1000) as Hep by lia.
  destruct (div_bounds m Cp e ep Hm HCp Hep)
    as (Cc & j3 & k3 & Hj3 & Hk3 & HCc & Hqlo & Hqhi & ->).
  exists Cc, (e - ep - 53 + k3 + j3). split; [reflexivity|].
  clear Hlo Hhi Hplo Phi.
  remember (Zpos Cc * 2 ^ j3 * 2 ^ k3) as V eqn:HVdef.
  remember (V * Zpos Cp) as W eqn:HW.
  assert (Zpos m * 2 ^ 53 - 3 * Zpos Cp < W <= Zpos m * 2 ^ 53 + 2 * Zpos Cp)
    as HWb.
  { clear HVdef. destruct Hk3 as [-> | ->];
      [change (2 ^ 0) with 1 in Hqlo, Hqhi|change (2 ^ 1) with 2 in Hqlo, Hqhi];
      lia. }
  clear Hqlo Hqhi.
  (* the quotient against one *)
  assert (ep - e = -1 /\ -70 <= V - 2 ^ 52 <= 70 \/
          ep - e = 0 /\ -70 <= V - 2 ^ 53 <= 70 \/
          ep - e = 1 /\ -70 <= V - 2 ^ 54 <= 70) as HVb.
  { clear HVdef.
    destruct Hmp as [[Ht Hmp]|[[Ht Hmp]|[Ht Hmp]]]; [left|right; left|right; right];
      (split; [exact Ht|]); clear Ht.
    - assert (W <= (2 ^ 52 + 70) * Zpos Cp) as Hu by lia.
      assert ((2 ^ 52 - 70) * Zpos Cp <= W) as Hl by lia.
      rewrite HW in Hu, Hl.
      apply Z.mul_le_mono_pos_r in Hu; [|lia].
      apply Z.mul_le_mono_pos_r in Hl; [|lia]. lia.
    - assert (W <= (2 ^ 53 + 70) * Zpos Cp) as Hu by lia.
      assert ((2 ^ 53 - 70) * Zpos Cp <= W) as Hl by lia.
      rewrite HW in Hu, Hl.
      apply Z.mul_le_mono_pos_r in Hu; [|lia].
      apply Z.mul_le_mono_pos_r in Hl; [|lia]. lia.
    - assert (W <= (2 ^ 54 + 70) * Zpos Cp) as Hu by lia.
      assert ((2 ^ 54 - 70) * Zpos Cp <= W) as Hl by lia.
      rewrite HW in Hu, Hl.
      apply Z.mul_le_mono_pos_r in Hu; [|lia].
      apply Z.mul_le_mono_pos_r in Hl; [|lia]. lia. }
  subst V. clear HW HWb Hmp.
  destruct Hj3 as [-> | ->], Hk3 as [-> | ->];
    change (2 ^ 0) with 1 in HVb; change (2 ^ 1) with 2 in HVb; lia.
Qed.
Lemma normal_spec (s : float) :
  classify s = PNormal ->
  exists m e,
    Prim2SF s = S754_finite false m e /\
    Zdigits2 (Zpos m) = 53 /\ -1074 <= e <= 971.
Proof.
  intros Hc. rewrite classify_spec in Hc.
  pose proof (Prim2SF_valid s) as Hv.
  unfold SF64classify, SFclassify in Hc.
  destruct (Prim2SF s) as [sg|sg| |sg m e];
    try (destruct sg; discriminate); try discriminate.
  destruct sg; destruct (Zpos (digits2_pos m) =? prec) eqn:Hd; try discriminate.
  apply Z.eqb_eq in Hd. change prec with 53 in Hd.
  exists m, e. split; [reflexivity|]. split; [exact Hd|].
  cbn in Hv. unfold bounded, canonical_mantissa in Hv.
  apply andb_true_iff in Hv. destruct Hv as [Hcan Hmax].
  apply Z.eqb_eq in Hcan. apply Z.leb_le in Hmax.
  rewrite Hd in Hcan. unfold fexp, FloatOps.emin, FloatOps.prec, FloatOps.emax in *.
  unfold SpecFloat.emin in Hcan. lia.
Qed.

Lemma self_ratio_close (s : float) :
  classify s = PNormal ->
  PrimFloat.eqb (PrimFloat.sqrt s) 0 = false /\
  close_to_one (s / (PrimFloat.sqrt s * PrimFloat.sqrt s))%float = true.
Proof.
  intros Hc. destruct (normal_spec s Hc) as (m & e & Hs & Hd & He).
  split.
  - rewrite eqb_spec, sqrt_spec, Hs.
    destruct (sqrt_bounds m e Hd He) as (C & s' & _ & _ & _ & _ & _ & Hq).
    unfold SF64sqrt. change prec with 53. change emax with 1024.
    rewrite Hq. reflexivity.
  - unfold close_to_one.
    rewrite !leb_spec, div_spec, mul_spec, sqrt_spec, Hs.
    destruct (self_ratio_bounds m e Hd He) as (Cc & ec & Hq & Hb).
    unfold SF64div, SF64mul, SF64sqrt. change prec with 53. change emax with 1024.
    cbv zeta in Hq. rewrite Hq.
    change (Prim2SF (1 - tolerance)) with (S754_finite false (Z.to_pos (2 ^ 53 - 2 ^ 8)) (-53)).
    change (Prim2SF (1 + tolerance)) with (S754_finite false (Z.to_pos (2 ^ 52 + 2 ^ 7)) (-52)).
    unfold SFleb, SFcompare.
    destruct Hb as [[-> Hb]|[-> Hb]].
    + change (-53 ?= -53) with Eq. change (-53 ?= -52) with Lt.
      change (Pos.compare_cont Eq ?a ?b) with (Pos.compare a b).
      destruct (Pos.compare_spec (Z.to_pos (2 ^ 53 - 2 ^ 8)) Cc) as [H|H|H];
        try reflexivity.
      exfalso. apply Pos2Z.pos_lt_pos in H. rewrite Z2Pos.id in H by reflexivity. lia.
    + change (-53 ?= -52) with Lt. change (-52 ?= -52) with Eq.
      change (Pos.compare_cont Eq ?a ?b) with (Pos.compare a b).
      destruct (Pos.compare_spec Cc (Z.to_pos (2 ^ 52 + 2 ^ 7))) as [H|H|H];
        try reflexivity.
      exfalso. apply Pos2Z.pos_lt_pos in H. rewrite Z2Pos.id in H by reflexivity. lia.
Qed.

End Rounding.

(** ** The similarity metric *)

Lemma SFmul_comm x y : SF64mul x y = SF64mul y x.
Proof.
  unfold SF64mul, SFmul.
  destruct x as [sx|sx| |sx mx ex], y as [sy|sy| |sy my ey];
    try reflexivity; try (now rewrite xorb_comm).
  now rewrite xorb_comm, Pos.mul_comm, Z.add_comm.
Qed.

Lemma mul_comm (x y : float) : (x * y)%float = (y * x)%float.
Proof. apply Prim2SF_inj. rewrite !mul_spec. apply SFmul_comm. Qed.

Lemma dot_sym (a b : list float) : dot a b = dot b a.
Proof.
  unfold dot. generalize 0%float as acc. revert b.
  induction a as [|x a IH]; intros [|y b] acc; cbn; try reflexivity.
  rewrite (mul_comm x y). apply IH.
Qed.

Lemma cosine_sym (a b : list float) : cosine a b = cosine b a.
Proof.
  unfold cosine.
  rewrite (orb_comm (PrimFloat.eqb (norm a) 0)), (dot_sym a b),
    (mul_comm (norm a) (norm b)).
  reflexivity.
Qed.

Lemma sqrt_zero (s : float) :
  PrimFloat.eqb s 0 = true -> PrimFloat.eqb (PrimFloat.sqrt s) 0 = true.
Proof.
  rewrite !eqb_spec, sqrt_spec. unfold SF64sqrt, SFsqrt, SFeqb.
  destruct (Prim2SF s) as [sg|sg| |sg m e]; cbn; try discriminate.
  - intros _. reflexivity.
  - destruct sg; discriminate.
  - destruct sg; discriminate.
Qed.

Lemma not_a_number (x : float) : is_number x = false -> x = nan.
Proof.
  intros H. apply Prim2SF_inj.
  destruct (Prim2SF x) eqn:E; try reflexivity;
    assert (is_number x = true) as H' by (apply is_number_spec; rewrite E; discriminate);
    congruence.
Qed.

Lemma self_similarity_degenerate (a : list float) :
  (PrimFloat.eqb (dot a a) 0 = true -> cosine a a = 0%float) /\
  (dot a a = infinity \/ is_number (dot a a) = false ->
   is_number (cosine a a) = false).
Proof.
  unfold cosine, norm. split.
  - intros H. now rewrite (sqrt_zero _ H).
  - intros [H|H]; [rewrite H|rewrite (not_a_number _ H)]; reflexivity.
Qed.

(** C6 (amended): the metric of the store of the specification is
    dot(a,b) / (norm a * norm b) in binary64 arithmetic, and 0 when either
    norm is zero, so it is a number for every pair whose norms allow the
    division and never faults.  It is symmetric: the similarity of a to b
    and of b to a are the same value, and they compare equal unless that
    value is NaN.  Self-similarity is 1.0 within [tolerance] for every
    vector whose squared norm is a normal number; it is 0 when the squared
    norm is zero, and NaN when the squared norm is infinite or NaN. *)
Theorem cosine_similarity_laws (a b : list float) :
  (PrimFloat.eqb (norm a) 0 = false ->
   PrimFloat.eqb (norm b) 0 = false ->
   cosine a b = (dot a b / (norm a * norm b))%float) /\
  (PrimFloat.eqb (norm a) 0 = true \/ PrimFloat.eqb (norm b) 0 = true ->
   cosine a b = 0%float) /\
  cosine a b = cosine b a /\
  (is_number (cosine a b) = true ->
   PrimFloat.eqb (cosine a b) (cosine b a) = true) /\
  (classify (dot a a) = PNormal -> close_to_one (cosine a a) = true) /\
  (PrimFloat.eqb (dot a a) 0 = true -> cosine a a = 0%float) /\
  (dot a a = infinity \/ is_number (dot a a) = false ->
   is_number (cosine a a) = false).
Proof.
  split; [|split; [|split; [|split; [|split]]]].
  - unfold cosine. intros -> ->. reflexivity.
  - unfold cosine. intros [-> | ->]; [reflexivity|].
    now rewrite orb_true_r.
  - apply cosine_sym.
  - intros Hn. rewrite <- (cosine_sym a b). exact Hn.
  - intros Hnormal. destruct (self_ratio_close _ Hnormal) as [Hnz Hclose].
    unfold cosine, norm. rewrite Hnz. exact Hclose.
  - apply self_similarity_degenerate.
Qed.

(** ** Concrete runs

    On the reference platform. *)

#[local] Existing Instance reference_platform.

(** Before anything is loaded, both encoders refuse. *)
Lemma embed_before_ready_witness :
  text_ready unloaded = false /\
  audio_ready unloaded = false /\
  NotReady "Text model or tokenizer not loaded." unloaded
    (getTextEmbedding "rain" unloaded) /\
  NotReady "Audio model or processor not loaded." unloaded
    (getAudioEmbedding kick unloaded).
Proof.
  destruct (@embed_before_ready reference_platform unloaded "rain" kick)
    as [Htext Haudio].
  split; [reflexivity|]. split; [reflexivity|].
  split; [apply Htext|apply Haudio]; reflexivity.
Defined.

(** Embedding kick.wav creates and revokes blob:clap-web/0. *)
Lemma getAudioEmbedding_revokes_witness :
  new_object_url kick (objectUrls over_abc) <> "" /\
  ~ In (new_object_url kick (objectUrls over_abc))
      (map fst (objectUrls over_abc)) /\
  objectUrls (run (getAudioEmbedding kick) over_abc)
    = objectUrls over_abc /\
  exists between,
    calls (run (getAudioEmbedding kick) over_abc) =
    calls over_abc
      ++ CallCreateObjectURL kick :: between
      ++ [CallRevokeObjectURL "blob:clap-web/0"].
Proof.
  assert (new_object_url kick (objectUrls over_abc) <> "") as Hne
    by (vm_compute; discriminate).
  assert (~ In (new_object_url kick (objectUrls over_abc))
            (map fst (objectUrls over_abc))) as Hfresh
    by (cbn; tauto).
  destruct (@getAudioEmbedding_revokes reference_platform over_abc kick
              Hne Hfresh) as [Hstore Hcalls].
  split; [exact Hne|]. split; [exact Hfresh|]. split; [exact Hstore|].
  apply Hcalls. reflexivity.
Defined.

(** The example of section 8: rank([1,0], 2) over a, b, c is a, c. *)
Lemma searchDB_ranks_the_store_witness :
  db over_abc = Some the_db /\
  [1; 0]%float <> [] /\
  mismatches [1; 0]%float (scan (world over_abc)) = false /\
  keys_ascending (world over_abc) /\
  comparable [1; 0]%float (scan (world over_abc)) /\
  exists rs rest,
    result (searchDB [1; 0]%float 2) over_abc = Normal rs /\
    map (fun r => content (object r)) rs = ["a"; "c"] /\
    ranked_top 2 3 rs /\
    Permutation (rs ++ rest) (map (score [1; 0]%float) abc) /\
    Forall (fun r => Forall (ranks_before r) rest) rs.
Proof.
  assert ([1; 0]%float <> []) as Hq by discriminate.
  assert (keys_ascending (world over_abc)) as Hkeys.
  { unfold keys_ascending. cbn. repeat constructor. }
  assert (comparable [1; 0]%float (scan (world over_abc))) as Hcmp.
  { unfold comparable. cbn. repeat constructor. }
  destruct (searchDB_ranks_the_store stub_audio stub_text over_abc the_db
              [1; 0]%float 2 eq_refl Hq eq_refl Hkeys Hcmp)
    as (rs & rest & Hres & Hranked & Hperm & Htop).
  split; [reflexivity|]. split; [exact Hq|]. split; [reflexivity|].
  split; [exact Hkeys|]. split; [exact Hcmp|].
  exists rs, rest.
  split; [exact Hres|]. split; [|split; [exact Hranked|split; assumption]].
  vm_compute in Hres. injection Hres as <-. reflexivity.
Defined.

(** A vector of three dimensions over the example store, whose records
    have two: rejected, reported, and the store keeps its three records. *)
Lemma insertIntoDB_rejects_mismatch_witness :
  db over_abc = Some the_db /\
  established_D (scan (world over_abc)) = Some 2 /\
  List.length [1; 0; 0]%float <> 2 /\
  dbStatus (run (insertIntoDB "wide.wav" [1; 0; 0]%float []) over_abc)
    = "Error inserting into DB: DimensionMismatch" /\
  scan (world (run (insertIntoDB "wide.wav" [1; 0; 0]%float []) over_abc))
    = abc /\
  calls (run (insertIntoDB "wide.wav" [1; 0; 0]%float []) over_abc)
    = [CallInsert the_db
         {| content := "wide.wav"; embedding := [1; 0; 0]%float; tags := [] |}].
Proof.
  assert (List.length [1; 0; 0]%float <> 2) as Hlen by discriminate.
  destruct (insertIntoDB_rejects_mismatch stub_audio stub_text over_abc
              the_db "wide.wav" [1; 0; 0]%float [] 2 eq_refl eq_refl Hlen)
    as (_ & Hstatus & _ & Hscan & Hcalls).
  split; [reflexivity|]. split; [reflexivity|]. split; [exact Hlen|].
  split; [exact Hstatus|]. split; [exact Hscan|exact Hcalls].
Defined.

(** An empty query and a query of three dimensions over the example
    store. *)
Lemma searchDB_rejects_bad_query_witness :
  db over_abc = Some the_db /\
  result (searchDB [] 10) over_abc = Normal [] /\
  modelStatus (run (searchDB [] 10) over_abc)
    = "Cannot search with empty embedding." /\
  established_D (scan (world over_abc)) = Some 2 /\
  List.length [1; 0; 0]%float <> 2 /\
  result (searchDB [1; 0; 0]%float 10) over_abc = Normal [] /\
  dbStatus (run (searchDB [1; 0; 0]%float 10) over_abc)
    = "Error searching DB: DimensionMismatch" /\
  scan (world (run (searchDB [1; 0; 0]%float 10) over_abc)) = abc.
Proof.
  destruct (searchDB_rejects_bad_query stub_audio stub_text over_abc the_db
              [] 10 eq_refl) as [Hempty _].
  destruct (Hempty eq_refl) as (Hr & Hm & _).
  assert ([1; 0; 0]%float <> []) as Hq by discriminate.
  assert (List.length [1; 0; 0]%float <> 2) as Hlen by discriminate.
  destruct (searchDB_rejects_bad_query stub_audio stub_text over_abc the_db
              [1; 0; 0]%float 10 eq_refl) as [_ Hmismatch].
  destruct (Hmismatch 2 Hq eq_refl Hlen) as (Hr' & Hs' & _ & Hw').
  split; [reflexivity|]. split; [exact Hr|]. split; [exact Hm|].
  split; [reflexivity|]. split; [exact Hlen|]. split; [exact Hr'|].
  split; [exact Hs'|exact Hw'].
Defined.

(** Clearing the example store leaves the handle in place. *)
Lemma clear_keeps_handle_witness :
  db over_abc = Some the_db /\
  db (run (deleteRequest_settled DeleteSucceeded)
        (run clearDB over_abc))
    = Some the_db /\
  dbStatus (run (deleteRequest_settled DeleteSucceeded)
              (run clearDB over_abc))
    = "Database cleared.".
Proof.
  destruct (@clear_keeps_handle reference_platform over_abc the_db
              eq_refl) as ((Hdb & Hstatus & _) & _).
  split; [reflexivity|]. split; [exact Hdb|exact Hstatus].
Defined.

(** Four files: two embed, one cannot be decoded, one is not audio. *)
Lemma batch_embed_summary_witness :
  batch_ready tt tt the_db (with_folder [kick; broken; notes; snare]) /\
  audioFolderInput_files (with_folder [kick; broken; notes; snare])
    <> [] /\
  audioEmbedStatus
    (run handleEmbedAudioFolder
       (with_folder [kick; broken; notes; snare]))
    = "Finished embedding 2 audio files." /\
  failed tt tt [kick; broken; notes; snare] = 1 /\
  skipped [kick; broken; notes; snare] = 1 /\
  encode_errors
    (run handleEmbedAudioFolder
       (with_folder [kick; broken; notes; snare])) = 1 /\
  List.length
    (scan
       (world (run handleEmbedAudioFolder
                 (with_folder [kick; broken; notes; snare])))) = 2.
Proof.
  assert (batch_ready tt tt the_db
            (with_folder [kick; broken; notes; snare])) as Hready
    by (repeat split).
  assert (audioFolderInput_files
            (with_folder [kick; broken; notes; snare]) <> []) as Hfiles
    by discriminate.
  destruct (@batch_embed_summary reference_platform
              (reference_laws stub_audio stub_text) tt tt the_db
              (with_folder [kick; broken; notes; snare]) Hready Hfiles)
    as (Hstatus & _ & Herrors & _ & Hgain & _).
  split; [exact Hready|]. split; [exact Hfiles|]. split; [exact Hstatus|].
  split; [reflexivity|]. split; [reflexivity|]. split; [exact Herrors|].
  exact Hgain.
Defined.

(** The same files in another order: snare.wav gets the smaller key. *)
Lemma batch_embed_order_witness :
  batch_ready tt tt the_db (with_folder [snare; broken; notes; kick]) /\
  audioFolderInput_files (with_folder [snare; broken; notes; kick])
    <> [] /\
  keys_ascending (world (with_folder [snare; broken; notes; kick])) /\
  map content
    (inserts (run handleEmbedAudioFolder
                (with_folder [snare; broken; notes; kick])))
    = ["snare.wav"; "kick.wav"] /\
  map (fun r => (fst r, content (snd r)))
    (scan (world (run handleEmbedAudioFolder
                    (with_folder [snare; broken; notes; kick]))))
    = [(1, "snare.wav"); (2, "kick.wav")] /\
  keys_ascending
    (world (run handleEmbedAudioFolder
              (with_folder [snare; broken; notes; kick]))).
Proof.
  assert (batch_ready tt tt the_db
            (with_folder [snare; broken; notes; kick])) as Hready
    by (repeat split).
  assert (audioFolderInput_files
            (with_folder [snare; broken; notes; kick]) <> []) as Hfiles
    by discriminate.
  assert (keys_ascending
            (world (with_folder [snare; broken; notes; kick]))) as Hkeys
    by constructor.
  destruct (@batch_embed_order reference_platform
              (reference_laws stub_audio stub_text) tt tt the_db
              (with_folder [snare; broken; notes; kick])
              Hready Hfiles Hkeys)
    as (Hinserts & _ & _ & Hsorted).
  split; [exact Hready|]. split; [exact Hfiles|]. split; [exact Hkeys|].
  split; [exact (f_equal (map content) Hinserts)|].
  split; [reflexivity|exact Hsorted].
Defined.

(** ** Where the spec and the code part *)

(** Counterexample to C1: over the three records of the example store,
    asked for two results, an empty query and a query of three dimensions
    yield none, where min(k, store size) is two; and a query of the right
    dimension with an infinite entry yields two results whose similarities
    are NaN, which are not in rank order. *)
Lemma searchDB_unranked_counterexample :
  Nat.min 2 (List.length (scan (world over_abc))) = 2 /\
  result (searchDB [] 2) over_abc = Normal [] /\
  result (searchDB [1; 0; 0]%float 2) over_abc = Normal [] /\
  mismatches [infinity; 0]%float (scan (world over_abc)) = false /\
  exists r1 r2,
    result (searchDB [infinity; 0]%float 2) over_abc = Normal [r1; r2] /\
    is_number (similarity r1) = false /\
    in_rank_order r1 r2 = false.
Proof.
  split; [reflexivity|]. split; [reflexivity|]. split; [reflexivity|].
  split; [reflexivity|].
  do 2 eexists. split; [vm_compute; reflexivity|]. split; reflexivity.
Qed.

(** Counterexample to C3: after a successful clear the handle is still in place, and an
    insert made then is not refused: it reaches the store, which takes the
    record. *)
Lemma clear_then_insert_counterexample :
  db (run (deleteRequest_settled DeleteSucceeded) (run clearDB over_abc))
    = Some the_db /\
  dbStatus
    (run (insertIntoDB "kick.wav" [1; 0]%float [])
       (run (deleteRequest_settled DeleteSucceeded)
          (run clearDB over_abc)))
    = "Database cleared." /\
  map fst
    (scan (world
       (run (insertIntoDB "kick.wav" [1; 0]%float [])
          (run (deleteRequest_settled DeleteSucceeded)
             (run clearDB over_abc)))))
    = [1].
Proof. repeat split. Qed.

(** Counterexample to C4: two audio files that both embed, into two
    dimensions, over a store that holds a record of three and rejects them:
    the run reports two processed files, yet the store has gained no
    record, and two errors are recorded though no encoding failed. *)
Lemma batch_embed_rejected_insert_counterexample :
  audioEmbedStatus (run handleEmbedAudioFolder (over_legacy [kick; snare]))
    = "Finished embedding 2 audio files." /\
  failed tt tt [kick; snare] = 0 /\
  skipped [kick; snare] = 0 /\
  scan (world (run handleEmbedAudioFolder (over_legacy [kick; snare])))
    = scan (world (over_legacy [kick; snare])) /\
  insert_errors (run handleEmbedAudioFolder (over_legacy [kick; snare])) = 2.
Proof. repeat split. Qed.

(** Counterexample to C6: the self-similarity of the vector whose one entry
    is infinite is NaN: it is not 1.0 within the tolerance and does not
    compare equal to itself, so it is not symmetric under [==] either.  In
    binary64 the same holds of a finite vector whose squared norm
    overflows; and a vector that is not zero but whose squared norm
    underflows to zero has self-similarity 0. *)
Lemma cosine_degenerate_counterexample :
  is_number (cosine [infinity] [infinity]) = false /\
  close_to_one (cosine [infinity] [infinity]) = false /\
  PrimFloat.eqb (cosine [infinity] [1%float]) (cosine [1%float] [infinity])
    = false /\
  is_number (cosine [0x1p600%float] [0x1p600%float]) = false /\
  PrimFloat.eqb 0x1p-600%float 0 = false /\
  cosine [0x1p-600%float] [0x1p-600%float] = 0%float.
Proof. repeat split. Qed.

(** The vectors of section 8: [1,1] against itself, the zero vector
    against [1,0], and [1,0] against [1,1] either way round. *)
Lemma cosine_similarity_laws_witness :
  classify (dot [1; 1]%float [1; 1]%float) = PNormal /\
  close_to_one (cosine [1; 1]%float [1; 1]%float) = true /\
  PrimFloat.eqb (norm [0; 0]%float) 0 = true /\
  cosine [0; 0]%float [1; 0]%float = 0%float /\
  cosine [1; 0]%float [1; 1]%float = cosine [1; 1]%float [1; 0]%float.
Proof.
  destruct (cosine_similarity_laws [1; 1]%float [1; 1]%float)
    as (_ & _ & _ & _ & Hself & _).
  destruct (cosine_similarity_laws [0; 0]%float [1; 0]%float)
    as (_ & Hzero & _).
  destruct (cosine_similarity_laws [1; 0]%float [1; 1]%float)
    as (_ & _ & Hsym & _).
  split; [reflexivity|]. split; [apply Hself; reflexivity|].
  split; [reflexivity|]. split; [apply Hzero; left; reflexivity|exact Hsym].
Defined.

(** C2: [clearDB] leaves the controls enabled.  On a loaded page with a
    folder selected, a click on the clear button starts a clear; while its
    request is pending the embed button is enabled, and a click on it
    starts a batch run: two operations are running. *)
Theorem clear_does_not_disable_controls :
  let idle := {| app := with_folder [kick]; running := [] |} in
  let clearing := step (Click clearDbButton) idle in
  running clearing = [ClearTask] /\
  disabled (app clearing) embedAudioButton = false /\
  running (step (Click embedAudioButton) clearing)
    = [ClearTask; EmbedTask [kick]] /\
  List.length (running (steps [Click clearDbButton; Click embedAudioButton]
                          idle)) = 2.
Proof. repeat split. Qed.

(** ** Concrete runs of the further properties *)

Import ReferenceStartup.

(** The models load but the store cannot be opened: the controls end up
    enabled over a null [db]. *)
Lemma main_controls_witness :
  @fresh_page closed_platform closed_fresh /\
  all_enabled (run (@main closed_platform closed_loader) closed_fresh) /\
  db (run (@main closed_platform closed_loader) closed_fresh) = None /\
  modelStatus (run (@main closed_platform closed_loader) closed_fresh)
    = "Application initialization failed. Some features may be disabled." /\
  modelStatusColor (run (@main closed_platform closed_loader) closed_fresh)
    = "green".
Proof.
  assert (@fresh_page closed_platform closed_fresh) as Hfresh
    by (repeat split).
  destruct (@main_controls closed_platform closed_loader closed_fresh Hfresh)
    as (_ & Hcontrols & Hdb & Hcolour & Hstatus).
  split; [exact Hfresh|]. split; [exact Hcontrols|]. split; [exact Hdb|].
  split; [exact Hstatus|]. apply Hcolour. reflexivity.
Defined.

(** Embedding a text on the loaded page. *)
Lemma getTextEmbedding_outcome_witness :
  tokenizer over_abc = Some tt /\
  textModel over_abc = Some tt /\
  result (getTextEmbedding "kick drum") over_abc
    = Normal (Some [1; 0]%float) /\
  calls (run (getTextEmbedding "kick drum") over_abc)
    = [CallTokenizer "kick drum"; CallTextModel].
Proof.
  destruct (@getTextEmbedding_outcome reference_platform over_abc tt tt
              "kick drum" eq_refl eq_refl)
    as ((Hresult & _) & Hcalls & _).
  split; [reflexivity|]. split; [reflexivity|].
  split; [exact Hresult|exact Hcalls].
Defined.

(** Embedding a file that cannot be decoded. *)
Lemma getAudioEmbedding_outcome_witness :
  audioProcessor over_abc = Some tt /\
  audioModel over_abc = Some tt /\
  result (getAudioEmbedding broken) over_abc = Normal None /\
  modelStatus (run (getAudioEmbedding broken) over_abc)
    = "Error creating audio embedding: Unable to decode audio data".
Proof.
  destruct (@getAudioEmbedding_outcome reference_platform over_abc tt tt
              broken eq_refl eq_refl)
    as ((Hresult & Hstatus & _) & _).
  split; [reflexivity|]. split; [reflexivity|].
  split; [exact Hresult|exact Hstatus].
Defined.

(** A text search for "kick drum" between a no-break space, spaces and an
    ideographic space, over the example store: the trimmed query, a header
    and three items. *)
Lemma handleTextSearch_outcome_witness :
  trim (textSearchInput_value (searching padded [])) = "kick drum" /\
  all_enabled (run handleTextSearch (searching padded [])) /\
  map (fun node =>
         match node with
         | Header n _ query => (show_nat n, query)
         | Item label _ => ("item", label)
         | NoResults => ("none", "")
         end)
    (searchResultsList (run handleTextSearch (searching padded [])))
    = [("3", "kick drum"); ("item", "a"); ("item", "c"); ("item", "b")] /\
  modelStatus (run handleTextSearch (searching padded []))
    = "Search complete.".
Proof.
  assert (trim (textSearchInput_value (searching padded [])) <> "")
    as Hquery by (vm_compute; discriminate).
  destruct (@handleTextSearch_outcome reference_platform
              (searching padded []) tt tt the_db
              eq_refl eq_refl eq_refl Hquery)
    as (_ & Henabled & _ & _ & Hshown & Hstatus & _).
  split; [reflexivity|]. split; [exact Henabled|].
  split; [|exact Hstatus].
  exact (f_equal
           (map (fun node =>
                   match node with
                   | Header n _ query => (show_nat n, query)
                   | Item label _ => ("item", label)
                   | NoResults => ("none", "")
                   end)) Hshown).
Defined.


(** Of four files, the two that embed are inserted. *)
Lemma batch_inserts_only_embedded_audio_witness :
  batch_ready tt tt the_db (with_folder [kick; broken; notes; snare]) /\
  audioFolderInput_files (with_folder [kick; broken; notes; snare])
    <> [] /\
  exists new,
    inserts (run handleEmbedAudioFolder
               (with_folder [kick; broken; notes; snare]))
    = inserts (with_folder [kick; broken; notes; snare]) ++ new /\
    Forall
      (fun d =>
         exists f,
           In f [kick; broken; notes; snare] /\
           startsWith (file_type f) "audio/" = true /\
           audio_pipeline tt tt f = Normal (embedding d) /\
           content d = file_name f /\ tags d = [TAG_AUDIO; file_type f])
      new.
Proof.
  assert (@batch_ready reference_platform tt tt the_db
            (with_folder [kick; broken; notes; snare])) as Hready
    by (repeat split).
  assert (audioFolderInput_files
            (with_folder [kick; broken; notes; snare]) <> []) as Hfiles
    by discriminate.
  split; [exact Hready|]. split; [exact Hfiles|].
  exact (@batch_inserts_only_embedded_audio reference_platform tt tt the_db
           (with_folder [kick; broken; notes; snare]) Hready Hfiles).
Defined.

(** A batch run and an audio search from an empty blob URL store. *)
Lemma handlers_revoke_every_url_witness :
  (forall f,
     new_object_url f (objectUrls (with_folder [kick; broken])) <> "" /\
     ~ In (new_object_url f (objectUrls (with_folder [kick; broken])))
         (map fst (objectUrls (with_folder [kick; broken])))) /\
  objectUrls (run handleEmbedAudioFolder (with_folder [kick; broken]))
    = [] /\
  objectUrls (run handleAudioFileSearch (with_folder [kick; broken]))
    = [].
Proof.
  assert (forall f,
            new_object_url f (objectUrls (with_folder [kick; broken]))
              <> "" /\
            ~ In (new_object_url f
                    (objectUrls (with_folder [kick; broken])))
                (map fst (objectUrls (with_folder [kick; broken]))))
    as Hfresh.
  { intros f. split; [vm_compute; discriminate|cbn; tauto]. }
  split; [exact Hfresh|].
  exact (@handlers_revoke_every_url reference_platform
           (with_folder [kick; broken]) Hfresh).
Defined.

(** Clicks on embed and search while a batch run is pending, then its
    completion and another search. *)
Lemma one_operation_without_clear_witness :
  running (idle [kick] "kick") = [] /\
  ~ In (Click clearDbButton)
      [Click embedAudioButton; Click searchButton; Click embedAudioButton;
       Resume 0; Click searchButton] /\
  running
    (steps [Click embedAudioButton; Click searchButton;
            Click embedAudioButton; Resume 0; Click searchButton]
       (idle [kick] "kick")) = [TextSearchTask "kick"] /\
  List.length
    (running
       (steps [Click embedAudioButton; Click searchButton;
               Click embedAudioButton; Resume 0; Click searchButton]
          (idle [kick] "kick"))) <= 1.
Proof.
  assert (~ In (Click clearDbButton)
            [Click embedAudioButton; Click searchButton;
             Click embedAudioButton; Resume 0; Click searchButton]) as Hes.
  { cbn. intros [H|[H|[H|[H|[H|[]]]]]]; discriminate H. }
  destruct (@one_operation_without_clear reference_platform _
              (idle [kick] "kick") eq_refl Hes) as [Hone _].
  split; [reflexivity|]. split; [exact Hes|].
  split; [reflexivity|exact Hone].
Defined.

(** A query of white space only on the loaded page: the alert and nothing
    else. *)
Lemma handlers_only_report_when_refusing_witness :
  trim (textSearchInput_value (searching blank [])) = "" /\
  alerts (run handleTextSearch (searching blank []))
    = ["Please enter a search query."] /\
  calls (run handleTextSearch (searching blank [])) = [] /\
  disabled (run handleTextSearch (searching blank [])) searchButton = false.
Proof.
  destruct (@handlers_only_report_when_refusing reference_platform
              (searching blank [])) as (_ & _ & Hblank & _).
  specialize (Hblank eq_refl).
  split; [reflexivity|].
  split; [exact (f_equal (fun out => alerts (fst out)) Hblank)|].
  split; [exact (f_equal (fun out => calls (fst out)) Hblank)|].
  exact (f_equal (fun out => disabled (fst out) searchButton) Hblank).
Defined.

(** A batch run over a file that cannot be decoded still ends with the
    controls enabled. *)
Lemma finished_operation_enables_controls_witness :
  running (step (Click embedAudioButton) (idle [broken] "")) 
    = [EmbedTask [broken]] /\
  running (step (Resume 0) (step (Click embedAudioButton) (idle [broken] "")))
    = [] /\
  all_enabled
    (app (step (Resume 0)
            (step (Click embedAudioButton) (idle [broken] "")))).
Proof.
  destruct (@finished_operation_enables_controls reference_platform
              (app (idle [broken] "")) [broken] "" broken)
    as (_ & _ & _ & Hpage).
  assert (EmbedTask [broken] <> ClearTask) as Hnot by discriminate.
  destruct (Hpage (step (Click embedAudioButton) (idle [broken] ""))
              (EmbedTask [broken]) eq_refl Hnot) as [Hnone Henabled].
  split; [reflexivity|]. split; [exact Hnone|exact Henabled].
Defined.

(** A blocked clear over the example store. *)
Lemma clear_request_outcomes_witness :
  db over_abc <> None /\
  calls (run clearDB over_abc) = [CallDeleteDatabase DB_NAME] /\
  world (run (deleteRequest_settled DeleteBlocked) (run clearDB over_abc))
    = abc.
Proof.
  assert (db over_abc <> None) as Hdb by discriminate.
  destruct (@clear_request_outcomes reference_platform over_abc)
    as (_ & Hissued & _).
  destruct (@clear_request_outcomes reference_platform
              (run clearDB over_abc)) as (_ & _ & _ & Hblocked & _).
  split; [exact Hdb|].
  split; [exact (f_equal calls (Hissued Hdb))|].
  exact (f_equal world Hblocked).
Defined.
